(** * scan.py: the OpenAPI endpoint scanner

    A shallow embedding of [scan.py] and the properties of its
    specification.  The script downloads an OpenAPI document, and for every
    path that declares a [get] operation it fills the path's placeholders,
    sends one request and prints one classification line.

    Layout: Python values and strings; the interpreter, its libraries and
    the network as a [Runtime]; the three functions of the script
    ([get_json], [fetch_api], [main]); a reference runtime on which the
    model is evaluated; then the theorems.

    The console is taken to be UTF-8 with the [strict] error handler, the
    default of a terminal in a UTF-8 locale.

    Outside the model: the interpreter's resource limits (recursion depth,
    length of integer literals), [KeyboardInterrupt], and wall-clock time
    ([time.sleep] is an event). *)

From Stdlib Require Import ZArith NArith List String Ascii Bool Lia.
From Stdlib.Strings Require Import Byte.
From Stdlib Require Import SpecFloat.
From Stdlib Require Import Permutation.
Import ListNotations.

(** ** Python strings

    A [str] is a sequence of code points.  [py] embeds an ASCII literal. *)

Definition codepoint := N.
Definition pystr := list codepoint.

Definition py (x : string) : pystr :=
  map N_of_ascii (list_ascii_of_string x).

Definition lbrace : codepoint := 123%N.
Definition rbrace : codepoint := 125%N.

(** [s.startswith(p)]. *)
Fixpoint starts_with (p s : pystr) : bool :=
  match p, s with
  | [], _ => true
  | _ :: _, [] => false
  | a :: p', b :: s' => N.eqb a b && starts_with p' s'
  end.

(** [w in s] for two strings: [w] occurs somewhere in [s]. *)
Fixpoint occurs (w s : pystr) : bool :=
  match s with
  | [] => starts_with w []
  | _ :: s' => starts_with w s || occurs w s'
  end.

Definition pystr_eqb (a b : pystr) : bool :=
  Nat.eqb (List.length a) (List.length b) && starts_with a b.

(** [s.replace(old, new)]: a left-to-right scan that replaces the leftmost
    occurrences without overlap.  [skip] counts the characters of a matched
    occurrence still to be passed over.  With an empty [old] Python puts
    [new] before every character and at the end. *)
Fixpoint replace_from (old new : pystr) (skip : nat) (s : pystr) : pystr :=
  match s with
  | [] => []
  | c :: s' =>
      match skip with
      | S k => replace_from old new k s'
      | O =>
          if starts_with old s
          then new ++ replace_from old new (List.length old - 1) s'
          else c :: replace_from old new 0 s'
      end
  end.

Definition replace (old new s : pystr) : pystr :=
  match old with
  | [] => new ++ flat_map (fun c => c :: new) s
  | _ :: _ => replace_from old new 0 s
  end.

(** [s.ljust(width)], the effect of the format specification [:<width]. *)
Definition ljust (width : nat) (s : pystr) : pystr :=
  s ++ repeat 32%N (width - List.length s).

(** Decimal digits of a natural number, most significant first. *)
Fixpoint digits_fuel (fuel : nat) (n : N) (acc : pystr) : pystr :=
  match fuel with
  | O => acc
  | S fuel' =>
      let acc' := (48 + n mod 10)%N :: acc in
      if (n <? 10)%N then acc' else digits_fuel fuel' (n / 10)%N acc'
  end.

Definition str_N (n : N) : pystr :=
  digits_fuel (S (N.to_nat (N.log2 n))) n [].

(** [str(z)] for an [int]. *)
Definition str_Z (z : Z) : pystr :=
  match z with
  | Zneg p => 45%N :: str_N (Npos p)
  | _ => str_N (Z.to_N z)
  end.

Definition hex_digit (n : N) : codepoint :=
  if (n <? 10)%N then (48 + n)%N else (87 + n)%N.

(** [width] lower-case hexadecimal digits of [n]. *)
Fixpoint hex (width : nat) (n : N) : pystr :=
  match width with
  | O => []
  | S w => hex w (n / 16)%N ++ [hex_digit (n mod 16)%N]
  end.

(** ** Python values

    The values [json.loads] can return.  The keys of a [dict] that comes
    from JSON are strings; a [dict] keeps its items in insertion order. *)

#[warnings="-register-all"]
Inductive pyval :=
| PNone
| PBool (b : bool)
| PInt (z : Z)
| PFloat (f : spec_float)
| PStr (s : pystr)
| PList (l : list pyval)
| PDict (items : list (pystr * pyval)).

(** [bool(v)]: what [or] and [if] look at. *)
Definition truthy (v : pyval) : bool :=
  match v with
  | PNone => false
  | PBool b => b
  | PInt z => negb (Z.eqb z 0)
  | PFloat (S754_zero _) => false
  | PFloat _ => true
  | PStr [] => false
  | PStr (_ :: _) => true
  | PList [] => false
  | PList (_ :: _) => true
  | PDict [] => false
  | PDict (_ :: _) => true
  end.

(** [a or b]. *)
Definition py_or (a b : pyval) : pyval := if truthy a then a else b.

(** [type(v).__name__]. *)
Definition type_name (v : pyval) : pystr :=
  match v with
  | PNone => py "NoneType"
  | PBool _ => py "bool"
  | PInt _ => py "int"
  | PFloat _ => py "float"
  | PStr _ => py "str"
  | PList _ => py "list"
  | PDict _ => py "dict"
  end.

Definition is_list (v : pyval) : bool :=
  match v with PList _ => true | _ => false end.

Definition is_dict (v : pyval) : bool :=
  match v with PDict _ => true | _ => false end.

(** Lookup of a key in the items of a [dict]. *)
Fixpoint dict_lookup (k : pystr) (items : list (pystr * pyval)) : option pyval :=
  match items with
  | [] => None
  | (k', v) :: rest => if pystr_eqb k k' then Some v else dict_lookup k rest
  end.

(** [d[k] = v]: a key already present keeps its place. *)
Fixpoint dict_set (k : pystr) (v : pyval) (items : list (pystr * pyval))
  : list (pystr * pyval) :=
  match items with
  | [] => [(k, v)]
  | (k', v') :: rest =>
      if pystr_eqb k k' then (k', v) :: rest else (k', v') :: dict_set k v rest
  end.

(** ** Exceptions and the results of calls *)

(** An exception of a class other than [HTTPError], by the name of its
    class and its [str]. *)
Record pyerror := PyError {
  err_class : pystr;
  err_text : pystr
}.

(** What [read()] on a response or on an [HTTPError] does: it returns the
    body, or raises (a reset connection, a short read). *)
Inductive stream :=
| Body (data : list byte)
| Broken (e : pyerror).

(** An [Exception]: [urllib.error.HTTPError] with its status, its reason
    and its body, or any other. *)
Inductive pyexc :=
| HTTPError (code : Z) (reason : pystr) (fp : stream)
| Error (e : pyerror).

(** [str(e)]. *)
Definition exc_str (e : pyexc) : pystr :=
  match e with
  | HTTPError code reason _ => py "HTTP Error " ++ str_Z code ++ py ": " ++ reason
  | Error e => err_text e
  end.

(** A call of [read], [decode], [json.loads] or of an operation on a value
    returns or raises; none of them raises an [HTTPError]. *)
Inductive outcome (A : Type) :=
| Value (a : A)
| Raises (e : pyerror).
Arguments Value {A} a.
Arguments Raises {A} e.

(** What leaves a function of the script: [SystemExit] is a
    [BaseException] that [except Exception] does not catch. *)
Inductive raised :=
| Exc (e : pyexc)
| SystemExit (code : Z).

Inductive res (A : Type) :=
| Ret (a : A)
| Raise (r : raised).
Arguments Ret {A} a.
Arguments Raise {A} r.

(** ** Operations of the script on values *)

Definition AttributeError (v : pyval) (attr : string) : pyerror :=
  PyError (py "AttributeError")
        (py "'" ++ type_name v ++ py "' object has no attribute '" ++ py attr ++ py "'").

(** [v.get(key, default)]. *)
Definition py_get (v : pyval) (key : pystr) (default : pyval) : outcome pyval :=
  match v with
  | PDict items =>
      Value (match dict_lookup key items with Some x => x | None => default end)
  | _ => Raises (AttributeError v "get")
  end.

(** [len(v)]. *)
Definition py_len (v : pyval) : outcome nat :=
  match v with
  | PDict items => Value (List.length items)
  | PList l => Value (List.length l)
  | PStr s => Value (List.length s)
  | _ => Raises (PyError (py "TypeError")
                         (py "object of type '" ++ type_name v ++ py "' has no len()"))
  end.

(** [v.items()]. *)
Definition py_items (v : pyval) : outcome (list (pystr * pyval)) :=
  match v with
  | PDict items => Value items
  | _ => Raises (AttributeError v "items")
  end.

(** [key in v] for a string [key]: a key of a [dict], an element of a
    [list], a substring of a [str]. *)
Definition py_contains (key : pystr) (v : pyval) : outcome bool :=
  match v with
  | PDict items =>
      Value (match dict_lookup key items with Some _ => true | None => false end)
  | PList l =>
      Value (existsb (fun x => match x with PStr s => pystr_eqb key s | _ => false end) l)
  | PStr s => Value (occurs key s)
  | _ => Raises (PyError (py "TypeError")
                         (py "argument of type '" ++ type_name v ++ py "' is not iterable"))
  end.

(** ** Console and network events *)

Module Colors.

Definition ESC : codepoint := 27%N.
Definition GREEN : pystr := ESC :: py "[92m".
Definition RED : pystr := ESC :: py "[91m".
Definition YELLOW : pystr := ESC :: py "[93m".
Definition RESET : pystr := ESC :: py "[0m".

End Colors.

(** One constructor for each [print] of the script. *)
Inductive line :=
| Rule
| Downloading
| DownloadFailed (cause : pystr)
| Found (n : nat)
| Starting
| Test (path : pystr)
| Success
| NotFound
| ParamError (status : Z)
| Hint (msg : pystr)
| Raw (preview : pystr)
| Failed (status : Z)
| ScanComplete.

(** The characters a [print] writes, with its [end]. *)
Definition line_text (l : line) : pystr :=
  let nl := [10%N] in
  match l with
  | Rule => repeat 45%N 50 ++ nl
  | Downloading => py "1. Downloading OpenAPI Spec..." ++ nl
  | DownloadFailed cause =>
      Colors.RED ++ py "Failed to download OpenAPI spec: " ++ cause ++ Colors.RESET ++ nl
  | Found n => py "   Found " ++ str_N (N.of_nat n) ++ py " paths definition." ++ nl
  | Starting => py "2. Starting Scan..." ++ nl
  | Test path => py "[TEST] " ++ ljust 40 path ++ py " ... "
  | Success => Colors.GREEN ++ py "SUCCESS (200)" ++ Colors.RESET ++ nl
  | NotFound => Colors.RED ++ py "NOT FOUND (404)" ++ Colors.RESET ++ nl
  | ParamError status =>
      Colors.YELLOW ++ py "PARAM ERROR (" ++ str_Z status ++ py ")" ++ Colors.RESET ++ nl
  | Hint msg => py "       -> Hint: " ++ msg ++ nl
  | Raw preview => py "       -> Raw: " ++ preview ++ py "..." ++ nl
  | Failed status =>
      Colors.RED ++ py "FAILED (" ++ str_Z status ++ py ")" ++ Colors.RESET ++ nl
  | ScanComplete => py "Scan Complete." ++ nl
  end.

Record request := Request {
  full_url : pystr;
  headers : list (pystr * pystr)
}.

Record response := Response {
  getcode : Z;
  fp : stream
}.

(** What [urllib.request.urlopen] does: it returns a response, or raises an
    [HTTPError] for a status that is not a success, or another exception
    when there is no status (no route, a refused connection, a bad URL). *)
Inductive reply :=
| Answers (r : response)
| Fails (e : pyexc).

(** [Sleep] is [time.sleep(0.2)]. *)
Inductive event :=
| Print (l : line)
| UrlOpen (r : request)
| Sleep.

(** ** The console

    [print] encodes its text for the console before it writes any of it,
    and raises [UnicodeEncodeError] when the text holds a surrogate.  Of
    the texts the script prints, two come from a string of a JSON document
    and can hold one, since [json.loads] accepts a lone [\udXXX] escape:
    the path of a [[TEST]] line and the message of a hint.  The others are
    literals, numbers, messages of exceptions and bodies decoded from
    UTF-8, which hold none. *)

Definition is_surrogate (c : codepoint) : bool :=
  (55296 <=? c)%N && (c <=? 57343)%N.

(** [s.encode("utf-8")] does not raise. *)
Definition encodable (s : pystr) : bool :=
  forallb (fun c => negb (is_surrogate c)) s.

(** The text of a line that comes from the document. *)
Definition from_document (l : line) : pystr :=
  match l with
  | Test path => path
  | Hint msg => msg
  | _ => []
  end.

(** What [print] passes to the console first, before its [end], for these
    lines. *)
Definition written (l : line) : pystr :=
  match l with
  | Test path => py "[TEST] " ++ ljust 40 path
  | Hint msg => py "       -> Hint: " ++ msg
  | _ => []
  end.

(** The surrogates that start [s]. *)
Fixpoint surrogate_run (s : pystr) : nat :=
  match s with
  | c :: s' => if is_surrogate c then S (surrogate_run s') else 0
  | [] => 0
  end.

(** The first surrogate of [s]: its position, counted from [pos], the
    code point, and the number of surrogates in a row. *)
Fixpoint first_surrogate (pos : nat) (s : pystr) : option (nat * codepoint * nat) :=
  match s with
  | [] => None
  | c :: s' =>
      if is_surrogate c then Some (pos, c, surrogate_run s)
      else first_surrogate (S pos) s'
  end.

(** The exception of [text.encode("utf-8")]. *)
Definition UnicodeEncodeError (text : pystr) : pyerror :=
  PyError (py "UnicodeEncodeError")
    match first_surrogate 0 text with
    | Some (pos, c, 1) =>
        py "'utf-8' codec can't encode character '\u" ++ hex 4 c
        ++ py "' in position " ++ str_N (N.of_nat pos)
        ++ py ": surrogates not allowed"
    | Some (pos, _, n) =>
        py "'utf-8' codec can't encode characters in position "
        ++ str_N (N.of_nat pos) ++ py "-" ++ str_N (N.of_nat (pos + n - 1))
        ++ py ": surrogates not allowed"
    | None => []
    end.

(** ** The runtime

    The interpreter's libraries and the network, as far as the script uses
    them.  The script is verified against every runtime. *)

Class Runtime := {
  World : Type;
  (** [urllib.request.urlopen(req)]. *)
  urlopen : request -> World -> reply * World;
  (** [bytes.decode()], strict UTF-8. *)
  bytes_decode : list byte -> outcome pystr;
  (** [json.loads]. *)
  json_loads : pystr -> outcome pyval;
  (** [repr(v)]. *)
  py_repr : pyval -> pystr
}.

(** [fp.read()]. *)
Definition read (s : stream) : outcome (list byte) :=
  match s with
  | Body data => Value data
  | Broken e => Raises e
  end.

(** [str(v)], which is also what an f-string field without a format
    specification gives. *)
Definition py_str {R : Runtime} (v : pyval) : pystr :=
  match v with
  | PStr s => s
  | _ => py_repr v
  end.

(** ** Computations of the script

    A computation reads and updates the world, appends events and returns
    or raises. *)

Section Script.
Context {R : Runtime}.

Definition M (A : Type) : Type := World -> list event * res A * World.

Definition ret {A} (a : A) : M A := fun w => ([], Ret a, w).

Definition bind {A B} (c : M A) (k : A -> M B) : M B :=
  fun w =>
    match c w with
    | (t1, Ret a, w1) => let '(t2, r, w2) := k a w1 in (t1 ++ t2, r, w2)
    | (t1, Raise e, w1) => (t1, Raise e, w1)
    end.

Notation "x <- c ;; k" := (bind c (fun x => k))
  (at level 61, c at next level, right associativity).
Notation "c ;; k" := (bind c (fun _ => k))
  (at level 61, right associativity).

Definition sleep : M unit := fun w => ([Sleep], Ret tt, w).

Definition raise {A} (r : raised) : M A := fun w => ([], Raise r, w).

(** [print]: the line is written whole, or the text cannot be encoded and
    nothing is written. *)
Definition print (l : line) : M unit :=
  if encodable (from_document l)
  then fun w => ([Print l], Ret tt, w)
  else raise (Exc (Error (UnicodeEncodeError (written l)))).

(** A library call inside the script. *)
Definition lift {A} (o : outcome A) : M A :=
  match o with
  | Value a => ret a
  | Raises e => raise (Exc (Error e))
  end.

Definition call_urlopen (req : request) : M response :=
  fun w => let '(o, w') := urlopen req w in
           match o with
           | Answers resp => ([UrlOpen req], Ret resp, w')
           | Fails e => ([UrlOpen req], Raise (Exc e), w')
           end.

(** [sys.exit(code)]. *)
Definition sys_exit {A} (code : Z) : M A := raise (SystemExit code).

(** [try: body / except ...]: the first clause that matches what [body]
    raised runs; what a clause raises itself is not offered to the clauses
    after it. *)
Definition clause (A : Type) : Type := raised -> option (M A).

Fixpoint select {A} (clauses : list (clause A)) (r : raised) : option (M A) :=
  match clauses with
  | [] => None
  | c :: rest => match c r with Some h => Some h | None => select rest r end
  end.

Definition try_except {A} (body : M A) (clauses : list (clause A)) : M A :=
  fun w =>
    match body w with
    | (t1, Ret a, w1) => (t1, Ret a, w1)
    | (t1, Raise r, w1) =>
        match select clauses r with
        | Some h => let '(t2, r2, w2) := h w1 in (t1 ++ t2, r2, w2)
        | None => (t1, Raise r, w1)
        end
    end.

(** [except urllib.error.HTTPError as e]. *)
Definition except_HTTPError {A} (h : Z -> pystr -> stream -> M A) : clause A :=
  fun r => match r with
           | Exc (HTTPError code reason body) => Some (h code reason body)
           | _ => None
           end.

(** [except Exception as e]. *)
Definition except_Exception {A} (h : pyexc -> M A) : clause A :=
  fun r => match r with
           | Exc e => Some (h e)
           | SystemExit _ => None
           end.

(** A bare [except:]. *)
Definition except_all {A} (h : M A) : clause A := fun _ => Some h.

(** [for x in xs: body x]; [continue] is an early [ret tt] of [body]. *)
Fixpoint for_each {A} (xs : list A) (body : A -> M unit) : M unit :=
  match xs with
  | [] => ret tt
  | x :: xs' => body x ;; for_each xs' body
  end.

(** ** The script *)

Definition TOKEN : pystr := py "JXeWdITivc2N0neAHWYxpriQcRpiiOvF2vJmIhBgnSs".
Definition OPENAPI_URL : pystr := py "https://api.adultdatalink.com/openapi.json".
Definition BASE_URL : pystr := py "https://api.adultdatalink.com".

Definition get_json (url : pystr) : M pyval :=
  try_except
    (let req := Request url [(py "User-Agent", py "Mozilla/5.0")] in
     response <- call_urlopen req ;;
     data <- lift (read (fp response)) ;;
     text <- lift (bytes_decode data) ;;
     lift (json_loads text))
    [except_Exception (fun e =>
       print (DownloadFailed (exc_str e)) ;;
       sys_exit 1)].

(** The seven [path.replace] calls of [fetch_api], in their order. *)
Definition materialize (path : pystr) : pystr :=
  let path := replace (py "{video_id}") (py "12345") path in
  let path := replace (py "{id}") (py "1") path in
  let path := replace (py "{category}") (py "anal") path in
  let path := replace (py "{pornstar_name}") (py "mia-khalifa") path in
  let path := replace (py "{username}") (py "admin") path in
  let path := replace (py "{keyword}") (py "teen") path in
  let path := replace (py "{q}") (py "latest") path in
  path.

(** The request [fetch_api] builds for a path. *)
Definition probe_request (path : pystr) : request :=
  let path := materialize path in
  let full_url := BASE_URL ++ path ++ py "?q=latest&page=1&sort=date" in
  Request full_url
    [ (py "Authorization", py "Bearer " ++ TOKEN);
      (py "Accept", py "application/json");
      (py "User-Agent", py "AutoScanner/1.0") ].

Definition fetch_api (path : pystr) : M (Z * pystr) :=
  let req := probe_request path in
  try_except
    (response <- call_urlopen req ;;
     let code := getcode response in
     data <- lift (read (fp response)) ;;
     body <- lift (bytes_decode data) ;;
     ret (code, body))
    [ except_HTTPError (fun code _ e_fp =>
        data <- lift (read e_fp) ;;
        body <- lift (bytes_decode data) ;;
        ret (code, body));
      except_Exception (fun e => ret (0%Z, exc_str e)) ].

(** The [try] of the PARAM ERROR branch: the hint line. *)
Definition print_hint (body : pystr) : M unit :=
  try_except
    (err_json <- lift (json_loads body) ;;
     detail <- lift (py_get err_json (py "detail") PNone) ;;
     message <- lift (py_get err_json (py "message") PNone) ;;
     let msg := py_or (py_or detail message) (PStr (py "Unknown error")) in
     let msg := if is_list msg then PStr (py_str msg) else msg in
     print (Hint (py_str msg)))
    [ except_all (print (Raw (firstn 50 body))) ].

(** The [if / elif / else] chain of the loop: the report for one probe
    result. *)
Definition report (status : Z) (body : pystr) : M unit :=
  if Z.eqb status 200 then print Success
  else if Z.eqb status 404 then print NotFound
  else if existsb (Z.eqb status) [400; 422]%Z then
    print (ParamError status) ;;
    print_hint body
  else print (Failed status).

(** The body of the loop for one item of [paths.items()]. *)
Definition scan_one (item : pystr * pyval) : M unit :=
  let '(path, methods) := item in
  has_get <- lift (py_contains (py "get") methods) ;;
  if negb has_get then ret tt
  else
    print (Test path) ;;
    result <- fetch_api path ;;
    let '(status, body) := result in
    report status body ;;
    sleep.

Definition main : M unit :=
  print Rule ;;
  print Downloading ;;
  spec <- get_json OPENAPI_URL ;;
  paths <- lift (py_get spec (py "paths") (PDict [])) ;;
  n <- lift (py_len paths) ;;
  print (Found n) ;;
  print Rule ;;
  print Starting ;;
  print Rule ;;
  items <- lift (py_items paths) ;;
  for_each items scan_one ;;
  print Rule ;;
  print ScanComplete.

End Script.

(** The exit status of the interpreter after [main()]: an uncaught
    exception prints a traceback and gives status 1. *)
Definition exit_status (r : res unit) : Z :=
  match r with
  | Ret _ => 0
  | Raise (SystemExit code) => code
  | Raise (Exc _) => 1
  end.

(** What a run shows: the lines printed, the requests sent, and the paths
    of the [[TEST]] lines. *)
Definition printed (t : list event) : list line :=
  flat_map (fun e => match e with Print l => [l] | _ => [] end) t.

Definition requests (t : list event) : list request :=
  flat_map (fun e => match e with UrlOpen r => [r] | _ => [] end) t.

Definition probed (t : list event) : list pystr :=
  flat_map (fun e => match e with Print (Test path) => [path] | _ => [] end) t.

(** The category lines: the second half of a report line. *)
Definition is_category (l : line) : bool :=
  match l with
  | Success | NotFound | ParamError _ | Failed _ => true
  | _ => false
  end.

(** The characters written to the console. *)
Definition console (t : list event) : pystr := flat_map line_text (printed t).

(** The pauses of a run, and its category lines. *)
Definition sleeps (t : list event) : nat :=
  List.length (filter (fun e => match e with Sleep => true | _ => false end) t).

Definition categories (t : list event) : list line :=
  filter is_category (printed t).

(** * The reference runtime

    CPython's [bytes.decode], [json.loads] and [repr], and a scripted
    server, to evaluate the script on concrete runs. *)

Module Ref.

(** ** [bytes.decode()]

    The strict UTF-8 decoder: no overlong forms, no surrogates, nothing
    above U+10FFFF. *)

Definition is_continuation (b : N) : bool := (128 <=? b)%N && (b <? 192)%N.

Definition continuation_bits (b : N) : N := (b - 128)%N.

Inductive utf8_error :=
| InvalidStart
| EndOfData (len : nat)
| InvalidContinuation (len : nat).

(** The second byte of a three-byte and of a four-byte sequence. *)
Definition bad_second3 (c c2 : N) : bool :=
  negb (is_continuation c2)
  || (if (c2 <? 160)%N then (c =? 224)%N else (c =? 237)%N).

Definition bad_second4 (c c2 : N) : bool :=
  negb (is_continuation c2)
  || (if (c2 <? 144)%N then (c =? 240)%N else (c =? 244)%N).

(** Decodes from position [pos]; an error comes with the position of the
    offending sequence and its first byte. *)
Fixpoint utf8_from (pos : nat) (s : list N) : pystr + (nat * N * utf8_error) :=
  let cons c len rest :=
    match utf8_from (pos + len) rest with
    | inl t => inl (c :: t)
    | inr e => inr e
    end in
  match s with
  | [] => inl []
  | c :: s1 =>
      if (c <? 128)%N then cons c 1 s1
      else if (c <? 194)%N then inr (pos, c, InvalidStart)
      else if (c <? 224)%N then
        match s1 with
        | [] => inr (pos, c, EndOfData 1)
        | c2 :: s2 =>
            if is_continuation c2
            then cons ((c - 192) * 64 + continuation_bits c2)%N 2 s2
            else inr (pos, c, InvalidContinuation 1)
        end
      else if (c <? 240)%N then
        match s1 with
        | [] => inr (pos, c, EndOfData 1)
        | c2 :: s2 =>
            if bad_second3 c c2 then inr (pos, c, InvalidContinuation 1)
            else
              match s2 with
              | [] => inr (pos, c, EndOfData 2)
              | c3 :: s3 =>
                  if is_continuation c3
                  then cons ((c - 224) * 4096 + continuation_bits c2 * 64
                             + continuation_bits c3)%N 3 s3
                  else inr (pos, c, InvalidContinuation 2)
              end
        end
      else if (c <? 245)%N then
        match s1 with
        | [] => inr (pos, c, EndOfData 1)
        | c2 :: s2 =>
            if bad_second4 c c2 then inr (pos, c, InvalidContinuation 1)
            else
              match s2 with
              | [] => inr (pos, c, EndOfData 2)
              | c3 :: s3 =>
                  if negb (is_continuation c3)
                  then inr (pos, c, InvalidContinuation 2)
                  else
                    match s3 with
                    | [] => inr (pos, c, EndOfData 3)
                    | c4 :: s4 =>
                        if is_continuation c4
                        then cons ((c - 240) * 262144 + continuation_bits c2 * 4096
                                   + continuation_bits c3 * 64
                                   + continuation_bits c4)%N 4 s4
                        else inr (pos, c, InvalidContinuation 3)
                    end
              end
        end
      else inr (pos, c, InvalidStart)
  end.

(** [str(e)] of a [UnicodeDecodeError]. *)
Definition utf8_error_text (pos : nat) (first : N) (e : utf8_error) : pystr :=
  let '(len, reason) :=
    match e with
    | InvalidStart => (1, py "invalid start byte")
    | EndOfData len => (len, py "unexpected end of data")
    | InvalidContinuation len => (len, py "invalid continuation byte")
    end in
  let where_ :=
    match len with
    | 1 => py "byte 0x" ++ hex 2 first ++ py " in position " ++ str_N (N.of_nat pos)
    | _ => py "bytes in position " ++ str_N (N.of_nat pos) ++ py "-"
           ++ str_N (N.of_nat (pos + len - 1))
    end in
  py "'utf-8' codec can't decode " ++ where_ ++ py ": " ++ reason.

Definition utf8_decode (data : list byte) : outcome pystr :=
  match utf8_from 0 (map Byte.to_N data) with
  | inl s => Value s
  | inr (pos, first, e) =>
      Raises (PyError (py "UnicodeDecodeError") (utf8_error_text pos first e))
  end.

(** ** Floats

    A JSON number with a fraction or an exponent becomes a [float]: the
    binary64 number nearest to the decimal [m * 10^e], ties to even. *)

Definition round_ratio (neg : bool) (num den : Z) : spec_float :=
  if (num <=? 0)%Z then S754_zero neg
  else
    let d := (Z.log2 num - Z.log2 den)%Z in
    let below :=
      if (0 <=? d)%Z then (num <? den * 2 ^ d)%Z else (num * 2 ^ (- d) <? den)%Z in
    let k := if below then (d - 1)%Z else d in
    let p := Z.max (k - 52) (-1074) in
    let n' := if (0 <=? p)%Z then num else (num * 2 ^ (- p))%Z in
    let d' := if (0 <=? p)%Z then (den * 2 ^ p)%Z else den in
    let q := (n' / d')%Z in
    let r := (n' mod d')%Z in
    let up :=
      match (2 * r ?= d')%Z with
      | Lt => false
      | Gt => true
      | Eq => Z.odd q
      end in
    let m := if up then (q + 1)%Z else q in
    let '(m, p) := if (m =? 2 ^ 53)%Z then (2 ^ 52, p + 1)%Z else (m, p) in
    match m with
    | Zpos mp => if (971 <? p)%Z then S754_infinity neg else S754_finite neg mp p
    | _ => S754_zero neg
    end.

Definition float_of_decimal (neg : bool) (m : N) (e : Z) : spec_float :=
  if (0 <=? e)%Z then round_ratio neg (Z.of_N m * 10 ^ e) 1
  else round_ratio neg (Z.of_N m) (10 ^ (- e)).

(** The decimal point of [num / den > 0]: the [k] with
    [10^(k-1) <= num/den < 10^k], found from an estimate. *)
Fixpoint decpt_adjust (fuel : nat) (num den k : Z) : Z :=
  match fuel with
  | O => k
  | S fuel' =>
      let lt_pow j :=   (* num / den < 10^j *)
        if (0 <=? j)%Z then (num <? den * 10 ^ j)%Z else (num * 10 ^ (- j) <? den)%Z in
      if lt_pow (k - 1)%Z then decpt_adjust fuel' num den (k - 1)%Z
      else if lt_pow k then k
      else decpt_adjust fuel' num den (k + 1)%Z
  end.

Definition decpt_of (num den : Z) : Z :=
  let est := ((Z.log2 num - Z.log2 den) * 3 / 10)%Z in
  decpt_adjust 8 num den est.

(** The shortest digits that read back as [f], with the decimal point. *)
Fixpoint shortest_digits (fuel n : nat) (f : spec_float) (num den decpt : Z)
  : Z * Z :=
  match fuel with
  | O => (0%Z, decpt)
  | S fuel' =>
      let e := (decpt - Z.of_nat n)%Z in   (* candidates are c * 10^e *)
      let sn := if (0 <=? e)%Z then num else (num * 10 ^ (- e))%Z in
      let sd := if (0 <=? e)%Z then (den * 10 ^ e)%Z else den in
      let lo := (sn / sd)%Z in
      let hi := (lo + 1)%Z in
      let back c :=
        match float_of_decimal false (Z.to_N c) e, f with
        | S754_finite _ m1 e1, S754_finite _ m2 e2 => Pos.eqb m1 m2 && Z.eqb e1 e2
        | _, _ => false
        end in
      let lo_nearer := (2 * (sn mod sd) <=? sd)%Z in
      match back lo, back hi with
      | true, true => if lo_nearer then (lo, e) else (hi, e)
      | true, false => (lo, e)
      | false, true => (hi, e)
      | false, false => shortest_digits fuel' (S n) f num den decpt
      end
  end.

Fixpoint strip_zeros (fuel : nat) (c e : Z) : Z * Z :=
  match fuel with
  | O => (c, e)
  | S fuel' =>
      if ((c mod 10 =? 0) && negb (c =? 0))%Z
      then strip_zeros fuel' (c / 10)%Z (e + 1)%Z
      else (c, e)
  end.

(** [repr(f)]. *)
Definition float_repr (f : spec_float) : pystr :=
  match f with
  | S754_nan => py "nan"
  | S754_infinity s => if s then py "-inf" else py "inf"
  | S754_zero s => if s then py "-0.0" else py "0.0"
  | S754_finite s m e =>
      let num := if (0 <=? e)%Z then (Zpos m * 2 ^ e)%Z else Zpos m in
      let den := if (0 <=? e)%Z then 1%Z else (2 ^ (- e))%Z in
      let '(c, ce) := shortest_digits 17 1 f num den (decpt_of num den) in
      let '(c, ce) := strip_zeros 20 c ce in
      let ds := str_N (Z.to_N c) in
      let nd := Z.of_nat (List.length ds) in
      let decpt := (ce + nd)%Z in
      let body :=
        if ((decpt <=? -4) || (16 <? decpt))%Z then
          let x := (decpt - 1)%Z in
          let xs := str_N (Z.to_N (Z.abs x)) in
          firstn 1 ds
          ++ (match skipn 1 ds with [] => [] | rest => 46%N :: rest end)
          ++ [101%N; if (x <? 0)%Z then 45%N else 43%N]
          ++ (match xs with [_] => 48%N :: xs | _ => xs end)
        else if (decpt <=? 0)%Z then
          py "0." ++ repeat 48%N (Z.to_nat (- decpt)) ++ ds
        else if (decpt <? nd)%Z then
          firstn (Z.to_nat decpt) ds ++ 46%N :: skipn (Z.to_nat decpt) ds
        else ds ++ repeat 48%N (Z.to_nat (decpt - nd)) ++ py ".0" in
      if s then 45%N :: body else body
  end.

(** ** [json.loads]

    The decoder works on the rest of the document and the index [pos] of
    its first character.  An error is a message and an index. *)

Inductive json_error := JSONDecodeError (msg : string) (pos : nat).

Definition jres (A : Type) : Type := (A * nat * pystr) + json_error.

Definition is_ws (c : codepoint) : bool :=
  (c =? 32)%N || (c =? 9)%N || (c =? 10)%N || (c =? 13)%N.

Definition is_digit (c : codepoint) : bool := (48 <=? c)%N && (c <=? 57)%N.

Fixpoint skip_ws (pos : nat) (s : pystr) : nat * pystr :=
  match s with
  | c :: s' => if is_ws c then skip_ws (S pos) s' else (pos, s)
  | [] => (pos, s)
  end.

Fixpoint span_digits (s : pystr) : pystr * pystr :=
  match s with
  | c :: s' =>
      if is_digit c then let '(ds, rest) := span_digits s' in (c :: ds, rest)
      else ([], s)
  | [] => ([], [])
  end.

Definition digits_value (ds : pystr) : N :=
  fold_left (fun acc c => (acc * 10 + (c - 48))%N) ds 0%N.

Definition hex_value (c : codepoint) : option N :=
  if is_digit c then Some (c - 48)%N
  else if (97 <=? c)%N && (c <=? 102)%N then Some (c - 87)%N
  else if (65 <=? c)%N && (c <=? 70)%N then Some (c - 55)%N
  else None.

Definition hex4 (a b c d : codepoint) : option N :=
  match hex_value a, hex_value b, hex_value c, hex_value d with
  | Some x, Some y, Some z, Some t => Some (((x * 16 + y) * 16 + z) * 16 + t)%N
  | _, _, _, _ => None
  end.

(** The character of a backslash escape other than [\u]. *)
Definition simple_escape (c : codepoint) : option codepoint :=
  if (c =? 34)%N || (c =? 92)%N || (c =? 47)%N then Some c
  else if (c =? 98)%N then Some 8%N
  else if (c =? 102)%N then Some 12%N
  else if (c =? 110)%N then Some 10%N
  else if (c =? 114)%N then Some 13%N
  else if (c =? 116)%N then Some 9%N
  else None.

Definition is_high_surrogate (c : N) : bool := (55296 <=? c)%N && (c <=? 56319)%N.
Definition is_low_surrogate (c : N) : bool := (56320 <=? c)%N && (c <=? 57343)%N.

(** The string that starts at index [begin]; [s] follows the opening
    quote. *)
Fixpoint scanstring (begin pos : nat) (s : pystr) : jres pystr :=
  let cons c (r : jres pystr) : jres pystr :=
    match r with
    | inl (t, p, rest) => inl (c :: t, p, rest)
    | inr e => inr e
    end in
  let unterminated := inr (JSONDecodeError "Unterminated string starting at" begin) in
  let bad_u at_ := inr (JSONDecodeError "Invalid \uXXXX escape" at_) in
  match s with
  | [] => unterminated
  | c :: s1 =>
      if (c =? 34)%N then inl ([], S pos, s1)
      else if (c =? 92)%N then
        match s1 with
        | [] => unterminated
        | e :: s2 =>
            if (e =? 117)%N then
              match s2 with
              | h1 :: h2 :: h3 :: h4 :: ((_ :: _) as s6) =>
                  match hex4 h1 h2 h3 h4 with
                  | None => bad_u (S pos)
                  | Some c1 =>
                      match s6 with
                      | b :: u :: g1 :: g2 :: g3 :: g4 :: ((_ :: _) as s12) =>
                          if is_high_surrogate c1 && (b =? 92)%N && (u =? 117)%N then
                            match hex4 g1 g2 g3 g4 with
                            | None => bad_u (pos + 7)
                            | Some c2 =>
                                if is_low_surrogate c2
                                then cons (65536 + (c1 - 55296) * 1024 + (c2 - 56320))%N
                                          (scanstring begin (pos + 12) s12)
                                else cons c1 (scanstring begin (pos + 6) s6)
                            end
                          else cons c1 (scanstring begin (pos + 6) s6)
                      | _ => cons c1 (scanstring begin (pos + 6) s6)
                      end
                  end
              | _ => bad_u (S pos)
              end
            else
              match simple_escape e with
              | Some ch => cons ch (scanstring begin (pos + 2) s2)
              | None => inr (JSONDecodeError "Invalid \escape" pos)
              end
        end
      else if (c <=? 31)%N then inr (JSONDecodeError "Invalid control character at" pos)
      else cons c (scanstring begin (S pos) s1)
  end.

(** A number at index [start]: an [int], or a [float] when it has a
    fraction or an exponent.  [None] when there is no number. *)
Definition match_number (start : nat) (s : pystr) : option (pyval * nat * pystr) :=
  let '(neg, s1) :=
    match s with
    | 45%N :: s1 => (true, s1)
    | _ => (false, s)
    end in
  let int_part :=
    match s1 with
    | c :: s2 =>
        if (c =? 48)%N then Some ([c], s2)
        else if is_digit c then Some (span_digits s1)
        else None
    | [] => None
    end in
  match int_part with
  | None => None
  | Some (ids, s2) =>
      let '(fds, s3) :=
        match s2 with
        | 46%N :: ((d :: _) as s2') => if is_digit d then span_digits s2' else ([], s2)
        | _ => ([], s2)
        end in
      let has_frac := match fds with [] => false | _ => true end in
      let exponent :=
        match s3 with
        | e :: s4 =>
            if (e =? 101)%N || (e =? 69)%N then
              let '(eneg, signed, s5) :=
                match s4 with
                | 45%N :: s5 => (true, true, s5)
                | 43%N :: s5 => (false, true, s5)
                | _ => (false, false, s4)
                end in
              match span_digits s5 with
              | ([], _) => None
              | (eds, s6) =>
                  let x := Z.of_N (digits_value eds) in
                  Some (if eneg then (- x)%Z else x,
                        1 + (if signed then 1 else 0) + List.length eds, s6)
              end
            else None
        | [] => None
        end in
      let len0 := (if neg then 1 else 0) + List.length ids
                  + (if has_frac then 1 + List.length fds else 0) in
      match exponent, has_frac with
      | None, false =>
          let z := Z.of_N (digits_value ids) in
          Some (PInt (if neg then (- z)%Z else z), start + len0, s3)
      | None, true =>
          Some (PFloat (float_of_decimal neg (digits_value (ids ++ fds))
                                         (- Z.of_nat (List.length fds))),
                start + len0, s3)
      | Some (x, elen, s6), _ =>
          Some (PFloat (float_of_decimal neg (digits_value (ids ++ fds))
                                         (x - Z.of_nat (List.length fds))),
                start + len0 + elen, s6)
      end
  end.

Definition expecting_value {A} (pos : nat) : jres A :=
  inr (JSONDecodeError "Expecting value" pos).

(** One JSON value, the members of an object after its brace, and the
    elements of an array after its bracket.  Every call uses one unit of
    [fuel]; twice the length of the document is enough. *)
Fixpoint scan_once (fuel pos : nat) (s : pystr) {struct fuel} : jres pyval :=
  match fuel with
  | O => inr (JSONDecodeError "maximum recursion depth exceeded" pos)
  | S fuel' =>
      match s with
      | [] => expecting_value pos
      | c :: s1 =>
          if (c =? 34)%N then
            match scanstring pos (S pos) s1 with
            | inl (t, p, rest) => inl (PStr t, p, rest)
            | inr e => inr e
            end
          else if (c =? 123)%N then
            let '(p, r) := skip_ws (S pos) s1 in
            match r with
            | 125%N :: r' => inl (PDict [], S p, r')
            | _ => object_members fuel' [] p r
            end
          else if (c =? 91)%N then
            let '(p, r) := skip_ws (S pos) s1 in
            match r with
            | 93%N :: r' => inl (PList [], S p, r')
            | _ => array_elements fuel' [] p r
            end
          else if starts_with (py "null") s then inl (PNone, pos + 4, skipn 4 s)
          else if starts_with (py "true") s then inl (PBool true, pos + 4, skipn 4 s)
          else if starts_with (py "false") s then inl (PBool false, pos + 5, skipn 5 s)
          else if starts_with (py "NaN") s then inl (PFloat S754_nan, pos + 3, skipn 3 s)
          else if starts_with (py "Infinity") s
          then inl (PFloat (S754_infinity false), pos + 8, skipn 8 s)
          else if starts_with (py "-Infinity") s
          then inl (PFloat (S754_infinity true), pos + 9, skipn 9 s)
          else
            match match_number pos s with
            | Some r => inl r
            | None => expecting_value pos
            end
      end
  end

with object_members (fuel : nat) (acc : list (pystr * pyval)) (pos : nat) (s : pystr)
  {struct fuel} : jres pyval :=
  match fuel with
  | O => inr (JSONDecodeError "maximum recursion depth exceeded" pos)
  | S fuel' =>
      match s with
      | 34%N :: s1 =>
          match scanstring pos (S pos) s1 with
          | inr e => inr e
          | inl (key, p, r) =>
              let '(p, r) := skip_ws p r in
              match r with
              | 58%N :: r1 =>
                  let '(p, r) := skip_ws (S p) r1 in
                  match scan_once fuel' p r with
                  | inr e => inr e
                  | inl (val, p, r) =>
                      let acc := dict_set key val acc in
                      let '(p, r) := skip_ws p r in
                      match r with
                      | 125%N :: r' => inl (PDict acc, S p, r')
                      | 44%N :: r' =>
                          let '(p, r) := skip_ws (S p) r' in
                          object_members fuel' acc p r
                      | _ => inr (JSONDecodeError "Expecting ',' delimiter" p)
                      end
                  end
              | _ => inr (JSONDecodeError "Expecting ':' delimiter" p)
              end
          end
      | _ => inr (JSONDecodeError
                    "Expecting property name enclosed in double quotes" pos)
      end
  end

with array_elements (fuel : nat) (acc : list pyval) (pos : nat) (s : pystr)
  {struct fuel} : jres pyval :=
  match fuel with
  | O => inr (JSONDecodeError "maximum recursion depth exceeded" pos)
  | S fuel' =>
      match scan_once fuel' pos s with
      | inr e => inr e
      | inl (val, p, r) =>
          let acc := acc ++ [val] in
          let '(p, r) := skip_ws p r in
          match r with
          | 93%N :: r' => inl (PList acc, S p, r')
          | 44%N :: r' =>
              let '(p, r) := skip_ws (S p) r' in
              array_elements fuel' acc p r
          | _ => inr (JSONDecodeError "Expecting ',' delimiter" p)
          end
      end
  end.

(** [str(e)] of a [JSONDecodeError] on [doc]. *)
Definition json_error_text (doc : pystr) (e : json_error) : pystr :=
  let '(JSONDecodeError msg pos) := e in
  let before := firstn pos doc in
  let lineno := S (List.length (filter (N.eqb 10) before)) in
  let colno :=
    (fix col (s : pystr) (n : nat) : nat :=
       match s with
       | [] => n
       | c :: s' => if (c =? 10)%N then col s' 1 else col s' (S n)
       end) before 1 in
  py msg ++ py ": line " ++ str_N (N.of_nat lineno) ++ py " column "
  ++ str_N (N.of_nat colno) ++ py " (char " ++ str_N (N.of_nat pos) ++ py ")".

Definition decode (doc : pystr) : pyval + json_error :=
  match doc with
  | 65279%N :: _ =>
      inr (JSONDecodeError "Unexpected UTF-8 BOM (decode using utf-8-sig)" 0)
  | _ =>
      let '(p, r) := skip_ws 0 doc in
      match scan_once (2 * List.length doc + 2) p r with
      | inr e => inr e
      | inl (v, p, r) =>
          match skip_ws p r with
          | (_, []) => inl v
          | (p, _ :: _) => inr (JSONDecodeError "Extra data" p)
          end
      end
  end.

Definition loads (doc : pystr) : outcome pyval :=
  match decode doc with
  | inl v => Value v
  | inr e => Raises (PyError (py "JSONDecodeError") (json_error_text doc e))
  end.

(** ** [repr]

    [repr] of a string escapes the characters that are not printable:
    [not_printable] is the table of [str.isprintable] of CPython 3.11
    (Unicode 14.0), as the ranges of the code points that are not
    printable. *)

Definition in_range (lo hi c : N) : bool := (lo <=? c)%N && (c <=? hi)%N.

Definition not_printable : list (N * N) :=
  [ (0, 31); (127, 160); (173, 173); (888, 889); (896, 899); (907, 907);
    (909, 909); (930, 930); (1328, 1328); (1367, 1368); (1419, 1420);
    (1424, 1424); (1480, 1487); (1515, 1518); (1525, 1541); (1564, 1564);
    (1757, 1757); (1806, 1807); (1867, 1868); (1970, 1983); (2043, 2044);
    (2094, 2095); (2111, 2111); (2140, 2141); (2143, 2143); (2155, 2159);
    (2191, 2199); (2274, 2274); (2436, 2436); (2445, 2446); (2449, 2450);
    (2473, 2473); (2481, 2481); (2483, 2485); (2490, 2491); (2501, 2502);
    (2505, 2506); (2511, 2518); (2520, 2523); (2526, 2526); (2532, 2533);
    (2559, 2560); (2564, 2564); (2571, 2574); (2577, 2578); (2601, 2601);
    (2609, 2609); (2612, 2612); (2615, 2615); (2618, 2619); (2621, 2621);
    (2627, 2630); (2633, 2634); (2638, 2640); (2642, 2648); (2653, 2653);
    (2655, 2661); (2679, 2688); (2692, 2692); (2702, 2702); (2706, 2706);
    (2729, 2729); (2737, 2737); (2740, 2740); (2746, 2747); (2758, 2758);
    (2762, 2762); (2766, 2767); (2769, 2783); (2788, 2789); (2802, 2808);
    (2816, 2816); (2820, 2820); (2829, 2830); (2833, 2834); (2857, 2857);
    (2865, 2865); (2868, 2868); (2874, 2875); (2885, 2886); (2889, 2890);
    (2894, 2900); (2904, 2907); (2910, 2910); (2916, 2917); (2936, 2945);
    (2948, 2948); (2955, 2957); (2961, 2961); (2966, 2968); (2971, 2971);
    (2973, 2973); (2976, 2978); (2981, 2983); (2987, 2989); (3002, 3005);
    (3011, 3013); (3017, 3017); (3022, 3023); (3025, 3030); (3032, 3045);
    (3067, 3071); (3085, 3085); (3089, 3089); (3113, 3113); (3130, 3131);
    (3141, 3141); (3145, 3145); (3150, 3156); (3159, 3159); (3163, 3164);
    (3166, 3167); (3172, 3173); (3184, 3190); (3213, 3213); (3217, 3217);
    (3241, 3241); (3252, 3252); (3258, 3259); (3269, 3269); (3273, 3273);
    (3278, 3284); (3287, 3292); (3295, 3295); (3300, 3301); (3312, 3312);
    (3315, 3327); (3341, 3341); (3345, 3345); (3397, 3397); (3401, 3401);
    (3408, 3411); (3428, 3429); (3456, 3456); (3460, 3460); (3479, 3481);
    (3506, 3506); (3516, 3516); (3518, 3519); (3527, 3529); (3531, 3534);
    (3541, 3541); (3543, 3543); (3552, 3557); (3568, 3569); (3573, 3584);
    (3643, 3646); (3676, 3712); (3715, 3715); (3717, 3717); (3723, 3723);
    (3748, 3748); (3750, 3750); (3774, 3775); (3781, 3781); (3783, 3783);
    (3790, 3791); (3802, 3803); (3808, 3839); (3912, 3912); (3949, 3952);
    (3992, 3992); (4029, 4029); (4045, 4045); (4059, 4095); (4294, 4294);
    (4296, 4300); (4302, 4303); (4681, 4681); (4686, 4687); (4695, 4695);
    (4697, 4697); (4702, 4703); (4745, 4745); (4750, 4751); (4785, 4785);
    (4790, 4791); (4799, 4799); (4801, 4801); (4806, 4807); (4823, 4823);
    (4881, 4881); (4886, 4887); (4955, 4956); (4989, 4991); (5018, 5023);
    (5110, 5111); (5118, 5119); (5760, 5760); (5789, 5791); (5881, 5887);
    (5910, 5918); (5943, 5951); (5972, 5983); (5997, 5997); (6001, 6001);
    (6004, 6015); (6110, 6111); (6122, 6127); (6138, 6143); (6158, 6158);
    (6170, 6175); (6265, 6271); (6315, 6319); (6390, 6399); (6431, 6431);
    (6444, 6447); (6460, 6463); (6465, 6467); (6510, 6511); (6517, 6527);
    (6572, 6575); (6602, 6607); (6619, 6621); (6684, 6685); (6751, 6751);
    (6781, 6782); (6794, 6799); (6810, 6815); (6830, 6831); (6863, 6911);
    (6989, 6991); (7039, 7039); (7156, 7163); (7224, 7226); (7242, 7244);
    (7305, 7311); (7355, 7356); (7368, 7375); (7419, 7423); (7958, 7959);
    (7966, 7967); (8006, 8007); (8014, 8015); (8024, 8024); (8026, 8026);
    (8028, 8028); (8030, 8030); (8062, 8063); (8117, 8117); (8133, 8133);
    (8148, 8149); (8156, 8156); (8176, 8177); (8181, 8181); (8191, 8207);
    (8232, 8239); (8287, 8303); (8306, 8307); (8335, 8335); (8349, 8351);
    (8385, 8399); (8433, 8447); (8588, 8591); (9255, 9279); (9291, 9311);
    (11124, 11125); (11158, 11158); (11508, 11512); (11558, 11558);
    (11560, 11564); (11566, 11567); (11624, 11630); (11633, 11646);
    (11671, 11679); (11687, 11687); (11695, 11695); (11703, 11703);
    (11711, 11711); (11719, 11719); (11727, 11727); (11735, 11735);
    (11743, 11743); (11870, 11903); (11930, 11930); (12020, 12031);
    (12246, 12271); (12284, 12288); (12352, 12352); (12439, 12440);
    (12544, 12548); (12592, 12592); (12687, 12687); (12772, 12783);
    (12831, 12831); (42125, 42127); (42183, 42191); (42540, 42559);
    (42744, 42751); (42955, 42959); (42962, 42962); (42964, 42964);
    (42970, 42993); (43053, 43055); (43066, 43071); (43128, 43135);
    (43206, 43213); (43226, 43231); (43348, 43358); (43389, 43391);
    (43470, 43470); (43482, 43485); (43519, 43519); (43575, 43583);
    (43598, 43599); (43610, 43611); (43715, 43738); (43767, 43776);
    (43783, 43784); (43791, 43792); (43799, 43807); (43815, 43815);
    (43823, 43823); (43884, 43887); (44014, 44015); (44026, 44031);
    (55204, 55215); (55239, 55242); (55292, 63743); (64110, 64111);
    (64218, 64255); (64263, 64274); (64280, 64284); (64311, 64311);
    (64317, 64317); (64319, 64319); (64322, 64322); (64325, 64325);
    (64451, 64466); (64912, 64913); (64968, 64974); (64976, 65007);
    (65050, 65055); (65107, 65107); (65127, 65127); (65132, 65135);
    (65141, 65141); (65277, 65280); (65471, 65473); (65480, 65481);
    (65488, 65489); (65496, 65497); (65501, 65503); (65511, 65511);
    (65519, 65531); (65534, 65535); (65548, 65548); (65575, 65575);
    (65595, 65595); (65598, 65598); (65614, 65615); (65630, 65663);
    (65787, 65791); (65795, 65798); (65844, 65846); (65935, 65935);
    (65949, 65951); (65953, 65999); (66046, 66175); (66205, 66207);
    (66257, 66271); (66300, 66303); (66340, 66348); (66379, 66383);
    (66427, 66431); (66462, 66462); (66500, 66503); (66518, 66559);
    (66718, 66719); (66730, 66735); (66772, 66775); (66812, 66815);
    (66856, 66863); (66916, 66926); (66939, 66939); (66955, 66955);
    (66963, 66963); (66966, 66966); (66978, 66978); (66994, 66994);
    (67002, 67002); (67005, 67071); (67383, 67391); (67414, 67423);
    (67432, 67455); (67462, 67462); (67505, 67505); (67515, 67583);
    (67590, 67591); (67593, 67593); (67638, 67638); (67641, 67643);
    (67645, 67646); (67670, 67670); (67743, 67750); (67760, 67807);
    (67827, 67827); (67830, 67834); (67868, 67870); (67898, 67902);
    (67904, 67967); (68024, 68027); (68048, 68049); (68100, 68100);
    (68103, 68107); (68116, 68116); (68120, 68120); (68150, 68151);
    (68155, 68158); (68169, 68175); (68185, 68191); (68256, 68287);
    (68327, 68330); (68343, 68351); (68406, 68408); (68438, 68439);
    (68467, 68471); (68498, 68504); (68509, 68520); (68528, 68607);
    (68681, 68735); (68787, 68799); (68851, 68857); (68904, 68911);
    (68922, 69215); (69247, 69247); (69290, 69290); (69294, 69295);
    (69298, 69375); (69416, 69423); (69466, 69487); (69514, 69551);
    (69580, 69599); (69623, 69631); (69710, 69713); (69750, 69758);
    (69821, 69821); (69827, 69839); (69865, 69871); (69882, 69887);
    (69941, 69941); (69960, 69967); (70007, 70015); (70112, 70112);
    (70133, 70143); (70162, 70162); (70207, 70271); (70279, 70279);
    (70281, 70281); (70286, 70286); (70302, 70302); (70314, 70319);
    (70379, 70383); (70394, 70399); (70404, 70404); (70413, 70414);
    (70417, 70418); (70441, 70441); (70449, 70449); (70452, 70452);
    (70458, 70458); (70469, 70470); (70473, 70474); (70478, 70479);
    (70481, 70486); (70488, 70492); (70500, 70501); (70509, 70511);
    (70517, 70655); (70748, 70748); (70754, 70783); (70856, 70863);
    (70874, 71039); (71094, 71095); (71134, 71167); (71237, 71247);
    (71258, 71263); (71277, 71295); (71354, 71359); (71370, 71423);
    (71451, 71452); (71468, 71471); (71495, 71679); (71740, 71839);
    (71923, 71934); (71943, 71944); (71946, 71947); (71956, 71956);
    (71959, 71959); (71990, 71990); (71993, 71994); (72007, 72015);
    (72026, 72095); (72104, 72105); (72152, 72153); (72165, 72191);
    (72264, 72271); (72355, 72367); (72441, 72703); (72713, 72713);
    (72759, 72759); (72774, 72783); (72813, 72815); (72848, 72849);
    (72872, 72872); (72887, 72959); (72967, 72967); (72970, 72970);
    (73015, 73017); (73019, 73019); (73022, 73022); (73032, 73039);
    (73050, 73055); (73062, 73062); (73065, 73065); (73103, 73103);
    (73106, 73106); (73113, 73119); (73130, 73439); (73465, 73647);
    (73649, 73663); (73714, 73726); (74650, 74751); (74863, 74863);
    (74869, 74879); (75076, 77711); (77811, 77823); (78895, 82943);
    (83527, 92159); (92729, 92735); (92767, 92767); (92778, 92781);
    (92863, 92863); (92874, 92879); (92910, 92911); (92918, 92927);
    (92998, 93007); (93018, 93018); (93026, 93026); (93048, 93052);
    (93072, 93759); (93851, 93951); (94027, 94030); (94088, 94094);
    (94112, 94175); (94181, 94191); (94194, 94207); (100344, 100351);
    (101590, 101631); (101641, 110575); (110580, 110580); (110588, 110588);
    (110591, 110591); (110883, 110927); (110931, 110947); (110952, 110959);
    (111356, 113663); (113771, 113775); (113789, 113791); (113801, 113807);
    (113818, 113819); (113824, 118527); (118574, 118575); (118599, 118607);
    (118724, 118783); (119030, 119039); (119079, 119080); (119155, 119162);
    (119275, 119295); (119366, 119519); (119540, 119551); (119639, 119647);
    (119673, 119807); (119893, 119893); (119965, 119965); (119968, 119969);
    (119971, 119972); (119975, 119976); (119981, 119981); (119994, 119994);
    (119996, 119996); (120004, 120004); (120070, 120070); (120075, 120076);
    (120085, 120085); (120093, 120093); (120122, 120122); (120127, 120127);
    (120133, 120133); (120135, 120137); (120145, 120145); (120486, 120487);
    (120780, 120781); (121484, 121498); (121504, 121504); (121520, 122623);
    (122655, 122879); (122887, 122887); (122905, 122906); (122914, 122914);
    (122917, 122917); (122923, 123135); (123181, 123183); (123198, 123199);
    (123210, 123213); (123216, 123535); (123567, 123583); (123642, 123646);
    (123648, 124895); (124903, 124903); (124908, 124908); (124911, 124911);
    (124927, 124927); (125125, 125126); (125143, 125183); (125260, 125263);
    (125274, 125277); (125280, 126064); (126133, 126208); (126270, 126463);
    (126468, 126468); (126496, 126496); (126499, 126499); (126501, 126502);
    (126504, 126504); (126515, 126515); (126520, 126520); (126522, 126522);
    (126524, 126529); (126531, 126534); (126536, 126536); (126538, 126538);
    (126540, 126540); (126544, 126544); (126547, 126547); (126549, 126550);
    (126552, 126552); (126554, 126554); (126556, 126556); (126558, 126558);
    (126560, 126560); (126563, 126563); (126565, 126566); (126571, 126571);
    (126579, 126579); (126584, 126584); (126589, 126589); (126591, 126591);
    (126602, 126602); (126620, 126624); (126628, 126628); (126634, 126634);
    (126652, 126703); (126706, 126975); (127020, 127023); (127124, 127135);
    (127151, 127152); (127168, 127168); (127184, 127184); (127222, 127231);
    (127406, 127461); (127491, 127503); (127548, 127551); (127561, 127567);
    (127570, 127583); (127590, 127743); (128728, 128732); (128749, 128751);
    (128765, 128767); (128884, 128895); (128985, 128991); (129004, 129007);
    (129009, 129023); (129036, 129039); (129096, 129103); (129114, 129119);
    (129160, 129167); (129198, 129199); (129202, 129279); (129620, 129631);
    (129646, 129647); (129653, 129655); (129661, 129663); (129671, 129679);
    (129709, 129711); (129723, 129727); (129734, 129743); (129754, 129759);
    (129768, 129775); (129783, 129791); (129939, 129939); (129995, 130031);
    (130042, 131071); (173792, 173823); (177977, 177983); (178206, 178207);
    (183970, 183983); (191457, 194559); (195102, 196607); (201547, 917759);
    (918000, 1114111) ]%N.

Definition isprintable (c : codepoint) : bool :=
  negb (existsb (fun r => in_range (fst r) (snd r) c) not_printable).

Definition repr_char (quote c : codepoint) : pystr :=
  if (c =? quote)%N || (c =? 92)%N then [92%N; c]
  else if (c =? 9)%N then py "\t"
  else if (c =? 10)%N then py "\n"
  else if (c =? 13)%N then py "\r"
  else if (c <? 32)%N || (c =? 127)%N then py "\x" ++ hex 2 c
  else if (c <? 127)%N then [c]
  else if isprintable c then [c]
  else if (c <=? 255)%N then py "\x" ++ hex 2 c
  else if (c <=? 65535)%N then py "\u" ++ hex 4 c
  else py "\U" ++ hex 8 c.

Definition str_repr (s : pystr) : pystr :=
  let has c := existsb (N.eqb c) s in
  let quote := if has 39%N && negb (has 34%N) then 34%N else 39%N in
  quote :: flat_map (repr_char quote) s ++ [quote].

Fixpoint repr (v : pyval) : pystr :=
  match v with
  | PNone => py "None"
  | PBool true => py "True"
  | PBool false => py "False"
  | PInt z => str_Z z
  | PFloat f => float_repr f
  | PStr s => str_repr s
  | PList l =>
      let fix elements (l : list pyval) : pystr :=
        match l with
        | [] => []
        | [x] => repr x
        | x :: l' => repr x ++ py ", " ++ elements l'
        end in
      py "[" ++ elements l ++ py "]"
  | PDict items =>
      let fix members (l : list (pystr * pyval)) : pystr :=
        match l with
        | [] => []
        | [(k, x)] => str_repr k ++ py ": " ++ repr x
        | (k, x) :: l' => str_repr k ++ py ": " ++ repr x ++ py ", " ++ members l'
        end in
      py "{" ++ members items ++ py "}"
  end.

(** ** A scripted server

    The world is the list of answers still to be given: [urlopen] takes the
    first answer written for the URL it is asked for, and the connection is
    refused when there is none. *)

Definition connection_refused : pyexc :=
  Error (PyError (py "URLError")
                 (py "<urlopen error [Errno 111] Connection refused>")).

Fixpoint answer (url : pystr) (script : list (pystr * reply))
  : reply * list (pystr * reply) :=
  match script with
  | [] => (Fails connection_refused, [])
  | (u, o) :: rest =>
      if pystr_eqb url u then (o, rest)
      else let '(o', rest') := answer url rest in (o', (u, o) :: rest')
  end.

Definition cpython : Runtime := {|
  World := list (pystr * reply);
  urlopen req w := answer (full_url req) w;
  bytes_decode := utf8_decode;
  json_loads := loads;
  py_repr := repr
|}.

(** A body sent by the server, from its text. *)
Definition utf8 (s : string) : list byte := list_byte_of_string s.

(** JSON texts are written with ['] for the double quote. *)
Definition json (s : string) : string :=
  string_of_list_ascii
    (map (fun a => if Ascii.eqb a "'"%char then ascii_of_nat 34 else a)
         (list_ascii_of_string s)).

(** ** A server of texts

    Every page has a status and an ASCII text.  A status from 200 to 299 is
    answered with the text; any other raises an [HTTPError] whose body is
    the text. *)

Definition ascii_byte (a : ascii) : byte :=
  let '(Ascii b0 b1 b2 b3 b4 b5 b6 _) := a in
  byte_of_ascii (Ascii b0 b1 b2 b3 b4 b5 b6 false).

Definition ascii_bytes (s : string) : list byte :=
  map ascii_byte (list_ascii_of_string s).

Definition page (status : Z) (text : string) : Z * string := (status, text).

Definition page_reply (p : Z * string) : reply :=
  let body := Body (ascii_bytes (json (snd p))) in
  if (200 <=? fst p)%Z && (fst p <? 300)%Z
  then Answers (Response (fst p) body)
  else Fails (HTTPError (fst p) (py "Error") body).

Fixpoint serve (url : pystr) (pages : list (pystr * (Z * string)))
  : reply * list (pystr * (Z * string)) :=
  match pages with
  | [] => (Fails connection_refused, [])
  | (u, p) :: rest =>
      if pystr_eqb url u then (page_reply p, rest)
      else let '(o, rest') := serve url rest in (o, (u, p) :: rest')
  end.

Definition text_server : Runtime := {|
  World := list (pystr * (Z * string));
  urlopen req w := serve (full_url req) w;
  bytes_decode := utf8_decode;
  json_loads := loads;
  py_repr := repr
|}.

End Ref.

(** * The words of the specification *)

(** ** Path materialization

    The specification describes one substitution with a fixed table of
    placeholders, where the script has a chain of [replace] calls. *)

Definition placeholder_table : list (pystr * pystr) :=
  [ (py "{video_id}", py "12345");
    (py "{id}", py "1");
    (py "{category}", py "anal");
    (py "{pornstar_name}", py "mia-khalifa");
    (py "{username}", py "admin");
    (py "{keyword}", py "teen");
    (py "{q}", py "latest") ].

(** The first entry of the table whose token starts [s]. *)
Fixpoint lookup_prefix (tbl : list (pystr * pystr)) (s : pystr)
  : option (pystr * pystr) :=
  match tbl with
  | [] => None
  | (k, v) :: rest => if starts_with k s then Some (k, v) else lookup_prefix rest s
  end.

(** One pass over the path that replaces every token of the table where it
    stands and copies everything else. *)
Fixpoint substitute_from (tbl : list (pystr * pystr)) (skip : nat) (s : pystr)
  : pystr :=
  match s with
  | [] => []
  | c :: s' =>
      match skip with
      | S k => substitute_from tbl k s'
      | O =>
          match lookup_prefix tbl s with
          | Some (k, v) => v ++ substitute_from tbl (List.length k - 1) s'
          | None => c :: substitute_from tbl 0 s'
          end
      end
  end.

Definition substitute (tbl : list (pystr * pystr)) (s : pystr) : pystr :=
  substitute_from tbl 0 s.

(** A bracketed placeholder: a name without braces between braces. *)
Definition placeholder (name : pystr) : pystr := lbrace :: name ++ [rbrace].

Definition no_brace (s : pystr) : bool :=
  forallb (fun c => negb (N.eqb c lbrace) && negb (N.eqb c rbrace)) s.

(** The name of a token, when the token is a placeholder. *)
Definition token_name (k : pystr) : option pystr :=
  match k with
  | c :: rest =>
      if N.eqb c lbrace && N.eqb (last rest 0%N) rbrace
         && no_brace (removelast rest)
      then Some (removelast rest) else None
  | [] => None
  end.

(** What makes a chain of [replace] calls one substitution: the tokens are
    placeholders, different from one another, and no substitute has a
    brace or stands inside a token. *)
Fixpoint distinct (l : list pystr) : bool :=
  match l with
  | [] => true
  | x :: l' => negb (existsb (pystr_eqb x) l') && distinct l'
  end.

Definition table_ok (tbl : list (pystr * pystr)) : bool :=
  forallb (fun kv => match token_name (fst kv) with Some _ => true | None => false end) tbl
  && distinct (map fst tbl)
  && forallb (fun kv => no_brace (snd kv)) tbl
  && forallb (fun kv => forallb (fun kv' => negb (occurs (snd kv) (fst kv'))) tbl) tbl.

(** [table_ok], as propositions. *)
Record TableOk (tbl : list (pystr * pystr)) : Prop := {
  ok_token : forall k v, In (k, v) tbl ->
             exists name, k = placeholder name /\ no_brace name = true;
  ok_distinct : forall k v v', In (k, v) tbl -> In (k, v') tbl -> v = v';
  ok_value : forall k v, In (k, v) tbl -> no_brace v = true;
  ok_apart : forall k v k' v', In (k, v) tbl -> In (k', v') tbl ->
             occurs v k' = false
}.
Arguments ok_token {tbl} _ k v _.
Arguments ok_distinct {tbl} _ k v v' _ _.
Arguments ok_value {tbl} _ k v _.
Arguments ok_apart {tbl} _ k v k' v' _ _.

(** A chain of [replace] calls, one for each entry of a table. *)
Definition replace_chain (tbl : list (pystr * pystr)) (s : pystr) : pystr :=
  fold_left (fun acc kv => replace (fst kv) (snd kv) acc) tbl s.

(** A token of the table occurs in the path. *)
Definition known_token_in (path : pystr) : bool :=
  existsb (fun kv => occurs (fst kv) path) placeholder_table.

(** ** The category of a status, by the table of the specification *)

Definition category (status : Z) : line :=
  if Z.eq_dec status 200 then Success
  else if Z.eq_dec status 404 then NotFound
  else if Z.eq_dec status 400 then ParamError status
  else if Z.eq_dec status 422 then ParamError status
  else Failed status.

(** ** The hint, as the specification words it

    The value of [detail], or of [message] when [detail] is absent, or
    "Unknown error" when both are absent. *)
Definition stated_message (items : list (pystr * pyval)) : pyval :=
  match dict_lookup (py "detail") items with
  | Some v => v
  | None =>
      match dict_lookup (py "message") items with
      | Some v => v
      | None => PStr (py "Unknown error")
      end
  end.

(** What the script takes: the first of the two that is present and true. *)
Definition chosen_message (items : list (pystr * pyval)) : pyval :=
  let field k := match dict_lookup k items with Some v => v | None => PNone end in
  if truthy (field (py "detail")) then field (py "detail")
  else if truthy (field (py "message")) then field (py "message")
  else PStr (py "Unknown error").

(** ** Loading the document *)

Section Loading.
Context {R : Runtime}.

Definition spec_request : request :=
  Request OPENAPI_URL [(py "User-Agent", py "Mozilla/5.0")].

(** The download fails with [e]: in transport, with a status that is not a
    success, in reading or decoding the body, or in parsing it. *)
Inductive spec_fails (w : World) : pyexc -> World -> Prop :=
| fails_urlopen e w' :
    urlopen spec_request w = (Fails e, w') -> spec_fails w e w'
| fails_read resp e w' :
    urlopen spec_request w = (Answers resp, w') ->
    read (fp resp) = Raises e -> spec_fails w (Error e) w'
| fails_decode resp data e w' :
    urlopen spec_request w = (Answers resp, w') ->
    read (fp resp) = Value data ->
    bytes_decode data = Raises e -> spec_fails w (Error e) w'
| fails_parse resp data text e w' :
    urlopen spec_request w = (Answers resp, w') ->
    read (fp resp) = Value data ->
    bytes_decode data = Value text ->
    json_loads text = Raises e -> spec_fails w (Error e) w'.

(** The download gives the document [spec]. *)
Definition spec_loads (w : World) (spec : pyval) (w' : World) : Prop :=
  exists resp data text,
    urlopen spec_request w = (Answers resp, w')
    /\ read (fp resp) = Value data
    /\ bytes_decode data = Value text
    /\ json_loads text = Value spec.

(** Every body of an error response can be read and decoded. *)
Definition error_bodies_decode : Prop :=
  forall req w code reason body w',
    urlopen req w = (Fails (HTTPError code reason body), w') ->
    exists data text, read body = Value data /\ bytes_decode data = Value text.

(** The document has the shape of the data model: the values of [paths]
    are mappings. *)
Definition operation_maps (items : list (pystr * pyval)) : Prop :=
  Forall (fun item => is_dict (snd item) = true) items.

Definition has_get (methods : pyval) : bool :=
  match methods with
  | PDict ops => match dict_lookup (py "get") ops with Some _ => true | None => false end
  | _ => false
  end.

(** The paths with a [get] operation, in the order of the document. *)
Definition get_paths (items : list (pystr * pyval)) : list pystr :=
  map fst (filter (fun item => has_get (snd item)) items).

(** The console can encode every path with a [get]. *)
Definition printable_paths (items : list (pystr * pyval)) : Prop :=
  Forall (fun path => encodable path = true) (get_paths items).

(** ** The parts of a run *)

(** The body of a response or of an error, read and decoded. *)
Definition body_text (s : stream) : outcome pystr :=
  match read s with
  | Value data => bytes_decode data
  | Raises e => Raises e
  end.

(** What [fetch_api] gives, by what [urlopen] did. *)
Definition fetch_result (o : reply) : res (Z * pystr) :=
  match o with
  | Answers resp =>
      match body_text (fp resp) with
      | Value body => Ret (getcode resp, body)
      | Raises e => Ret (0%Z, err_text e)
      end
  | Fails (HTTPError code _ body) =>
      match body_text body with
      | Value text => Ret (code, text)
      | Raises e => Raise (Exc (Error e))
      end
  | Fails (Error e) => Ret (0%Z, err_text e)
  end.

(** [main] after the download: the count, the banners, the loop, the
    end. *)
Definition scan (spec : pyval) : M unit :=
  bind (lift (py_get spec (py "paths") (PDict []))) (fun paths =>
  bind (lift (py_len paths)) (fun n =>
  bind (print (Found n)) (fun _ =>
  bind (print Rule) (fun _ =>
  bind (print Starting) (fun _ =>
  bind (print Rule) (fun _ =>
  bind (lift (py_items paths)) (fun items =>
  bind (for_each items scan_one) (fun _ =>
  bind (print Rule) (fun _ =>
  print ScanComplete))))))))).

Definition is_hint (l : line) : bool :=
  match l with Hint _ | Raw _ => true | _ => false end.

Definition is_test (l : line) : bool :=
  match l with Test _ => true | _ => false end.

(** A report line is printed in two halves: the [[TEST]] half before the
    request and the category after it. *)
Definition report_halves (ls : list line) : list line :=
  filter (fun l => is_test l || is_category l) ls.

Definition report_line (pc : pystr * line) : list line := [Test (fst pc); snd pc].

(** The events and the result of one turn of the loop. *)
Inductive turn (item : pystr * pyval) : list event -> res unit -> Prop :=
| turn_type_error e :
    py_contains (py "get") (snd item) = Raises e ->
    turn item [] (Raise (Exc (Error e)))
| turn_skip :
    py_contains (py "get") (snd item) = Value false ->
    turn item [] (Ret tt)
| turn_raise r :
    py_contains (py "get") (snd item) = Value true ->
    encodable (fst item) = true ->
    turn item [Print (Test (fst item)); UrlOpen (probe_request (fst item))] (Raise r)
| turn_report cat hints :
    py_contains (py "get") (snd item) = Value true ->
    encodable (fst item) = true ->
    is_category cat = true ->
    Forall (fun l => is_hint l = true) hints ->
    turn item (Print (Test (fst item)) :: UrlOpen (probe_request (fst item))
               :: Print cat :: map Print hints ++ [Sleep]) (Ret tt)
| turn_unprintable :
    py_contains (py "get") (snd item) = Value true ->
    encodable (fst item) = false ->
    turn item [] (Raise (Exc (Error (UnicodeEncodeError (written (Test (fst item))))))).

End Loading.

(** ** The shape of a run *)

(** The lines of a report: the two halves and the hint. *)
Definition is_report (l : line) : bool := is_test l || is_category l || is_hint l.

(** What holds of the events [t] and the result [r] of the loop, after any
    number of turns: it prints report lines only, it pauses once for each
    category line, and every path tested has had its pause, but for the
    last one when the loop raises. *)
Definition paced (t : list event) (r : res unit) : Prop :=
  Forall (fun l => is_report l = true) (printed t)
  /\ sleeps t = List.length (categories t)
  /\ match r with
     | Ret _ => List.length (probed t) = sleeps t
     | Raise x =>
         sleeps t <= List.length (probed t) <= S (sleeps t)
         /\ exists e, x = Exc (Error e)
     end.

(** The lines between the download and the loop, and those after the loop
    when it returns. *)
Definition opening (n : nat) : list line := [Found n; Rule; Starting; Rule].

Definition closing (r : res unit) : list line :=
  match r with
  | Ret _ => [Rule; ScanComplete]
  | Raise _ => []
  end.

(** The headers of a probe. *)
Definition probe_headers : list (pystr * pystr) :=
  [ (py "Authorization", py "Bearer " ++ TOKEN);
    (py "Accept", py "application/json");
    (py "User-Agent", py "AutoScanner/1.0") ].

(** ** Scripted runs *)

Module Run.

Definition ok (body : string) : reply :=
  Answers (Response 200 (Body (Ref.utf8 (Ref.json body)))).

Definition url (path : string) : pystr := full_url (probe_request (py path)).

(** Two paths with a [get]; the first probe is answered by a status 500
    whose body is the byte 0xFF, which is not UTF-8. *)
Definition undecodable_error : @World Ref.cpython :=
  [ (OPENAPI_URL, ok "{'paths': {'/a': {'get': {}}, '/b': {'get': {}}}}");
    (url "/a", Fails (HTTPError 500 (py "Internal Server Error") (Body [xff])));
    (url "/b", ok "{}") ].

Definition two_gets : list (pystr * pyval) :=
  [ (py "/a", PDict [(py "get", PDict [])]);
    (py "/b", PDict [(py "get", PDict [])]) ].

Definition undecodable : pyerror :=
  PyError (py "UnicodeDecodeError")
          (py "'utf-8' codec can't decode byte 0xff in position 0: invalid start byte").

Definition connection_reset : pyerror :=
  PyError (py "ConnectionResetError") (py "[Errno 104] Connection reset by peer").

(** A probe of [/a] answered by the status 500 with the body 0xFF. *)
Definition one_undecodable_error : @World Ref.cpython :=
  [ (url "/a", Fails (HTTPError 500 (py "Internal Server Error") (Body [xff]))) ].

(** Bodies of error responses. *)
Definition empty_detail : pystr :=
  py (Ref.json "{'detail': [], 'message': 'page must be positive'}").

Definition empty_detail_items : list (pystr * pyval) :=
  [ (py "detail", PList []); (py "message", PStr (py "page must be positive")) ].

Definition list_detail : pystr := py (Ref.json "{'detail': ['a', 'b']}").

Definition text_detail : pystr := py (Ref.json "{'detail': 'x is required'}").

Definition array_body : pystr := py (Ref.json "['page', 'sort']").

(** A document without [paths]. *)
Definition no_paths : @World Ref.cpython :=
  [ (OPENAPI_URL, ok "{'openapi': '3.1.0', 'info': {'title': 'api'}}") ].

(** Three paths with a [get]; the first probe is answered by a status 404
    and the connection is reset while the body is read. *)
Definition reset_error : @World Ref.cpython :=
  [ (OPENAPI_URL,
     ok "{'paths': {'/users/{id}': {'get': {}}, '/tags': {'get': {}}, '/q': {'get': {}}}}");
    (url "/users/{id}",
     Fails (HTTPError 404 (py "Not Found")
              (Broken connection_reset)));
    (url "/tags", ok "[]");
    (url "/q", ok "[]") ].

(** One path with a [get] and one without; the probe is answered by a
    status 200. *)
Definition videos : @World Ref.cpython :=
  [ (OPENAPI_URL,
     ok "{'paths': {'/videos/{video_id}': {'get': {}}, '/upload': {'post': {}}}}");
    (url "/videos/{video_id}", ok "{'id': 12345}") ].

(** An operation map with a [get]. *)
Definition get_only : pyval := PDict [(py "get", PDict [])].

(** A probe of [/a] answered by the status 200 with the body 0xFF. *)
Definition undecodable_answer : @World Ref.cpython :=
  [ (url "/a", Answers (Response 200 (Body [xff]))) ].

(** A probe of [/search] answered by the status 422. *)
Definition short_query : stream :=
  Body (Ref.utf8 (Ref.json "{'detail': 'q too short'}")).

Definition unprocessable : @World Ref.cpython :=
  [ (url "/search", Fails (HTTPError 422 (py "Unprocessable Entity") short_query)) ].

(** A probe of [/ping] answered by the status 204, without a body. *)
Definition no_content : @World Ref.cpython :=
  [ (url "/ping", Answers (Response 204 (Body []))) ].

(** A document that is a list, and one whose [paths] is a list. *)
Definition list_document : @World Ref.cpython :=
  [ (OPENAPI_URL, ok "['/a', '/b']") ].

Definition list_of_paths : @World Ref.cpython :=
  [ (OPENAPI_URL, ok "{'paths': ['/a']}") ].

(** Four paths, one of them without a [get]; the probes are answered by
    the statuses 200, 422 and 404. *)
Definition catalogue : @World Ref.text_server :=
  [ (OPENAPI_URL,
     Ref.page 200 "{'paths': {'/videos/{video_id}': {'get': {}}, '/upload': {'post': {}}, '/search': {'get': {}}, '/tags/{slug}': {'get': {}}}}");
    (url "/videos/{video_id}", Ref.page 200 "{'id': 12345}");
    (url "/search", Ref.page 422 "{'detail': 'q too short'}");
    (url "/tags/{slug}", Ref.page 404 "{'detail': 'Not Found'}") ].



(** A path whose fragment holds a lone surrogate: [urlopen] does not send
    the fragment, and the server answers the rest.  The probe is answered
    by the status 404, by the status 204, and by the status 200 with the
    body 0xFF. *)
Definition fragment_path : pystr := py "/a#" ++ [55296%N].

Definition fragment_url : pystr := full_url (probe_request fragment_path).

Definition fragment_not_found : @World Ref.cpython :=
  [ (fragment_url,
     Fails (HTTPError 404 (py "Not Found") (Body (Ref.utf8 (Ref.json "{}"))))) ].

Definition fragment_no_content : @World Ref.cpython :=
  [ (fragment_url, Answers (Response 204 (Body []))) ].

Definition fragment_undecodable : @World Ref.cpython :=
  [ (fragment_url, Answers (Response 200 (Body [xff]))) ].

(** A body whose [detail] holds a lone surrogate. *)
Definition lone_surrogate : pystr :=
  py (Ref.json "{'detail': 'half \ud83d pair'}").

(** Two paths with a [get]; the first holds a lone surrogate. *)
Definition unprintable : @World Ref.cpython :=
  [ (OPENAPI_URL, ok "{'paths': {'/x\ud800': {'get': {}}, '/b': {'get': {}}}}");
    (url "/b", ok "{}") ].

Definition unprintable_paths : list (pystr * pyval) :=
  [ (py "/x" ++ [55296%N], PDict [(py "get", PDict [])]);
    (py "/b", PDict [(py "get", PDict [])]) ].

End Run.

(** * Theorems *)

(** * Strings: lemmas *)

Lemma length_ind (P : pystr -> Prop) :
  (forall s, (forall t, List.length t < List.length s -> P t) -> P s) ->
  forall s, P s.
Proof.
  intros step s.
  remember (List.length s) as n eqn:Hn.
  revert s Hn.
  induction n as [n IH] using lt_wf_ind.
  intros s ->. apply step. intros t Ht. exact (IH _ Ht t eq_refl).
Qed.

Lemma starts_with_app p s : starts_with p (p ++ s) = true.
Proof.
  induction p as [|a p IH]; simpl; [reflexivity|].
  now rewrite N.eqb_refl.
Qed.

Lemma starts_with_split p s :
  starts_with p s = true -> s = p ++ skipn (List.length p) s.
Proof.
  revert s. induction p as [|a p IH]; intros s H; simpl in *; [reflexivity|].
  destruct s as [|b s]; [discriminate|].
  apply andb_prop in H as [Hab Hp]. apply N.eqb_eq in Hab. subst b.
  simpl. f_equal. now apply IH.
Qed.

(** A word that starts [v ++ y] starts [v] or is started by it. *)
Lemma starts_with_app_cases w v y :
  starts_with w (v ++ y) = true ->
  starts_with v w = true \/ starts_with w v = true.
Proof.
  revert v. induction w as [|a w IH]; intros v H.
  - right. reflexivity.
  - destruct v as [|b v]; [left; reflexivity|].
    simpl in H. apply andb_prop in H as [H1 H2].
    apply N.eqb_eq in H1. subst b. simpl. rewrite N.eqb_refl. simpl.
    now apply IH.
Qed.

Lemma starts_with_occurs v w : starts_with v w = true -> occurs v w = true.
Proof.
  destruct w as [|a w]; simpl; intros H; [exact H|]. now rewrite H.
Qed.

Lemma starts_with_In p s c :
  starts_with p s = true -> In c p -> In c s.
Proof.
  intros H Hin. rewrite (starts_with_split _ _ H). apply in_or_app. now left.
Qed.

Lemma pystr_eqb_eq a b : pystr_eqb a b = true <-> a = b.
Proof.
  unfold pystr_eqb. split.
  - intros H. apply andb_prop in H as [Hl Hs]. apply Nat.eqb_eq in Hl.
    apply starts_with_split in Hs. rewrite Hl, skipn_all, app_nil_r in Hs.
    now symmetry.
  - intros ->. rewrite Nat.eqb_refl. simpl.
    rewrite <- (app_nil_r b) at 2. apply starts_with_app.
Qed.

Lemma pystr_eqb_refl a : pystr_eqb a a = true.
Proof. now apply pystr_eqb_eq. Qed.

(** * Braces *)

Lemma no_brace_In s c : no_brace s = true -> In c s -> c <> lbrace /\ c <> rbrace.
Proof.
  unfold no_brace. rewrite forallb_forall. intros H Hin.
  specialize (H _ Hin). apply andb_prop in H as [H1 H2].
  apply negb_true_iff in H1, H2. apply N.eqb_neq in H1, H2. now split.
Qed.

Lemma token_name_spec k name :
  token_name k = Some name -> k = placeholder name /\ no_brace name = true.
Proof.
  unfold token_name. destruct k as [|c rest]; [discriminate|].
  destruct (N.eqb c lbrace) eqn:Hc; simpl; [|discriminate].
  destruct (N.eqb (last rest 0%N) rbrace) eqn:Hl; simpl; [|discriminate].
  destruct (no_brace (removelast rest)) eqn:Hn; [|discriminate].
  intros [= <-]. split; [|exact Hn].
  apply N.eqb_eq in Hc, Hl. subst c. unfold placeholder. f_equal.
  destruct rest as [|r rest']; [discriminate|].
  rewrite <- Hl. apply app_removelast_last. discriminate.
Qed.

(** * Tables of placeholders *)

Lemma distinct_spec (l : list (pystr * pystr)) :
  distinct (map fst l) = true ->
  forall k v v', In (k, v) l -> In (k, v') l -> v = v'.
Proof.
  induction l as [|[k0 v0] l IH]; simpl; [easy|].
  intros H k v v' H1 H2. apply andb_prop in H as [Hn Hd].
  apply negb_true_iff in Hn.
  assert (Hfresh : forall x, In (k0, x) l -> False).
  { intros x Hx. apply (in_map fst) in Hx. simpl in Hx.
    apply not_true_iff_false in Hn. apply Hn. apply existsb_exists.
    exists k0. split; [exact Hx|apply pystr_eqb_refl]. }
  destruct H1 as [H1|H1], H2 as [H2|H2].
  - congruence.
  - injection H1 as <- <-. destruct (Hfresh _ H2).
  - injection H2 as <- <-. destruct (Hfresh _ H1).
  - exact (IH Hd _ _ _ H1 H2).
Qed.

Lemma table_ok_spec tbl : table_ok tbl = true -> TableOk tbl.
Proof.
  unfold table_ok. intros H.
  apply andb_prop in H as [H Hap]. apply andb_prop in H as [H Hv].
  apply andb_prop in H as [Ht Hd].
  rewrite forallb_forall in Ht, Hv, Hap.
  split.
  - intros k v Hin. specialize (Ht _ Hin). simpl in Ht.
    destruct (token_name k) as [name|] eqn:Hk; [|discriminate].
    exists name. now apply token_name_spec.
  - now apply distinct_spec.
  - intros k v Hin. exact (Hv _ Hin).
  - intros k v k' v' Hin Hin'. specialize (Hap _ Hin). simpl in Hap.
    rewrite forallb_forall in Hap. specialize (Hap _ Hin'). simpl in Hap.
    now apply negb_true_iff in Hap.
Qed.

Lemma TableOk_incl tbl tbl' : incl tbl' tbl -> TableOk tbl -> TableOk tbl'.
Proof.
  intros Hi [Ht Hd Hv Ha].
  split; intros.
  - eapply Ht. apply Hi. eassumption.
  - eapply Hd; apply Hi; eassumption.
  - eapply Hv. apply Hi. eassumption.
  - eapply Ha; apply Hi; eassumption.
Qed.

(** ** The scan *)

Lemma substitute_from_skip tbl n s :
  substitute_from tbl n s = substitute tbl (skipn n s).
Proof.
  revert n. induction s as [|c s IH]; intros [|n]; try reflexivity.
  cbn [substitute_from skipn]. apply IH.
Qed.

Lemma substitute_cons tbl c s :
  substitute tbl (c :: s) =
  match lookup_prefix tbl (c :: s) with
  | Some (k, v) => v ++ substitute tbl (skipn (List.length k - 1) s)
  | None => c :: substitute tbl s
  end.
Proof.
  unfold substitute at 1. cbn [substitute_from].
  destruct (lookup_prefix tbl (c :: s)) as [[k v]|]; [|reflexivity].
  now rewrite substitute_from_skip.
Qed.

Lemma lookup_prefix_Some tbl s k v :
  lookup_prefix tbl s = Some (k, v) -> In (k, v) tbl /\ starts_with k s = true.
Proof.
  induction tbl as [|[k0 v0] tbl IH]; simpl; [discriminate|].
  destruct (starts_with k0 s) eqn:Hs.
  - intros [= <- <-]. auto.
  - intros H. destruct (IH H). auto.
Qed.

Lemma lookup_prefix_None tbl s k v :
  lookup_prefix tbl s = None -> In (k, v) tbl -> starts_with k s = false.
Proof.
  induction tbl as [|[k0 v0] tbl IH]; simpl; [easy|].
  destruct (starts_with k0 s) eqn:Hs; [discriminate|].
  intros H [[= <- <-]|Hin]; auto.
Qed.

Lemma lookup_prefix_ext tbl a b :
  (forall k v, In (k, v) tbl -> starts_with k a = starts_with k b) ->
  lookup_prefix tbl a = lookup_prefix tbl b.
Proof.
  induction tbl as [|[k0 v0] tbl IH]; simpl; intros H; [reflexivity|].
  rewrite (H k0 v0) by now left.
  destruct (starts_with k0 b); [reflexivity|].
  apply IH. intros k v Hin. apply (H k v). now right.
Qed.

Lemma lookup_prefix_app tbl kv s :
  lookup_prefix (tbl ++ [kv]) s =
  match lookup_prefix tbl s with
  | Some r => Some r
  | None => if starts_with (fst kv) s then Some kv else None
  end.
Proof.
  induction tbl as [|[k0 v0] tbl IH]; simpl.
  - destruct kv. reflexivity.
  - destruct (starts_with k0 s); [reflexivity|exact IH].
Qed.

(** A placeholder starts with a brace and has no other opening brace. *)
Lemma placeholder_starts name c s :
  starts_with (placeholder name) (c :: s) =
  N.eqb lbrace c && starts_with (name ++ [rbrace]) s.
Proof. reflexivity. Qed.

Lemma placeholder_length name :
  List.length (placeholder name) - 1 = List.length (name ++ [rbrace]).
Proof. unfold placeholder. simpl. lia. Qed.

(** A placeholder does not start inside a text without braces. *)
Lemma occurs_past_value name v y :
  no_brace v = true ->
  occurs (placeholder name) (v ++ y) = occurs (placeholder name) y.
Proof.
  induction v as [|a v IH]; intros Hv; [reflexivity|].
  simpl in Hv. apply andb_prop in Hv as [Ha Hv].
  cbn [app occurs]. rewrite (IH Hv), placeholder_starts.
  apply andb_prop in Ha as [Ha _]. apply negb_true_iff in Ha.
  rewrite N.eqb_sym, Ha. reflexivity.
Qed.

Section Table.
Variable tbl : list (pystr * pystr).
Hypothesis ok : TableOk tbl.

Lemma lookup_not_brace c s : c <> lbrace -> lookup_prefix tbl (c :: s) = None.
Proof.
  intros Hc. destruct (lookup_prefix tbl (c :: s)) as [[k v]|] eqn:H; [|reflexivity].
  apply lookup_prefix_Some in H as [Hin Hs].
  destruct (ok_token ok _ _ Hin) as (name & -> & _).
  rewrite placeholder_starts in Hs. apply andb_prop in Hs as [Hs _].
  apply N.eqb_eq in Hs. congruence.
Qed.

(** What has no opening brace is copied. *)
Lemma substitute_copy w x :
  ~ In lbrace w -> substitute tbl (w ++ x) = w ++ substitute tbl x.
Proof.
  induction w as [|c w IH]; intros Hw; [reflexivity|].
  simpl. rewrite substitute_cons, lookup_not_brace.
  - f_equal. apply IH. intros Hin. apply Hw. now right.
  - intros ->. apply Hw. now left.
Qed.

Lemma value_copy k v x :
  In (k, v) tbl -> substitute tbl (v ++ x) = v ++ substitute tbl x.
Proof.
  intros Hin. apply substitute_copy. intros Hb.
  destruct (no_brace_In _ _ (ok_value ok _ _ Hin) Hb) as [H _]. now apply H.
Qed.

(** The end of a name is seen in the output where it is in the input. *)
Lemma name_end_kept u x :
  ~ In lbrace u ->
  (forall k v, In (k, v) tbl -> occurs v (u ++ [rbrace]) = false) ->
  starts_with (u ++ [rbrace]) (substitute tbl x) = starts_with (u ++ [rbrace]) x.
Proof.
  revert x. induction u as [|a u IH]; intros x Hu Hocc.
  - destruct x as [|c x]; [reflexivity|].
    rewrite substitute_cons.
    destruct (lookup_prefix tbl (c :: x)) as [[k v]|] eqn:Hl; [|reflexivity].
    apply lookup_prefix_Some in Hl as [Hin Hs].
    destruct (ok_token ok _ _ Hin) as (name & -> & _).
    rewrite placeholder_starts in Hs. apply andb_prop in Hs as [Hs _].
    apply N.eqb_eq in Hs. subst c.
    transitivity false; [|reflexivity].
    apply not_true_iff_false. intros H.
    apply starts_with_app_cases in H as [H|H].
    + apply starts_with_occurs in H. rewrite (Hocc _ _ Hin) in H. discriminate.
    + assert (Hr : In rbrace v) by (eapply starts_with_In; [exact H|now left]).
      destruct (no_brace_In _ _ (ok_value ok _ _ Hin) Hr) as [_ Hn]. now apply Hn.
  - destruct x as [|c x]; [reflexivity|].
    rewrite substitute_cons.
    destruct (lookup_prefix tbl (c :: x)) as [[k v]|] eqn:Hl.
    + apply lookup_prefix_Some in Hl as [Hin Hs].
      destruct (ok_token ok _ _ Hin) as (name & -> & _).
      rewrite placeholder_starts in Hs. apply andb_prop in Hs as [Hs _].
      apply N.eqb_eq in Hs. subst c.
      transitivity false.
      * apply not_true_iff_false. intros H.
        apply starts_with_app_cases in H as [H|H].
        -- apply starts_with_occurs in H. rewrite (Hocc _ _ Hin) in H. discriminate.
        -- assert (Hr : In rbrace v).
           { eapply starts_with_In; [exact H|].
             simpl. right. apply in_or_app. right. now left. }
           destruct (no_brace_In _ _ (ok_value ok _ _ Hin) Hr) as [_ Hn]. now apply Hn.
      * symmetry. simpl. destruct (N.eqb a lbrace) eqn:Ha; [|reflexivity].
        apply N.eqb_eq in Ha. exfalso. apply Hu. now left.
    + simpl. f_equal. apply IH.
      * intros Hin. apply Hu. now right.
      * intros k v Hin. specialize (Hocc _ _ Hin). simpl in Hocc.
        now apply orb_false_elim in Hocc as [_ Hocc].
Qed.

(** A placeholder no substitute stands in starts the output where it
    starts the input. *)
Lemma placeholder_kept name c x :
  no_brace name = true ->
  (forall k v, In (k, v) tbl -> occurs v (placeholder name) = false) ->
  starts_with (placeholder name) (c :: substitute tbl x)
  = starts_with (placeholder name) (c :: x).
Proof.
  intros Hname Hocc. rewrite !placeholder_starts. f_equal.
  apply name_end_kept.
  - intros Hb. destruct (no_brace_In _ _ Hname Hb) as [H _]. now apply H.
  - intros k v Hin. specialize (Hocc _ _ Hin).
    unfold placeholder in Hocc. simpl in Hocc.
    now apply orb_false_elim in Hocc as [_ Hocc].
Qed.

Lemma token_kept k v c x :
  In (k, v) tbl ->
  starts_with k (c :: substitute tbl x) = starts_with k (c :: x).
Proof.
  intros Hin. destruct (ok_token ok _ _ Hin) as (name & -> & Hname).
  apply placeholder_kept; [exact Hname|].
  intros k' v' Hin'. exact (ok_apart ok _ _ _ _ Hin' Hin).
Qed.

Lemma skip_token name rest :
  ~ In lbrace name ->
  skipn (List.length (placeholder name) - 1) (substitute tbl ((name ++ [rbrace]) ++ rest))
  = substitute tbl rest.
Proof.
  intros Hn. rewrite substitute_copy, placeholder_length.
  - now rewrite skipn_app, skipn_all, Nat.sub_diag.
  - intros Hin. apply in_app_or in Hin as [Hin|[Hin|[]]]; [now apply Hn|discriminate].
Qed.

(** Substituting twice is substituting once. *)
Lemma substitute_idempotent s :
  substitute tbl (substitute tbl s) = substitute tbl s.
Proof.
  induction s as [s IH] using length_ind.
  destruct s as [|c s]; [reflexivity|].
  rewrite substitute_cons.
  destruct (lookup_prefix tbl (c :: s)) as [[k v]|] eqn:Hl.
  - apply lookup_prefix_Some in Hl as [Hin Hs].
    rewrite (value_copy _ _ _ Hin). f_equal. apply IH.
    rewrite length_skipn. simpl. lia.
  - rewrite substitute_cons.
    rewrite (lookup_prefix_ext tbl (c :: substitute tbl s) (c :: s)), Hl.
    + f_equal. apply IH. simpl. lia.
    + intros k v Hin. now apply token_kept with (v := v).
Qed.

(** No token of the table is left in the output. *)
Lemma substitute_no_token k v s :
  In (k, v) tbl -> occurs k (substitute tbl s) = false.
Proof.
  intros Hin.
  destruct (ok_token ok _ _ Hin) as (name & Hk & Hname).
  induction s as [s IH] using length_ind.
  destruct s as [|c s]; [now subst k|].
  rewrite substitute_cons.
  destruct (lookup_prefix tbl (c :: s)) as [[k' v']|] eqn:Hl.
  - apply lookup_prefix_Some in Hl as [Hin' Hs].
    assert (Hrest : occurs k (substitute tbl (skipn (List.length k' - 1) s)) = false).
    { apply IH. rewrite length_skipn. simpl. lia. }
    subst k. rewrite occurs_past_value; [exact Hrest|].
    exact (ok_value ok _ _ Hin').
  - simpl. rewrite IH by (simpl; lia). rewrite orb_false_r.
    rewrite token_kept with (v := v) by exact Hin.
    eapply lookup_prefix_None; eassumption.
Qed.

(** The scan of what stands before an opening brace does not depend on
    what follows. *)
Lemma starts_with_before_brace w a y :
  ~ In lbrace w ->
  starts_with w (a ++ lbrace :: y) = starts_with w a.
Proof.
  revert w. induction a as [|c a IH]; intros w Hw.
  - destruct w as [|d w]; [reflexivity|]. simpl.
    destruct (N.eqb d lbrace) eqn:Hd; [|reflexivity].
    apply N.eqb_eq in Hd. exfalso. apply Hw. now left.
  - destruct w as [|d w]; [reflexivity|]. simpl. f_equal.
    apply IH. intros Hin. apply Hw. now right.
Qed.

Lemma substitute_split (a y : pystr) :
  substitute tbl (a ++ lbrace :: y)
  = substitute tbl a ++ substitute tbl (lbrace :: y).
Proof.
  induction a as [a IH] using length_ind.
  destruct a as [|c a]; [reflexivity|].
  cbn [app]. rewrite (substitute_cons tbl c a), (substitute_cons tbl c (a ++ _)).
  rewrite (lookup_prefix_ext tbl (c :: a ++ lbrace :: y) (c :: a)).
  - destruct (lookup_prefix tbl (c :: a)) as [[k v]|] eqn:Hl.
    + apply lookup_prefix_Some in Hl as [Hin Hs].
      assert (Hlen : List.length k - 1 <= List.length a).
      { apply starts_with_split in Hs. apply (f_equal (@List.length _)) in Hs.
        rewrite length_app in Hs. simpl in Hs. lia. }
      rewrite skipn_app.
      replace (List.length k - 1 - List.length a) with 0 by lia.
      cbn [skipn]. rewrite IH, app_assoc; [reflexivity|].
      rewrite length_skipn. simpl. lia.
    + cbn [app]. f_equal. apply IH. simpl. lia.
  - intros k v Hin. destruct (ok_token ok _ _ Hin) as (name & -> & Hname).
    rewrite !placeholder_starts. f_equal.
    apply starts_with_before_brace.
    intros Hb. apply in_app_or in Hb as [Hb|[Hb|[]]]; [|discriminate].
    destruct (no_brace_In _ _ Hname Hb) as [H _]. now apply H.
Qed.

(** Two placeholders that start the same text are the same. *)
Lemma name_end_unique n n' x :
  no_brace n = true -> no_brace n' = true ->
  starts_with (n ++ [rbrace]) x = true ->
  starts_with (n' ++ [rbrace]) x = true ->
  n = n'.
Proof.
  revert n' x. induction n as [|a n IH]; intros [|a' n'] x Hn Hn' H H';
    destruct x as [|c x]; try discriminate; try reflexivity;
    cbn [app starts_with] in H, H';
    apply andb_prop in H as [H Hx], H' as [H' Hx'];
    apply N.eqb_eq in H, H'; subst.
  - destruct (no_brace_In _ rbrace Hn') as [_ E]; [now left|]. now destruct E.
  - destruct (no_brace_In _ rbrace Hn) as [_ E]; [now left|]. now destruct E.
  - cbn [no_brace forallb] in Hn, Hn'.
    apply andb_prop in Hn as [_ Hn], Hn' as [_ Hn'].
    f_equal. exact (IH _ _ Hn Hn' Hx Hx').
Qed.

(** A token of the table, where it stands, gives its substitute. *)
Lemma substitute_token k v b :
  In (k, v) tbl -> substitute tbl (k ++ b) = v ++ substitute tbl b.
Proof.
  intros Hin. destruct (ok_token ok _ _ Hin) as (name & Hk & Hname).
  assert (Hl : lookup_prefix tbl (k ++ b) = Some (k, v)).
  { destruct (lookup_prefix tbl (k ++ b)) as [[k' v']|] eqn:Hl.
    - apply lookup_prefix_Some in Hl as [Hin' Hs'].
      destruct (ok_token ok _ _ Hin') as (name' & Hk' & Hname').
      assert (name' = name).
      { subst k k'. unfold placeholder at 2 in Hs'. cbn [app] in Hs'.
        rewrite placeholder_starts in Hs'. apply andb_prop in Hs' as [_ Hs'].
        eapply name_end_unique; try eassumption.
        apply starts_with_app. }
      subst. f_equal. f_equal. exact (ok_distinct ok _ _ _ Hin' Hin).
    - pose proof (lookup_prefix_None _ _ _ _ Hl Hin) as H.
      rewrite starts_with_app in H. discriminate. }
  subst k.
  change (placeholder name ++ b) with (lbrace :: (name ++ [rbrace]) ++ b) in *.
  rewrite substitute_cons, Hl. f_equal.
  rewrite placeholder_length.
  now rewrite skipn_app, skipn_all, Nat.sub_diag.
Qed.

(** A placeholder that is not in the table stays. *)
Lemma substitute_unknown name b :
  no_brace name = true ->
  (forall k v, In (k, v) tbl -> k <> placeholder name) ->
  substitute tbl (placeholder name ++ b) = placeholder name ++ substitute tbl b.
Proof.
  intros Hname Hnew.
  unfold placeholder. cbn [app]. rewrite substitute_cons.
  destruct (lookup_prefix tbl _) as [[k v]|] eqn:Hl.
  - apply lookup_prefix_Some in Hl as [Hin Hs].
    destruct (ok_token ok _ _ Hin) as (name' & Hk & Hname').
    exfalso. apply (Hnew _ _ Hin). subst k. f_equal.
    rewrite placeholder_starts in Hs. apply andb_prop in Hs as [_ Hs].
    eapply name_end_unique; try eassumption.
    apply starts_with_app.
  - f_equal. rewrite substitute_copy; [reflexivity|].
    intros Hb. apply in_app_or in Hb as [Hb|[Hb|[]]]; [|discriminate].
    destruct (no_brace_In _ _ Hname Hb) as [H _]. now apply H.
Qed.

End Table.

(** ** The chain of [replace] calls *)

Lemma replace_substitute old new s :
  old <> [] -> replace old new s = substitute [(old, new)] s.
Proof.
  intros Hold. unfold replace, substitute.
  destruct old as [|o old]; [congruence|].
  generalize 0 as n.
  induction s as [|c s IH]; intros n; [reflexivity|].
  cbn [replace_from substitute_from lookup_prefix].
  destruct n as [|n]; [|apply IH].
  destruct (starts_with (o :: old) (c :: s)); now rewrite IH.
Qed.

Lemma substitute_empty_table s : substitute [] s = s.
Proof.
  induction s as [|c s IH]; [reflexivity|].
  rewrite substitute_cons. simpl. now rewrite IH.
Qed.

(** One more [replace] after a substitution is the substitution with one
    more entry. *)
Lemma substitute_then_replace tbl k v (s : pystr) :
  TableOk (tbl ++ [(k, v)]) ->
  substitute [(k, v)] (substitute tbl s) = substitute (tbl ++ [(k, v)]) s.
Proof.
  intros ok.
  assert (ok1 : TableOk tbl).
  { eapply TableOk_incl; [|exact ok]. intros x Hx. apply in_or_app. now left. }
  assert (ok2 : TableOk [(k, v)]).
  { eapply TableOk_incl; [|exact ok]. intros x Hx. apply in_or_app. now right. }
  assert (Hk : In (k, v) (tbl ++ [(k, v)])) by (apply in_or_app; right; now left).
  destruct (ok_token ok _ _ Hk) as (name & -> & Hname).
  assert (Hocc : forall k' v', In (k', v') tbl -> occurs v' (placeholder name) = false).
  { intros k' v' Hin. apply (ok_apart ok k' v' _ v); [|exact Hk].
    apply in_or_app. now left. }
  induction s as [s IH] using length_ind.
  destruct s as [|c s]; [reflexivity|].
  rewrite (substitute_cons (tbl ++ _)), lookup_prefix_app, (substitute_cons tbl).
  destruct (lookup_prefix tbl (c :: s)) as [[k' v']|] eqn:Hl.
  - apply lookup_prefix_Some in Hl as [Hin Hs].
    rewrite (substitute_copy _ ok2).
    + f_equal. apply IH. rewrite length_skipn. simpl. lia.
    + intros Hb. destruct (no_brace_In _ _ (ok_value ok1 _ _ Hin) Hb) as [H _].
      now apply H.
  - rewrite substitute_cons. cbn [lookup_prefix fst].
    rewrite (placeholder_kept _ ok1 _ _ _ Hname Hocc).
    destruct (starts_with (placeholder name) (c :: s)) eqn:Hs.
    + f_equal. rewrite placeholder_starts in Hs. apply andb_prop in Hs as [_ Hs].
      apply starts_with_split in Hs. rewrite Hs at 1.
      assert (Hnb : ~ In lbrace name).
      { intros Hb. destruct (no_brace_In _ _ Hname Hb) as [H _]. now apply H. }
      rewrite (skip_token _ ok1 _ _ Hnb), placeholder_length.
      apply IH. rewrite length_skipn. simpl. rewrite length_app. simpl. lia.
    + f_equal. apply IH. simpl. lia.
Qed.

Lemma replace_chain_substitute tbl s :
  TableOk tbl -> replace_chain tbl s = substitute tbl s.
Proof.
  revert s. induction tbl as [|[k v] tbl IH] using rev_ind; intros s ok.
  - symmetry. apply substitute_empty_table.
  - unfold replace_chain in *. rewrite fold_left_app. cbn [fold_left fst snd].
    rewrite IH.
    + rewrite replace_substitute; [now apply substitute_then_replace|].
      assert (Hk : In (k, v) (tbl ++ [(k, v)])) by (apply in_or_app; right; now left).
      destruct (ok_token ok _ _ Hk) as (name & -> & _). discriminate.
    + eapply TableOk_incl; [|exact ok]. intros x Hx. apply in_or_app. now left.
Qed.

Lemma materialize_substitute path :
  materialize path = substitute placeholder_table path.
Proof.
  change (materialize path) with (replace_chain placeholder_table path).
  apply replace_chain_substitute, table_ok_spec. reflexivity.
Qed.

(** * The script: lemmas *)

Section Scan.
Context {R : Runtime}.

(** ** Steps of a computation *)

Lemma bind_ret {A B} (a : A) (k : A -> M B) (w : World) :
  bind (ret a) k w = k a w.
Proof. unfold bind, ret. now destruct (k a w) as [[t r] w']. Qed.

Lemma bind_value {A B} (a : A) (k : A -> M B) (w : World) :
  bind (lift (Value a)) k w = k a w.
Proof. apply bind_ret. Qed.

Lemma bind_raises {A B} (e : pyerror) (k : A -> M B) (w : World) :
  bind (lift (Raises e)) k w = ([], Raise (Exc (Error e)), w).
Proof. reflexivity. Qed.

Lemma bind_print {B} (l : line) (k : unit -> M B) (w : World) :
  encodable (from_document l) = true ->
  bind (print l) k w = let '(t, r, w') := k tt w in (Print l :: t, r, w').
Proof. intros H. unfold print. now rewrite H. Qed.

Lemma bind_print_raises {B} (l : line) (k : unit -> M B) (w : World) :
  encodable (from_document l) = false ->
  bind (print l) k w = ([], Raise (Exc (Error (UnicodeEncodeError (written l)))), w).
Proof. intros H. unfold print. now rewrite H. Qed.

Lemma print_prints (l : line) (w : World) :
  encodable (from_document l) = true -> print l w = ([Print l], Ret tt, w).
Proof. intros H. unfold print. now rewrite H. Qed.

Lemma print_raises (l : line) (w : World) :
  encodable (from_document l) = false ->
  print l w = ([], Raise (Exc (Error (UnicodeEncodeError (written l)))), w).
Proof. intros H. unfold print. now rewrite H. Qed.

(** ** Hints *)

Lemma print_hint_raises body e (w : World) :
  json_loads body = Raises e ->
  print_hint body w = ([Print (Raw (firstn 50 body))], Ret tt, w).
Proof.
  intros H. unfold print_hint, try_except. rewrite H, bind_raises. reflexivity.
Qed.

Lemma print_hint_not_dict body v (w : World) :
  json_loads body = Value v -> is_dict v = false ->
  print_hint body w = ([Print (Raw (firstn 50 body))], Ret tt, w).
Proof.
  intros H Hv. unfold print_hint, try_except. rewrite H, bind_value.
  destruct v; try discriminate; reflexivity.
Qed.

Lemma py_str_of_list_str (v : pyval) :
  py_str (if is_list v then PStr (py_str v) else v) = py_str v.
Proof. destruct v; reflexivity. Qed.

Lemma py_or_chosen items :
  let field k := match dict_lookup k items with Some v => v | None => PNone end in
  py_or (py_or (field (py "detail")) (field (py "message"))) (PStr (py "Unknown error"))
  = chosen_message items.
Proof.
  unfold chosen_message, py_or. cbv zeta beta.
  destruct (truthy match dict_lookup (py "detail") items with
                   | Some v => v | None => PNone end) eqn:Hd;
    [rewrite Hd|]; reflexivity.
Qed.

(** The hint of an object: its message, or the preview when the console
    cannot encode the message. *)
Lemma print_hint_dict body items (w : World) :
  json_loads body = Value (PDict items) ->
  print_hint body w
  = ([Print (if encodable (py_str (chosen_message items))
             then Hint (py_str (chosen_message items))
             else Raw (firstn 50 body))], Ret tt, w).
Proof.
  intros H. unfold print_hint, try_except. rewrite H, bind_value.
  cbn [py_get]. rewrite !bind_value, py_str_of_list_str, py_or_chosen.
  destruct (encodable (py_str (chosen_message items))) eqn:He.
  - now rewrite print_prints.
  - now rewrite print_raises.
Qed.

(** ** Reports *)

Lemma report_200 body (w : World) : report 200 body w = ([Print Success], Ret tt, w).
Proof. reflexivity. Qed.

Lemma report_404 body (w : World) : report 404 body w = ([Print NotFound], Ret tt, w).
Proof. reflexivity. Qed.

Lemma report_param_error status body (w : World) :
  status = 400%Z \/ status = 422%Z ->
  report status body w =
  let '(t, r, w') := print_hint body w in (Print (ParamError status) :: t, r, w').
Proof.
  intros [-> | ->]; unfold report; cbn [Z.eqb existsb orb Pos.eqb];
    now rewrite bind_print by reflexivity.
Qed.

Lemma report_other status body (w : World) :
  status <> 200%Z -> status <> 404%Z -> status <> 400%Z -> status <> 422%Z ->
  report status body w = ([Print (Failed status)], Ret tt, w).
Proof.
  intros H1 H2 H3 H4. unfold report.
  apply Z.eqb_neq in H1, H2, H3, H4. cbn [existsb].
  now rewrite H1, H2, H3, H4.
Qed.

(** The hint line: one line, a [Hint] or a [Raw]. *)
Lemma print_hint_line body (w : World) :
  exists l, print_hint body w = ([Print l], Ret tt, w)
            /\ (l = Raw (firstn 50 body) \/ exists msg, l = Hint msg).
Proof.
  destruct (json_loads body) as [v|e] eqn:H.
  - destruct v; try (eexists; split;
      [eapply print_hint_not_dict; [exact H|reflexivity]|now left]).
    eexists. split; [eapply print_hint_dict; exact H|].
    destruct (encodable _); [right; now eexists|now left].
  - eexists. split; [eapply print_hint_raises; exact H|now left].
Qed.

(** ** Requests *)

Lemma call_urlopen_answers req (w : World) resp w' :
  urlopen req w = (Answers resp, w') ->
  call_urlopen req w = ([UrlOpen req], Ret resp, w').
Proof. unfold call_urlopen. now intros ->. Qed.

Lemma call_urlopen_fails req (w : World) e w' :
  urlopen req w = (Fails e, w') ->
  call_urlopen req w = ([UrlOpen req], Raise (Exc e), w').
Proof. unfold call_urlopen. now intros ->. Qed.

Lemma read_decode {B} (s : stream) (k : pystr -> M B) (w : World) :
  bind (lift (read s)) (fun data => bind (lift (bytes_decode data)) k) w
  = bind (lift (body_text s)) k w.
Proof.
  unfold body_text. destruct (read s) as [data|e]; [|reflexivity].
  now rewrite bind_value.
Qed.

Lemma fetch_api_result path (w : World) :
  fetch_api path w =
  ([UrlOpen (probe_request path)],
   fetch_result (fst (urlopen (probe_request path) w)),
   snd (urlopen (probe_request path) w)).
Proof.
  unfold fetch_api, try_except, bind at 1, call_urlopen.
  destruct (urlopen (probe_request path) w) as [[resp|e] w1]; cbn [fst snd fetch_result].
  - rewrite read_decode. destruct (body_text (fp resp)) as [body|e].
    + rewrite bind_value. reflexivity.
    + rewrite bind_raises. reflexivity.
  - destruct e as [code reason body|e]; cbn [select except_HTTPError except_Exception].
    + rewrite read_decode. destruct (body_text body) as [text|e].
      * rewrite bind_value. reflexivity.
      * rewrite bind_raises. reflexivity.
    + reflexivity.
Qed.

(** The cases of [fetch_api] that return: an answer, an error status whose
    body can be read and decoded, and a failure without a status. *)
Lemma fetch_api_response path (w : World) resp body w' :
  urlopen (probe_request path) w = (Answers resp, w') ->
  body_text (fp resp) = Value body ->
  fetch_api path w = ([UrlOpen (probe_request path)], Ret (getcode resp, body), w').
Proof.
  intros Hu Hb. rewrite fetch_api_result, Hu. cbn [fst snd fetch_result].
  now rewrite Hb.
Qed.

Lemma fetch_api_unreadable_response path (w : World) resp e w' :
  urlopen (probe_request path) w = (Answers resp, w') ->
  body_text (fp resp) = Raises e ->
  fetch_api path w = ([UrlOpen (probe_request path)], Ret (0%Z, err_text e), w').
Proof.
  intros Hu Hb. rewrite fetch_api_result, Hu. cbn [fst snd fetch_result].
  now rewrite Hb.
Qed.

Lemma fetch_api_http_error path (w : World) code reason body text w' :
  urlopen (probe_request path) w = (Fails (HTTPError code reason body), w') ->
  body_text body = Value text ->
  fetch_api path w = ([UrlOpen (probe_request path)], Ret (code, text), w').
Proof.
  intros Hu Hb. rewrite fetch_api_result, Hu. cbn [fst snd fetch_result].
  now rewrite Hb.
Qed.

Lemma fetch_api_no_status path (w : World) e w' :
  urlopen (probe_request path) w = (Fails (Error e), w') ->
  fetch_api path w = ([UrlOpen (probe_request path)], Ret (0%Z, err_text e), w').
Proof.
  intros Hu. now rewrite fetch_api_result, Hu.
Qed.

(** ** Loading the document *)

Lemma get_json_loads (w : World) spec w' :
  spec_loads w spec w' ->
  get_json OPENAPI_URL w = ([UrlOpen spec_request], Ret spec, w').
Proof.
  intros (resp & data & text & Hu & Hr & Hd & Hj).
  unfold get_json, try_except, bind at 1.
  fold spec_request. rewrite (call_urlopen_answers _ _ _ _ Hu).
  rewrite Hr, bind_value, Hd, bind_value, Hj. reflexivity.
Qed.

Lemma get_json_fails (w : World) e w' :
  spec_fails w e w' ->
  get_json OPENAPI_URL w =
  ([UrlOpen spec_request; Print (DownloadFailed (exc_str e))],
   Raise (SystemExit 1), w').
Proof.
  intros H. unfold get_json, try_except, bind at 1. fold spec_request.
  destruct H as [e w' Hu|resp e w' Hu Hr|resp data e w' Hu Hr Hd
                 |resp data text e w' Hu Hr Hd Hj].
  - rewrite (call_urlopen_fails _ _ _ _ Hu). reflexivity.
  - rewrite (call_urlopen_answers _ _ _ _ Hu), Hr, bind_raises. reflexivity.
  - rewrite (call_urlopen_answers _ _ _ _ Hu), Hr, bind_value, Hd, bind_raises.
    reflexivity.
  - rewrite (call_urlopen_answers _ _ _ _ Hu), Hr, bind_value, Hd, bind_value, Hj.
    reflexivity.
Qed.

(** The download gives a document or fails: there is no third way. *)
Lemma spec_loads_or_fails (w : World) :
  (exists spec w', spec_loads w spec w') \/ (exists e w', spec_fails w e w').
Proof.
  destruct (urlopen spec_request w) as [[resp|e] w'] eqn:Hu.
  - destruct (read (fp resp)) as [data|e] eqn:Hr.
    + destruct (bytes_decode data) as [text|e] eqn:Hd.
      * destruct (json_loads text) as [spec|e] eqn:Hj.
        -- left. exists spec, w', resp, data, text. auto.
        -- right. exists (Error e), w'. eapply fails_parse; eassumption.
      * right. exists (Error e), w'. eapply fails_decode; eassumption.
    + right. exists (Error e), w'. eapply fails_read; eassumption.
  - right. exists e, w'. now apply fails_urlopen.
Qed.

Lemma main_fails (w : World) e w' :
  spec_fails w e w' ->
  main w =
  ([Print Rule; Print Downloading; UrlOpen spec_request;
    Print (DownloadFailed (exc_str e))],
   Raise (SystemExit 1), w').
Proof.
  intros H. unfold main. rewrite !bind_print by reflexivity.
  unfold bind. now rewrite (get_json_fails _ _ _ H).
Qed.

Lemma main_loads (w : World) spec w1 :
  spec_loads w spec w1 ->
  main w =
  let '(t, r, w') := scan spec w1 in
  (Print Rule :: Print Downloading :: UrlOpen spec_request :: t, r, w').
Proof.
  intros H. unfold main. rewrite !bind_print by reflexivity.
  unfold bind at 1. rewrite (get_json_loads _ _ _ H).
  fold (scan spec). now destruct (scan spec w1) as [[t r] w'].
Qed.

(** ** One probe *)

Lemma report_prints status body (w : World) :
  exists cat hints,
    report status body w = (Print cat :: map Print hints, Ret tt, w)
    /\ is_category cat = true
    /\ Forall (fun l => is_hint l = true) hints.
Proof.
  destruct (Z.eq_dec status 200) as [->|H1].
  { exists Success, []. now rewrite report_200. }
  destruct (Z.eq_dec status 404) as [->|H2].
  { exists NotFound, []. now rewrite report_404. }
  destruct (Z.eq_dec status 400) as [H3|H3]; [|destruct (Z.eq_dec status 422) as [H4|H4]].
  3: { exists (Failed status), []. now rewrite report_other. }
  all: destruct (print_hint_line body w) as (l & Hl & Hk);
    exists (ParamError status), [l];
    rewrite report_param_error, Hl by auto;
    (split; [reflexivity|split; [reflexivity|]]);
    constructor; [|constructor];
    destruct Hk as [->|[msg ->]]; reflexivity.
Qed.

Lemma requests_app t1 t2 : requests (t1 ++ t2) = requests t1 ++ requests t2.
Proof. apply flat_map_app. Qed.

Lemma probed_app t1 t2 : probed (t1 ++ t2) = probed t1 ++ probed t2.
Proof. apply flat_map_app. Qed.

Lemma printed_app t1 t2 : printed (t1 ++ t2) = printed t1 ++ printed t2.
Proof. apply flat_map_app. Qed.

Lemma printed_prints ls : printed (map Print ls) = ls.
Proof. induction ls as [|l ls IH]; [reflexivity|]. simpl. now rewrite IH. Qed.

Lemma requests_prints ls : requests (map Print ls) = [].
Proof. induction ls as [|l ls IH]; [reflexivity|]. exact IH. Qed.

Lemma probed_hints ls :
  Forall (fun l => is_hint l = true) ls -> probed (map Print ls) = [].
Proof.
  induction 1 as [|l ls Hl _ IH]; [reflexivity|].
  destruct l; try discriminate; exact IH.
Qed.

Lemma report_halves_hints ls :
  Forall (fun l => is_hint l = true) ls -> report_halves ls = [].
Proof.
  induction 1 as [|l ls Hl _ IH]; [reflexivity|].
  destruct l; try discriminate; exact IH.
Qed.

Lemma scan_one_turn item (w : World) :
  exists t r w', scan_one item w = (t, r, w') /\ turn item t r.
Proof.
  destruct item as [path methods]. unfold scan_one.
  destruct (py_contains (py "get") methods) as [[|]|e] eqn:Hc.
  - rewrite bind_value. cbn [negb].
    destruct (encodable path) eqn:He.
    2: { rewrite bind_print_raises by exact He. do 3 eexists.
         split; [reflexivity|]. now apply (turn_unprintable (path, methods)). }
    rewrite bind_print by exact He.
    unfold bind at 1. rewrite fetch_api_result.
    destruct (fetch_result _) as [[status body]|r].
    + destruct (report_prints status body (snd (urlopen (probe_request path) w)))
        as (cat & hints & Hr & Hcat & Hh).
      unfold bind at 1. rewrite Hr. unfold sleep.
      do 3 eexists. split; [reflexivity|].
      cbn [app]. now apply (turn_report (path, methods)).
    + do 3 eexists. split; [reflexivity|]. now apply (turn_raise (path, methods)).
  - rewrite bind_value. do 3 eexists. split; [reflexivity|].
    now apply (turn_skip (path, methods)).
  - rewrite bind_raises. do 3 eexists. split; [reflexivity|].
    now apply (turn_type_error (path, methods)).
Qed.

Lemma turn_requests item t r :
  turn item t r -> requests t = map probe_request (probed t).
Proof.
  destruct 1 as [e H|H|r H He|cat hints H He Hcat Hh|H He]; try reflexivity.
  cbn [requests probed flat_map app map]. f_equal.
  change (requests (Print cat :: map Print hints ++ [Sleep])
          = map probe_request (probed (Print cat :: map Print hints ++ [Sleep]))).
  change (Print cat :: map Print hints ++ [Sleep])
    with (map Print (cat :: hints) ++ [Sleep]).
  rewrite requests_app, probed_app, requests_prints.
  destruct cat; try discriminate; cbn [map probed flat_map app];
    fold (probed (map Print hints)); now rewrite (probed_hints _ Hh).
Qed.

(** Every request of the loop is the request of the path tested just
    before. *)
Lemma for_each_requests items (w : World) :
  let '(t, _, _) := for_each items scan_one w in
  requests t = map probe_request (probed t).
Proof.
  revert w. induction items as [|item items IH]; intros w; [reflexivity|].
  cbn [for_each]. unfold bind.
  destruct (scan_one_turn item w) as (t & r & w' & -> & Ht).
  apply turn_requests in Ht.
  destruct r as [[]|r]; [|exact Ht].
  specialize (IH w'). destruct (for_each items scan_one w') as [[t2 r2] w2].
  now rewrite requests_app, probed_app, map_app, Ht, IH.
Qed.

Lemma scan_requests spec (w : World) :
  let '(t, _, _) := scan spec w in
  requests t = map probe_request (probed t).
Proof.
  unfold scan.
  destruct (py_get spec (py "paths") (PDict [])) as [paths|e];
    [rewrite bind_value|now rewrite bind_raises].
  destruct (py_len paths) as [n|e]; [rewrite bind_value|now rewrite bind_raises].
  rewrite !bind_print by reflexivity.
  destruct (py_items paths) as [items|e]; [rewrite bind_value|now rewrite bind_raises].
  unfold bind at 1. pose proof (for_each_requests items w) as H.
  destruct (for_each items scan_one w) as [[t [[]|r]] w']; [|exact H].
  rewrite !bind_print by reflexivity. rewrite print_prints by reflexivity.
  cbn [requests probed flat_map app].
  fold (requests (t ++ [Print Rule; Print ScanComplete])).
  fold (probed (t ++ [Print Rule; Print ScanComplete])).
  now rewrite requests_app, probed_app, H, !app_nil_r.
Qed.

(** ** The scan when every probe returns *)

Lemma fetch_returns :
  error_bodies_decode ->
  forall path (w : World),
  exists status body,
    fetch_result (fst (urlopen (probe_request path) w)) = Ret (status, body).
Proof.
  intros Hd path w.
  destruct (urlopen (probe_request path) w) as [[resp|[code reason body|e]] w'] eqn:Hu;
    cbn [fst fetch_result].
  - destruct (body_text (fp resp)); eauto.
  - destruct (Hd _ _ _ _ _ _ Hu) as (data & text & Hr & Ht).
    unfold body_text. rewrite Hr, Ht. eauto.
  - eauto.
Qed.

Lemma report_halves_app l1 l2 :
  report_halves (l1 ++ l2) = report_halves l1 ++ report_halves l2.
Proof. apply filter_app. Qed.

Lemma scan_one_skips path ops (w : World) :
  has_get (PDict ops) = false ->
  scan_one (path, PDict ops) w = ([], Ret tt, w).
Proof.
  intros H. unfold scan_one.
  change (py_contains (py "get") (PDict ops)) with (@Value bool (has_get (PDict ops))).
  now rewrite bind_value, H.
Qed.

Lemma scan_one_reports path ops (w : World) :
  error_bodies_decode ->
  has_get (PDict ops) = true ->
  encodable path = true ->
  exists cat hints w',
    scan_one (path, PDict ops) w
    = (Print (Test path) :: UrlOpen (probe_request path)
       :: Print cat :: map Print hints ++ [Sleep], Ret tt, w')
    /\ is_category cat = true
    /\ Forall (fun l => is_hint l = true) hints.
Proof.
  intros Hd H He. unfold scan_one.
  change (py_contains (py "get") (PDict ops)) with (@Value bool (has_get (PDict ops))).
  rewrite bind_value, H. cbn [negb]. rewrite bind_print by exact He.
  unfold bind at 1. rewrite fetch_api_result.
  destruct (fetch_returns Hd path w) as (status & body & ->).
  destruct (report_prints status body (snd (urlopen (probe_request path) w)))
    as (cat & hints & Hr & Hcat & Hh).
  unfold bind at 1. rewrite Hr. unfold sleep.
  exists cat, hints, (snd (urlopen (probe_request path) w)). now split.
Qed.

Lemma report_halves_turn path r cat hints t :
  is_category cat = true ->
  Forall (fun l => is_hint l = true) hints ->
  report_halves (printed ((Print (Test path) :: UrlOpen r
                           :: Print cat :: map Print hints ++ [Sleep]) ++ t))
  = Test path :: cat :: report_halves (printed t).
Proof.
  intros Hcat Hh.
  change (Print (Test path) :: UrlOpen r :: Print cat :: map Print hints ++ [Sleep])
    with ([Print (Test path); UrlOpen r; Print cat] ++ map Print hints ++ [Sleep]).
  rewrite !printed_app, printed_prints, !report_halves_app.
  rewrite (report_halves_hints _ Hh).
  cbn [printed flat_map app report_halves filter is_test orb].
  now rewrite Hcat, orb_true_r.
Qed.

Lemma for_each_completes :
  error_bodies_decode ->
  forall items, operation_maps items -> printable_paths items ->
  forall w : World,
  exists t w' cats,
    for_each items scan_one w = (t, Ret tt, w')
    /\ List.length cats = List.length (get_paths items)
    /\ Forall (fun c => is_category c = true) cats
    /\ report_halves (printed t)
       = flat_map report_line (combine (get_paths items) cats).
Proof.
  intros Hd items Hm. induction Hm as [|[path methods] items Hi _ IH]; intros Hp w.
  - exists [], w, []. repeat split. constructor.
  - destruct methods as [| | | | | |ops]; try discriminate.
    unfold printable_paths, get_paths in Hp, IH. cbn [filter snd] in Hp.
    cbn [for_each]. unfold bind, get_paths. cbn [filter snd].
    destruct (has_get (PDict ops)) eqn:Hg.
    + inversion Hp as [|? ? He Hp']; subst.
      destruct (scan_one_reports path ops w Hd Hg He) as (cat & hints & w1 & -> & Hcat & Hh).
      destruct (IH Hp' w1) as (t & w' & cats & -> & Hlen & Hcats & Hhalves).
      do 2 eexists. exists (cat :: cats).
      split; [reflexivity|]. split; [cbn [List.length map]; now f_equal|].
      split; [now constructor|].
      rewrite (report_halves_turn _ _ _ _ _ Hcat Hh), Hhalves. reflexivity.
    + rewrite (scan_one_skips path ops w Hg).
      destruct (IH Hp w) as (t & w' & cats & -> & Hlen & Hcats & Hhalves).
      exists t, w', cats. repeat split; assumption.
Qed.

(** ** The order of the probes *)

Lemma turn_probed item t r :
  turn item t r ->
  match py_contains (py "get") (snd item) with
  | Value true => probed t = [fst item] \/ (probed t = [] /\ exists x, r = Raise x)
  | _ => probed t = []
  end.
Proof.
  destruct 1 as [e H|H|x H He|cat hints H He Hcat Hh|H He]; rewrite H;
    try reflexivity; try (now left); [|right; split; [reflexivity|now eexists]].
  left.
  change (Print (Test (fst item)) :: UrlOpen (probe_request (fst item))
          :: Print cat :: map Print hints ++ [Sleep])
    with ([Print (Test (fst item)); UrlOpen (probe_request (fst item)); Print cat]
          ++ map Print hints ++ [Sleep]).
  rewrite !probed_app, (probed_hints _ Hh).
  destruct cat; try discriminate; reflexivity.
Qed.

Lemma for_each_probes_prefix items (w : World) :
  operation_maps items ->
  let '(t, r, _) := for_each items scan_one w in
  (exists k, probed t = firstn k (get_paths items))
  /\ (r = Ret tt -> probed t = get_paths items).
Proof.
  intros Hm. revert w. induction Hm as [|[path methods] items Hi _ IH]; intros w.
  - cbn. split; [now exists 0|reflexivity].
  - destruct methods as [| | | | | |ops]; try discriminate.
    cbn [for_each]. unfold bind.
    destruct (scan_one_turn (path, PDict ops) w) as (t1 & r1 & w1 & -> & Ht).
    apply turn_probed in Ht. cbn [fst snd] in Ht.
    change (py_contains (py "get") (PDict ops))
      with (@Value bool (has_get (PDict ops))) in Ht.
    unfold get_paths. cbn [filter snd].
    destruct r1 as [[]|x].
    + specialize (IH w1). destruct (for_each items scan_one w1) as [[t2 r2] w2].
      destruct IH as [[k Hk] Hall]. rewrite probed_app.
      destruct (has_get (PDict ops)); cbn [map fst app].
      * destruct Ht as [->|[_ [x Hx]]]; [|discriminate].
        split; [exists (S k); cbn [firstn app]; now rewrite Hk|].
        intros Hr. cbn [app]. now rewrite (Hall Hr).
      * rewrite Ht. split; [now exists k|exact Hall].
    + split; [|discriminate].
      destruct (has_get (PDict ops)); cbn [map fst].
      * destruct Ht as [->|[-> _]]; [now exists 1|now exists 0].
      * rewrite Ht. now exists 0.
Qed.


(** ** The shape of a run *)

(** A run that got the document and its [paths]: the opening lines, the
    loop, and the closing lines when the loop returns. *)
Lemma main_loop (w : World) spec items w1 :
  spec_loads w spec w1 ->
  py_get spec (py "paths") (PDict []) = Value (PDict items) ->
  main w
  = let '(loop, r, w') := for_each items scan_one w1 in
    ([Print Rule; Print Downloading; UrlOpen spec_request]
     ++ map Print (opening (List.length items)) ++ loop ++ map Print (closing r),
     r, w').
Proof.
  intros H Hp. rewrite (main_loads _ _ _ H). unfold scan.
  rewrite Hp, bind_value. cbn [py_len py_items].
  rewrite bind_value, !bind_print, bind_value by reflexivity. unfold bind at 1.
  destruct (for_each items scan_one w1) as [[loop [[]|x]] w'].
  - rewrite bind_print by reflexivity. reflexivity.
  - cbn [closing map]. now rewrite app_nil_r.
Qed.




End Scan.

(** * The claims *)

Section Claims.
Context {R : Runtime}.

(** The report of a probe result: the category of the status, and the
    hint line when there is one. *)
Lemma report_category status body (w : World) :
  exists hints,
    report status body w = (Print (category status) :: map Print hints, Ret tt, w)
    /\ Forall (fun l => is_hint l = true) hints
    /\ (hints = [] <-> status <> 400%Z /\ status <> 422%Z).
Proof.
  unfold category.
  destruct (Z.eq_dec status 200) as [->|H1].
  { exists []. rewrite report_200. repeat split; [constructor|lia|lia]. }
  destruct (Z.eq_dec status 404) as [->|H2].
  { exists []. rewrite report_404. repeat split; [constructor|lia|lia]. }
  assert (Hp : status = 400%Z \/ status = 422%Z ->
               exists hints,
                 report status body w
                 = (Print (ParamError status) :: map Print hints, Ret tt, w)
                 /\ Forall (fun l => is_hint l = true) hints
                 /\ (hints = [] <-> status <> 400%Z /\ status <> 422%Z)).
  { intros Hs. destruct (print_hint_line body w) as (l & Hl & Hk).
    exists [l]. rewrite (report_param_error _ _ _ Hs), Hl.
    split; [reflexivity|]. split.
    - constructor; [|constructor]. destruct Hk as [->|[msg ->]]; reflexivity.
    - split; [discriminate|]. intros [H3 H4]. destruct Hs; contradiction. }
  destruct (Z.eq_dec status 400) as [H3|H3]; [now apply Hp; left|].
  destruct (Z.eq_dec status 422) as [H4|H4]; [now apply Hp; right|].
  exists []. rewrite report_other by assumption.
  repeat split; [constructor|assumption|assumption].
Qed.

(** C1. For every probe result, the category that is reported is a
    function of the status alone, the one of the table: 200 gives SUCCESS,
    404 gives NOT FOUND, 400 and 422 give PARAM ERROR, every other status
    gives FAILED with the status, and so does the status 0 of a transport
    failure, printed as 0. *)
Theorem report_category_by_status (status : Z) (body : pystr) (w : World) :
  (exists hints,
     report status body w = (Print (category status) :: map Print hints, Ret tt, w)
     /\ Forall (fun l => is_hint l = true) hints)
  /\ category 200 = Success
  /\ category 404 = NotFound
  /\ category 400 = ParamError 400
  /\ category 422 = ParamError 422
  /\ (forall s, s <> 200%Z -> s <> 404%Z -> s <> 400%Z -> s <> 422%Z ->
      category s = Failed s)
  /\ line_text (category 0) = Colors.RED ++ py "FAILED (0)" ++ Colors.RESET ++ [10%N].
Proof.
  split.
  { destruct (report_category status body w) as (hints & H & Hh & _). eauto. }
  repeat split.
  intros s H1 H2 H3 H4. unfold category.
  destruct (Z.eq_dec s 200); [contradiction|].
  destruct (Z.eq_dec s 404); [contradiction|].
  destruct (Z.eq_dec s 400); [contradiction|].
  destruct (Z.eq_dec s 422); [contradiction|reflexivity].
Qed.

(** C3, as the script does it. For a 400 or 422 response whose body
    parses as an object, the hint is the value of [detail] when it is
    present and true, or else the value of [message] when it is present and
    true, or else "Unknown error"; a value that is not a string, a list
    among them, is printed in its string form. When the console cannot
    encode that text, which then holds a lone surrogate, and when parsing
    the body fails, the hint is the first 50 characters of the body
    followed by three dots. *)
Theorem hint_of_param_error (status : Z) (body : pystr) (w : World) :
  status = 400%Z \/ status = 422%Z ->
  (forall items,
     json_loads body = Value (PDict items) ->
     report status body w
     = ([Print (ParamError status);
         Print (if encodable (py_str (chosen_message items))
                then Hint (py_str (chosen_message items))
                else Raw (firstn 50 body))],
        Ret tt, w))
  /\ (forall l, py_str (PList l) = py_repr (PList l))
  /\ (forall e,
        json_loads body = Raises e ->
        report status body w
        = ([Print (ParamError status); Print (Raw (firstn 50 body))], Ret tt, w))
  /\ line_text (Raw (firstn 50 body))
     = py "       -> Raw: " ++ firstn 50 body ++ py "..." ++ [10%N].
Proof.
  intros Hs. repeat split.
  - intros items H. now rewrite (report_param_error _ _ _ Hs), (print_hint_dict _ _ _ H).
  - intros e H. now rewrite (report_param_error _ _ _ Hs), (print_hint_raises _ _ _ H).
Qed.

(** C10. For a 400 or 422 response whose body is JSON but not an object,
    the hint is the first 50 characters of the body followed by three
    dots, as when the body is not JSON. *)
Theorem non_object_body_gets_raw_preview (status : Z) (body : pystr) (v : pyval)
  (w : World) :
  status = 400%Z \/ status = 422%Z ->
  json_loads body = Value v ->
  is_dict v = false ->
  report status body w
  = ([Print (ParamError status); Print (Raw (firstn 50 body))], Ret tt, w)
  /\ line_text (Raw (firstn 50 body))
     = py "       -> Raw: " ++ firstn 50 body ++ py "..." ++ [10%N].
Proof.
  intros Hs H Hv. split; [|reflexivity].
  now rewrite (report_param_error _ _ _ Hs), (print_hint_not_dict _ _ _ H Hv).
Qed.


(** C6 (the script departs from it). When the server answers with an error
    status and the body of the error cannot be read or decoded, [fetch_api]
    returns no pair: the exception raised in the handler of [HTTPError]
    leaves the function. *)
Theorem fetch_api_raises_on_unreadable_error_body
  (path : pystr) (w : World) (code : Z) (reason : pystr) (body : stream)
  (e : pyerror) (w' : World) :
  urlopen (probe_request path) w = (Fails (HTTPError code reason body), w') ->
  body_text body = Raises e ->
  fetch_api path w = ([UrlOpen (probe_request path)], Raise (Exc (Error e)), w').
Proof.
  intros Hu Hb. rewrite fetch_api_result, Hu. cbn [fst snd fetch_result].
  now rewrite Hb.
Qed.

(** C7. When the download of the document fails, in transport, by its
    status, in reading, in decoding or in parsing, one line says that the
    download failed and why, no endpoint is probed, and the process ends
    with status 1. *)
Theorem download_failure_is_fatal (w : World) (e : pyexc) (w' : World) :
  spec_fails w e w' ->
  main w
  = ([Print Rule; Print Downloading; UrlOpen spec_request;
      Print (DownloadFailed (exc_str e))],
     Raise (SystemExit 1), w')
  /\ exit_status (snd (fst (main w))) = 1%Z
  /\ line_text (DownloadFailed (exc_str e))
     = Colors.RED ++ py "Failed to download OpenAPI spec: " ++ exc_str e
       ++ Colors.RESET ++ [10%N].
Proof.
  intros H. rewrite (main_fails _ _ _ H). repeat split.
Qed.

(** C9. When the document is an object without a [paths] key, the run is
    not a failure: it counts 0 paths, probes nothing and ends with the
    banner. *)
Theorem missing_paths_key_completes (w : World) (items : list (pystr * pyval))
  (w' : World) :
  spec_loads w (PDict items) w' ->
  dict_lookup (py "paths") items = None ->
  main w
  = ([Print Rule; Print Downloading; UrlOpen spec_request; Print (Found 0);
      Print Rule; Print Starting; Print Rule; Print Rule; Print ScanComplete],
     Ret tt, w').
Proof.
  intros H Hp. rewrite (main_loads _ _ _ H). unfold scan.
  cbn [py_get]. rewrite Hp, bind_value. reflexivity.
Qed.

(** When every error body can be read and decoded, the values of [paths]
    are mappings and the console can encode the paths with a [get], the
    scan runs to its end and prints one report line for each path with a
    [get], in the order of the document, and none for the others. *)
Lemma scan_reports_get_paths (w : World) spec items w1 :
  error_bodies_decode ->
  spec_loads w spec w1 ->
  py_get spec (py "paths") (PDict []) = Value (PDict items) ->
  operation_maps items ->
  printable_paths items ->
  exists t w' cats,
    main w = (t, Ret tt, w')
    /\ List.length cats = List.length (get_paths items)
    /\ Forall (fun c => is_category c = true) cats
    /\ report_halves (printed t)
       = flat_map report_line (combine (get_paths items) cats).
Proof.
  intros Hd H Hp Hm He. rewrite (main_loads _ _ _ H). unfold scan.
  rewrite Hp, bind_value. cbn [py_len py_items].
  rewrite bind_value, !bind_print, bind_value by reflexivity.
  destruct (for_each_completes Hd items Hm He w1)
    as (t & w' & cats & Hf & Hlen & Hc & Hh).
  unfold bind at 1. rewrite Hf, bind_print by reflexivity. rewrite print_prints by reflexivity.
  do 2 eexists. exists cats. split; [reflexivity|]. split; [exact Hlen|].
  split; [exact Hc|].
  cbn [printed flat_map app]. fold (printed (t ++ [Print Rule; Print ScanComplete])).
  cbn [report_halves filter is_test is_category orb].
  fold (report_halves (printed (t ++ [Print Rule; Print ScanComplete]))).
  rewrite printed_app, report_halves_app, Hh. cbn. apply app_nil_r.
Qed.

End Claims.

(** C4. Materializing a path replaces every known placeholder, each
    occurrence by the same substitute, and leaves none; it changes nothing
    in a path already materialized; and a placeholder that is not in the
    table stays as it is. *)
Theorem materialize_placeholders :
  (forall k v a b,
     In (k, v) placeholder_table ->
     materialize (a ++ k ++ b) = materialize a ++ v ++ materialize b)
  /\ (forall k v path,
        In (k, v) placeholder_table -> occurs k (materialize path) = false)
  /\ (forall path, materialize (materialize path) = materialize path)
  /\ (forall name a b,
        no_brace name = true ->
        ~ In (placeholder name) (map fst placeholder_table) ->
        materialize (a ++ placeholder name ++ b)
        = materialize a ++ placeholder name ++ materialize b)
  /\ placeholder_table
     = [ (placeholder (py "video_id"), py "12345");
         (placeholder (py "id"), py "1");
         (placeholder (py "category"), py "anal");
         (placeholder (py "pornstar_name"), py "mia-khalifa");
         (placeholder (py "username"), py "admin");
         (placeholder (py "keyword"), py "teen");
         (placeholder (py "q"), py "latest") ].
Proof.
  assert (ok : TableOk placeholder_table) by (apply table_ok_spec; reflexivity).
  repeat split.
  - intros k v a b Hin. rewrite !materialize_substitute.
    destruct (ok_token ok _ _ Hin) as (name & Hk & _).
    rewrite Hk at 1. unfold placeholder. cbn [app].
    rewrite (substitute_split _ ok). f_equal.
    change (lbrace :: (name ++ [rbrace]) ++ b) with (placeholder name ++ b).
    rewrite <- Hk. now apply substitute_token.
  - intros k v path Hin. rewrite materialize_substitute.
    now apply substitute_no_token with (v := v).
  - intros path. rewrite !materialize_substitute. now apply substitute_idempotent.
  - intros name a b Hname Hnew. rewrite !materialize_substitute.
    unfold placeholder at 1. cbn [app]. rewrite (substitute_split _ ok). f_equal.
    change (lbrace :: (name ++ [rbrace]) ++ b) with (placeholder name ++ b).
    apply (substitute_unknown _ ok); [exact Hname|].
    intros k v Hin Hk. apply Hnew. subst k.
    change (placeholder name) with (fst (placeholder name, v)). now apply in_map.
Qed.

(** A placeholder that stands twice, and one that is not in the table. *)
Example materialize_twice :
  materialize (py "/videos/{video_id}/related/{video_id}")
  = py "/videos/12345/related/12345".
Proof. reflexivity. Qed.

Example materialize_unknown :
  materialize (py "/tags/{slug}/videos/{id}") = py "/tags/{slug}/videos/1".
Proof. reflexivity. Qed.

(** C3, as it is worded, fails on a [detail] that is present and empty: the
    claim gives the value of [detail], the empty list in its string form,
    as the hint; the script goes on to [message]. *)
Lemma hint_skips_empty_detail :
  json_loads (Runtime := Ref.cpython) Run.empty_detail
  = Value (PDict Run.empty_detail_items)
  /\ py_str (R := Ref.cpython) (stated_message Run.empty_detail_items) = py "[]"
  /\ report (R := Ref.cpython) 400 Run.empty_detail []
     = ([Print (ParamError 400); Print (Hint (py "page must be positive"))],
        Ret tt, [])
  /\ report (R := Ref.cpython) 400 Run.empty_detail []
     <> ([Print (ParamError 400);
          Print (Hint (py_str (R := Ref.cpython)
                         (stated_message Run.empty_detail_items)))],
         Ret tt, []).
Proof.
  repeat split; try (vm_compute; reflexivity).
  vm_compute. discriminate.
Qed.

(** [hint_of_param_error] on a 400 response whose [detail] is a list, and
    on one whose [detail] holds a lone surrogate. *)
Lemma hint_of_param_error_witness :
  (400 = 400 \/ 400 = 422)%Z
  /\ report (R := Ref.cpython) 400 Run.list_detail []
     = ([Print (ParamError 400); Print (Hint (py "['a', 'b']"))], Ret tt, [])
  /\ report (R := Ref.cpython) 400 Run.lone_surrogate []
     = ([Print (ParamError 400); Print (Raw Run.lone_surrogate)], Ret tt, []).
Proof.
  split; [now left|]. split.
  - destruct (hint_of_param_error (R := Ref.cpython) 400 Run.list_detail []
                (or_introl eq_refl)) as [H _].
    rewrite (H [(py "detail", PList [PStr (py "a"); PStr (py "b")])]).
    + vm_compute. reflexivity.
    + vm_compute. reflexivity.
  - destruct (hint_of_param_error (R := Ref.cpython) 400 Run.lone_surrogate []
                (or_introl eq_refl)) as [H _].
    rewrite (H [(py "detail", PStr (py "half " ++ [55357%N] ++ py " pair"))]).
    + vm_compute. reflexivity.
    + vm_compute. reflexivity.
Defined.

(** The examples of the specification: a [detail] that is a text, and a
    body that is not JSON. *)
Example hint_text :
  report (R := Ref.cpython) 422 Run.text_detail []
  = ([Print (ParamError 422); Print (Hint (py "x is required"))], Ret tt, []).
Proof. vm_compute. reflexivity. Qed.

Example hint_not_json :
  console (fst (fst (report (R := Ref.cpython) 400 (py "not json") [])))
  = line_text (ParamError 400) ++ py "       -> Raw: not json..." ++ [10%N].
Proof. vm_compute. reflexivity. Qed.

(** A [detail] with a lone surrogate: the body parses as an object, the
    console cannot encode the hint, and the preview of the body is printed
    in its place. *)
Example hint_with_lone_surrogate :
  json_loads (Runtime := Ref.cpython) Run.lone_surrogate
  = Value (PDict [(py "detail", PStr (py "half " ++ [55357%N] ++ py " pair"))])
  /\ report (R := Ref.cpython) 422 Run.lone_surrogate []
     = ([Print (ParamError 422); Print (Raw Run.lone_surrogate)], Ret tt, []).
Proof. split; vm_compute; reflexivity. Qed.

(** [non_object_body_gets_raw_preview] on a 422 response whose body is a
    JSON array. *)
Lemma non_object_body_gets_raw_preview_witness :
  (422 = 400 \/ 422 = 422)%Z
  /\ json_loads (Runtime := Ref.cpython) Run.array_body
     = Value (PList [PStr (py "page"); PStr (py "sort")])
  /\ is_dict (PList [PStr (py "page"); PStr (py "sort")]) = false
  /\ report (R := Ref.cpython) 422 Run.array_body []
     = ([Print (ParamError 422); Print (Raw Run.array_body)], Ret tt, []).
Proof.
  assert (Hj : json_loads (Runtime := Ref.cpython) Run.array_body
               = Value (PList [PStr (py "page"); PStr (py "sort")]))
    by (vm_compute; reflexivity).
  split; [now right|]. split; [exact Hj|]. split; [reflexivity|].
  exact (proj1 (non_object_body_gets_raw_preview (R := Ref.cpython) 422
                  Run.array_body _ [] (or_intror eq_refl) Hj eq_refl)).
Defined.

(** [fetch_api_raises_on_unreadable_error_body] on a status 500 with the
    body 0xFF. *)
Lemma fetch_api_raises_on_unreadable_error_body_witness :
  urlopen (Runtime := Ref.cpython) (probe_request (py "/a")) Run.one_undecodable_error
  = (Fails (HTTPError 500 (py "Internal Server Error") (Body [xff])), [])
  /\ body_text (R := Ref.cpython) (Body [xff]) = Raises Run.undecodable
  /\ fetch_api (R := Ref.cpython) (py "/a") Run.one_undecodable_error
     = ([UrlOpen (probe_request (py "/a"))], Raise (Exc (Error Run.undecodable)), []).
Proof.
  assert (Hu : urlopen (Runtime := Ref.cpython) (probe_request (py "/a"))
                 Run.one_undecodable_error
               = (Fails (HTTPError 500 (py "Internal Server Error") (Body [xff])), []))
    by (vm_compute; reflexivity).
  assert (Hb : body_text (R := Ref.cpython) (Body [xff]) = Raises Run.undecodable)
    by (vm_compute; reflexivity).
  split; [exact Hu|]. split; [exact Hb|].
  exact (fetch_api_raises_on_unreadable_error_body (R := Ref.cpython)
           (py "/a") Run.one_undecodable_error 500 _ _ _ [] Hu Hb).
Defined.

(** [download_failure_is_fatal] on a refused connection. *)
Lemma download_failure_is_fatal_witness :
  spec_fails (R := Ref.cpython) [] Ref.connection_refused []
  /\ main (R := Ref.cpython) []
     = ([Print Rule; Print Downloading; UrlOpen spec_request;
         Print (DownloadFailed
                  (py "<urlopen error [Errno 111] Connection refused>"))],
        Raise (SystemExit 1), []).
Proof.
  assert (H : spec_fails (R := Ref.cpython) [] Ref.connection_refused [])
    by (apply fails_urlopen; reflexivity).
  split; [exact H|].
  exact (proj1 (download_failure_is_fatal (R := Ref.cpython) [] _ [] H)).
Defined.

(** [missing_paths_key_completes] on a document with [openapi] and [info]
    only. *)
Lemma missing_paths_key_completes_witness :
  spec_loads (R := Ref.cpython) Run.no_paths
    (PDict [(py "openapi", PStr (py "3.1.0"));
            (py "info", PDict [(py "title", PStr (py "api"))])]) []
  /\ dict_lookup (py "paths")
       [(py "openapi", PStr (py "3.1.0"));
        (py "info", PDict [(py "title", PStr (py "api"))])] = None
  /\ main (R := Ref.cpython) Run.no_paths
     = ([Print Rule; Print Downloading; UrlOpen spec_request; Print (Found 0);
         Print Rule; Print Starting; Print Rule; Print Rule; Print ScanComplete],
        Ret tt, []).
Proof.
  assert (H : spec_loads (R := Ref.cpython) Run.no_paths
                (PDict [(py "openapi", PStr (py "3.1.0"));
                        (py "info", PDict [(py "title", PStr (py "api"))])]) []).
  { eexists _, _, _. repeat split; vm_compute; reflexivity. }
  split; [exact H|]. split; [reflexivity|].
  exact (missing_paths_key_completes (R := Ref.cpython) Run.no_paths _ [] H eq_refl).
Defined.

(** C2 (the script departs from it). The document has two paths with a
    [get]; the first probe is answered by a status 500 whose body is not
    UTF-8; the run prints the first half of one report line and stops: no
    category for [/a], no line for [/b]. *)
Theorem report_lines_missing_after_failed_probe :
  spec_loads (R := Ref.cpython) Run.undecodable_error
    (PDict [(py "paths", PDict Run.two_gets)]) (tl Run.undecodable_error)
  /\ get_paths Run.two_gets = [py "/a"; py "/b"]
  /\ main (R := Ref.cpython) Run.undecodable_error
     = ([Print Rule; Print Downloading; UrlOpen spec_request; Print (Found 2);
         Print Rule; Print Starting; Print Rule;
         Print (Test (py "/a")); UrlOpen (probe_request (py "/a"))],
        Raise (Exc (Error Run.undecodable)),
        [(Run.url "/b", Run.ok "{}")])
  /\ report_halves
       (printed (fst (fst (main (R := Ref.cpython) Run.undecodable_error))))
     = [Test (py "/a")].
Proof.
  split; [|repeat split; vm_compute; reflexivity].
  eexists _, _, _. repeat split; vm_compute; reflexivity.
Qed.

(** C8 (the script departs from it). The first of three probes is answered
    by a status 404 and the connection is reset while the body is read:
    the exception leaves [fetch_api] and [main], the two other endpoints
    are never requested, the closing banner is not printed, and the
    process ends with status 1. *)
Theorem scan_aborted_by_failed_probe :
  main (R := Ref.cpython) Run.reset_error
  = ([Print Rule; Print Downloading; UrlOpen spec_request; Print (Found 3);
      Print Rule; Print Starting; Print Rule;
      Print (Test (py "/users/{id}")); UrlOpen (probe_request (py "/users/{id}"))],
     Raise (Exc (Error Run.connection_reset)),
     [(Run.url "/tags", Run.ok "[]"); (Run.url "/q", Run.ok "[]")])
  /\ exit_status (snd (fst (main (R := Ref.cpython) Run.reset_error))) = 1%Z.
Proof. split; vm_compute; reflexivity. Qed.

(** The scenario of the specification: one path with a [get], answered by
    a status 200, gives one request and one line SUCCESS; the path with
    only a [post] gives nothing. *)
Example videos_run :
  main (R := Ref.cpython) Run.videos
  = ([Print Rule; Print Downloading; UrlOpen spec_request; Print (Found 2);
      Print Rule; Print Starting; Print Rule;
      Print (Test (py "/videos/{video_id}"));
      UrlOpen (probe_request (py "/videos/{video_id}"));
      Print Success; Sleep;
      Print Rule; Print ScanComplete],
     Ret tt, []).
Proof. vm_compute. reflexivity. Qed.

(** * More of the script *)

Section Probes.
Context {R : Runtime}.

Lemma fetch_result_raises o r :
  fetch_result o = Raise r ->
  exists code reason body e,
    o = Fails (HTTPError code reason body) /\ body_text body = Raises e
    /\ r = Exc (Error e).
Proof.
  destruct o as [resp|[code reason body|e]]; cbn [fetch_result].
  - destruct (body_text (fp resp)); discriminate.
  - destruct (body_text body) as [text|e] eqn:Hb; [discriminate|].
    intros [= <-]. now exists code, reason, body, e.
  - discriminate.
Qed.



(** ** One turn of the loop, by what the probe gave *)

Lemma scan_one_unprintable path methods (w : World) :
  py_contains (py "get") methods = Value true ->
  encodable path = false ->
  scan_one (path, methods) w
  = ([], Raise (Exc (Error (UnicodeEncodeError (written (Test path))))), w).
Proof.
  intros Hc He. unfold scan_one. rewrite Hc, bind_value. cbn [negb].
  now rewrite bind_print_raises.
Qed.

Lemma scan_one_returns path methods (w : World) status body :
  py_contains (py "get") methods = Value true ->
  encodable path = true ->
  fetch_result (fst (urlopen (probe_request path) w)) = Ret (status, body) ->
  exists hints,
    scan_one (path, methods) w
    = (Print (Test path) :: UrlOpen (probe_request path)
       :: Print (category status) :: map Print hints ++ [Sleep],
       Ret tt, snd (urlopen (probe_request path) w))
    /\ Forall (fun l => is_hint l = true) hints
    /\ (hints = [] <-> status <> 400%Z /\ status <> 422%Z).
Proof.
  intros Hc He Hf. unfold scan_one. rewrite Hc, bind_value. cbn [negb].
  rewrite bind_print by exact He. unfold bind at 1. rewrite fetch_api_result, Hf.
  destruct (report_category status body (snd (urlopen (probe_request path) w)))
    as (hints & Hr & Hh & Hn).
  unfold bind at 1. rewrite Hr. unfold sleep.
  exists hints. now split.
Qed.

Lemma scan_one_failed_0 path methods (w : World) text :
  py_contains (py "get") methods = Value true ->
  fetch_result (fst (urlopen (probe_request path) w)) = Ret (0%Z, text) ->
  scan_one (path, methods) w
  = if encodable path
    then ([Print (Test path); UrlOpen (probe_request path); Print (Failed 0); Sleep],
          Ret tt, snd (urlopen (probe_request path) w))
    else ([], Raise (Exc (Error (UnicodeEncodeError (written (Test path))))), w).
Proof.
  intros Hc Hf. destruct (encodable path) eqn:He.
  - destruct (scan_one_returns _ _ _ _ _ Hc He Hf) as (hints & -> & _ & Hn).
    assert (hints = []) as -> by (apply Hn; lia). reflexivity.
  - now apply scan_one_unprintable.
Qed.

(** When the server answers a probe and the body of the answer cannot be
    read or decoded, [fetch_api] gives the status 0 with the text of the
    exception: the status the server sent is lost, the report is FAILED (0)
    and the loop goes on.  This is the turn of a path that the console can
    encode; for another the [[TEST]] print raises before the request. *)
Theorem undecodable_response_is_reported_failed_0
  (path : pystr) (methods : pyval) (w : World) (resp : response) (e : pyerror)
  (w' : World) :
  py_contains (py "get") methods = Value true ->
  urlopen (probe_request path) w = (Answers resp, w') ->
  body_text (fp resp) = Raises e ->
  fetch_api path w = ([UrlOpen (probe_request path)], Ret (0%Z, err_text e), w')
  /\ scan_one (path, methods) w
     = if encodable path
       then ([Print (Test path); UrlOpen (probe_request path); Print (Failed 0);
              Sleep], Ret tt, w')
       else ([], Raise (Exc (Error (UnicodeEncodeError (written (Test path))))), w).
Proof.
  intros Hc Hu Hb. split.
  - exact (fetch_api_unreadable_response _ _ _ _ _ Hu Hb).
  - rewrite (scan_one_failed_0 path methods w (err_text e) Hc).
    + now rewrite Hu.
    + rewrite Hu. cbn [fst fetch_result]. now rewrite Hb.
Qed.

(** When [urlopen] raises an exception that is not an [HTTPError] (no
    route, a refused connection), [fetch_api] gives the status 0 with the
    text of the exception.  In the loop the report is then FAILED (0) and
    the loop goes on after its pause, for a path that the console can
    encode; for another, a path with a lone surrogate, the [[TEST]] print
    raises before [fetch_api] is called: nothing is printed or requested,
    and the exception leaves the loop. *)
Theorem transport_failure_is_reported_failed_0
  (path : pystr) (methods : pyval) (w : World) (e : pyerror) (w' : World) :
  py_contains (py "get") methods = Value true ->
  urlopen (probe_request path) w = (Fails (Error e), w') ->
  fetch_api path w = ([UrlOpen (probe_request path)], Ret (0%Z, err_text e), w')
  /\ scan_one (path, methods) w
     = if encodable path
       then ([Print (Test path); UrlOpen (probe_request path); Print (Failed 0);
              Sleep], Ret tt, w')
       else ([], Raise (Exc (Error (UnicodeEncodeError (written (Test path))))), w).
Proof.
  intros Hc Hu. split.
  - exact (fetch_api_no_status _ _ _ _ Hu).
  - rewrite (scan_one_failed_0 path methods w (err_text e) Hc).
    + now rewrite Hu.
    + now rewrite Hu.
Qed.

(** When the server answers a probe with an error status and the body of
    the error can be read and decoded, the report is the category of that
    status, with a hint line exactly when the status is 400 or 422, and the
    loop goes on after its pause.  This is the turn of a path that the
    console can encode; for another the [[TEST]] print raises before the
    request. *)
Theorem http_error_is_reported_by_its_status
  (path : pystr) (methods : pyval) (w : World) (code : Z) (reason : pystr)
  (body : stream) (text : pystr) (w' : World) :
  py_contains (py "get") methods = Value true ->
  urlopen (probe_request path) w = (Fails (HTTPError code reason body), w') ->
  body_text body = Value text ->
  if encodable path
  then exists hints,
         scan_one (path, methods) w
         = (Print (Test path) :: UrlOpen (probe_request path)
            :: Print (category code) :: map Print hints ++ [Sleep], Ret tt, w')
         /\ Forall (fun l => is_hint l = true) hints
         /\ (hints = [] <-> code <> 400%Z /\ code <> 422%Z)
  else scan_one (path, methods) w
       = ([], Raise (Exc (Error (UnicodeEncodeError (written (Test path))))), w).
Proof.
  intros Hc Hu Hb. destruct (encodable path) eqn:He.
  - destruct (scan_one_returns path methods w code text Hc He) as (hints & H & Hh & Hn).
    + rewrite Hu. cbn [fst fetch_result]. now rewrite Hb.
    + rewrite Hu in H. exists hints. now split.
  - now apply scan_one_unprintable.
Qed.

(** Only the status 200 is a success: an answer with another status
    between 200 and 300 (201, 204, 206) is reported FAILED with that
    status.  This is the turn of a path that the console can encode; for
    another the [[TEST]] print raises before the request. *)
Theorem only_200_is_success
  (path : pystr) (methods : pyval) (w : World) (resp : response) (body : pystr)
  (w' : World) :
  py_contains (py "get") methods = Value true ->
  urlopen (probe_request path) w = (Answers resp, w') ->
  body_text (fp resp) = Value body ->
  (200 < getcode resp < 300)%Z ->
  scan_one (path, methods) w
  = if encodable path
    then ([Print (Test path); UrlOpen (probe_request path);
           Print (Failed (getcode resp)); Sleep], Ret tt, w')
    else ([], Raise (Exc (Error (UnicodeEncodeError (written (Test path))))), w).
Proof.
  intros Hc Hu Hb Hs. destruct (encodable path) eqn:He.
  - destruct (scan_one_returns path methods w (getcode resp) body Hc He)
      as (hints & H & _ & Hn).
    + rewrite Hu. cbn [fst fetch_result]. now rewrite Hb.
    + rewrite Hu in H. cbn [snd] in H. rewrite H.
      assert (hints = []) as -> by (apply Hn; lia).
      unfold category.
      destruct (Z.eq_dec (getcode resp) 200); [lia|].
      destruct (Z.eq_dec (getcode resp) 404); [lia|].
      destruct (Z.eq_dec (getcode resp) 400); [lia|].
      destruct (Z.eq_dec (getcode resp) 422); [lia|reflexivity].
  - now apply scan_one_unprintable.
Qed.


(** ** The download *)

(** [get_json] sends one request, which carries the [User-Agent] header
    and no other.  It returns the parsed document, having printed nothing,
    or it prints one line [Failed to download ...] and raises
    [SystemExit(1)]: no exception leaves it. *)
Theorem get_json_returns_or_exits (url : pystr) (w : World) :
  let req := Request url [(py "User-Agent", py "Mozilla/5.0")] in
  let '(o, w1) := urlopen req w in
  let '(t, r, w') := get_json url w in
  requests t = [req]
  /\ w' = w1
  /\ match r with
     | Ret spec =>
         printed t = []
         /\ exists resp data text,
              o = Answers resp /\ read (fp resp) = Value data
              /\ bytes_decode data = Value text /\ json_loads text = Value spec
     | Raise (SystemExit code) =>
         code = 1%Z /\ exists e, printed t = [DownloadFailed (exc_str e)]
     | Raise (Exc _) => False
     end.
Proof.
  cbv zeta. unfold get_json, try_except, bind at 1, call_urlopen.
  destruct (urlopen _ w) as [[resp|e] w1].
  - destruct (read (fp resp)) as [data|e] eqn:Hr.
    + rewrite bind_value. destruct (bytes_decode data) as [text|e] eqn:Hd.
      * rewrite bind_value. destruct (json_loads text) as [spec|e] eqn:Hj.
        -- cbn. repeat split. now exists resp, data, text.
        -- cbn. repeat split. now exists (Error e).
      * rewrite bind_raises. cbn. repeat split. now exists (Error e).
    + rewrite bind_raises. cbn. repeat split. now exists (Error e).
  - cbn. repeat split. now exists e.
Qed.


(** ** Documents that are not of the expected shape *)

(** A document that parses but is not an object is not reported as a
    download failure: [spec.get] raises an [AttributeError] that nothing
    catches, after the two banner lines and the download, and the process
    ends with status 1. *)
Theorem non_object_document_is_not_a_download_failure
  (w : World) (spec : pyval) (w' : World) :
  spec_loads w spec w' ->
  is_dict spec = false ->
  main w
  = ([Print Rule; Print Downloading; UrlOpen spec_request],
     Raise (Exc (Error (AttributeError spec "get"))), w')
  /\ exit_status (snd (fst (main w))) = 1%Z.
Proof.
  intros H Hv. rewrite (main_loads _ _ _ H). unfold scan.
  destruct spec; try discriminate; cbn [py_get]; rewrite bind_raises; now split.
Qed.

(** When [paths] is present and is not a mapping, no endpoint is probed
    and the run ends with an uncaught exception: the [TypeError] of [len]
    before anything more is printed (null, a number, a boolean), or, for a
    list or a string, the [AttributeError] of [items] after the count of
    its elements and the banners. *)
Theorem paths_not_a_mapping_stops_before_the_scan
  (w : World) (items : list (pystr * pyval)) (paths : pyval) (w' : World) :
  spec_loads w (PDict items) w' ->
  dict_lookup (py "paths") items = Some paths ->
  is_dict paths = false ->
  exists lines e,
    main w
    = (Print Rule :: Print Downloading :: UrlOpen spec_request :: map Print lines,
       Raise (Exc (Error e)), w')
    /\ ((py_len paths = Raises e /\ lines = [])
        \/ (exists n, py_len paths = Value n
                      /\ lines = [Found n; Rule; Starting; Rule]
                      /\ e = AttributeError paths "items")).
Proof.
  intros H Hp Hv. rewrite (main_loads _ _ _ H). unfold scan.
  cbn [py_get]. rewrite Hp, bind_value.
  destruct (py_len paths) as [n|e] eqn:Hl.
  - rewrite bind_value, !bind_print by reflexivity.
    exists [Found n; Rule; Starting; Rule], (AttributeError paths "items").
    split; [|right; now exists n].
    destruct paths; try discriminate; reflexivity.
  - rewrite bind_raises. exists [], e. split; [reflexivity|now left].
Qed.


(** ** The loop *)

Lemma sleeps_app t1 t2 : sleeps (t1 ++ t2) = sleeps t1 + sleeps t2.
Proof. unfold sleeps. now rewrite filter_app, length_app. Qed.

Lemma categories_app t1 t2 : categories (t1 ++ t2) = categories t1 ++ categories t2.
Proof. unfold categories. now rewrite printed_app, filter_app. Qed.

Lemma sleeps_prints ls : sleeps (map Print ls) = 0.
Proof. induction ls as [|l ls IH]; [reflexivity|exact IH]. Qed.

Lemma categories_hints ls :
  Forall (fun l => is_hint l = true) ls -> categories (map Print ls) = [].
Proof.
  induction 1 as [|l ls Hl _ IH]; [reflexivity|].
  destruct l; try discriminate; exact IH.
Qed.

Lemma hints_are_reports ls :
  Forall (fun l => is_hint l = true) ls -> Forall (fun l => is_report l = true) ls.
Proof.
  apply Forall_impl. intros l H. unfold is_report. rewrite H. apply orb_true_r.
Qed.

Lemma paced_app t1 t2 r : paced t1 (Ret tt) -> paced t2 r -> paced (t1 ++ t2) r.
Proof.
  intros (L1 & S1 & P1) (L2 & S2 & P2). unfold paced.
  rewrite printed_app, sleeps_app, categories_app, probed_app, !length_app.
  split; [apply Forall_app; now split|]. split; [lia|].
  destruct r as [u|x]; [lia|]. destruct P2 as [P2 He]. split; [lia|exact He].
Qed.

Lemma scan_one_paced item (w : World) :
  let '(t, r, _) := scan_one item w in paced t r.
Proof.
  destruct item as [path methods]. unfold scan_one.
  destruct (py_contains (py "get") methods) as [[|]|e] eqn:Hc.
  - destruct (encodable path) eqn:He.
    2: { rewrite bind_value. cbn [negb]. rewrite bind_print_raises by exact He.
         unfold paced. cbn. repeat split; try lia; [constructor|now eexists]. }
    rewrite bind_value. cbn [negb]. rewrite bind_print by exact He.
    unfold bind at 1. rewrite fetch_api_result.
    destruct (fetch_result _) as [[status body]|x] eqn:Hf.
    + destruct (report_prints status body (snd (urlopen (probe_request path) w)))
        as (cat & hints & Hr & Hcat & Hh).
      unfold bind at 1. rewrite Hr. unfold sleep. cbn [app].
      change (Print (Test path) :: UrlOpen (probe_request path)
              :: Print cat :: map Print hints ++ [Sleep])
        with ([Print (Test path); UrlOpen (probe_request path); Print cat]
              ++ map Print hints ++ [Sleep]).
      unfold paced.
      rewrite !printed_app, !sleeps_app, !categories_app, !probed_app, !length_app.
      rewrite printed_prints, sleeps_prints, (categories_hints _ Hh), (probed_hints _ Hh).
      split; [|destruct cat; try discriminate; now split].
      apply Forall_app. split; [|apply Forall_app; split].
      * cbn. repeat constructor. unfold is_report. now rewrite Hcat, orb_true_r.
      * now apply hints_are_reports.
      * constructor.
    + apply fetch_result_raises in Hf as (_ & _ & _ & e & _ & _ & ->).
      unfold paced. cbn. repeat split; try lia; [repeat constructor|now exists e].
  - rewrite bind_value. cbn. unfold paced. cbn. repeat split. constructor.
  - rewrite bind_raises. unfold paced. cbn. repeat split; try lia; [constructor|now exists e].
Qed.

Lemma for_each_paced items (w : World) :
  let '(t, r, _) := for_each items scan_one w in paced t r.
Proof.
  revert w. induction items as [|item items IH]; intros w.
  - cbn. unfold paced. cbn. repeat split. constructor.
  - cbn [for_each]. unfold bind.
    pose proof (scan_one_paced item w) as H1.
    destruct (scan_one item w) as [[t1 [[]|x]] w1]; [|exact H1].
    specialize (IH w1). destruct (for_each items scan_one w1) as [[t2 r] w2].
    now apply paced_app.
Qed.


(** ** The run *)

(** A run that got the document: the opening lines, unless [paths] cannot
    be taken or counted; the turns of the loop; the closing lines when the
    loop returns. *)
Lemma scan_cases spec (w : World) :
  let '(t, r, _) := scan spec w in
  exists head loop,
    t = map Print head ++ loop ++ map Print (closing r)
    /\ paced loop r
    /\ (head = [] \/ exists n, head = opening n)
    /\ (head = [] -> loop = [] /\ exists x, r = Raise x).
Proof.
  unfold scan.
  assert (Hnil : forall e, paced [] (Raise (Exc (Error e)))).
  { intros e. unfold paced. cbn. repeat split; try lia; [constructor|now exists e]. }
  destruct (py_get spec (py "paths") (PDict [])) as [paths|e].
  2: { rewrite bind_raises. exists [], []. repeat split; eauto. }
  rewrite bind_value. destruct (py_len paths) as [n|e].
  2: { rewrite bind_raises. exists [], []. repeat split; eauto. }
  rewrite bind_value, !bind_print by reflexivity.
  destruct (py_items paths) as [items|e].
  2: { rewrite bind_raises. exists (opening n), []. repeat split; eauto. }
  rewrite bind_value. unfold bind at 1.
  pose proof (for_each_paced items w) as Hp.
  destruct (for_each items scan_one w) as [[loop [[]|x]] w'].
  - rewrite !bind_print by reflexivity. rewrite print_prints by reflexivity. exists (opening n), loop.
    repeat split; try apply Hp; eauto; discriminate.
  - exists (opening n), loop. cbn [closing map]. rewrite app_nil_r.
    repeat split; try apply Hp; eauto; discriminate.
Qed.

Lemma main_cases (w : World) :
  let '(t, r, _) := main w in
  (exists e,
     t = [Print Rule; Print Downloading; UrlOpen spec_request;
          Print (DownloadFailed (exc_str e))]
     /\ r = Raise (SystemExit 1))
  \/ (exists head loop,
        t = [Print Rule; Print Downloading; UrlOpen spec_request]
            ++ map Print head ++ loop ++ map Print (closing r)
        /\ paced loop r
        /\ (head = [] \/ exists n, head = opening n)
        /\ (head = [] -> loop = [] /\ exists x, r = Raise x)).
Proof.
  destruct (spec_loads_or_fails w) as [(spec & w1 & H)|(e & w1 & H)].
  - rewrite (main_loads _ _ _ H). pose proof (scan_cases spec w1) as Hs.
    destruct (scan spec w1) as [[t r] w']. right.
    destruct Hs as (head & loop & -> & Hp & Hh & Hn). now exists head, loop.
  - rewrite (main_fails _ _ _ H). left. now exists e.
Qed.


Lemma report_not_banner l :
  is_report l = true ->
  l <> ScanComplete /\ (forall cause, l <> DownloadFailed cause).
Proof. destruct l; try discriminate; (split; [discriminate|intros; discriminate]). Qed.

Lemma reports_not_banner ls :
  Forall (fun l => is_report l = true) ls ->
  ~ In ScanComplete ls /\ (forall cause, ~ In (DownloadFailed cause) ls).
Proof.
  intros H. rewrite Forall_forall in H. split.
  - intros Hin. now destruct (report_not_banner _ (H _ Hin)) as [E _].
  - intros cause Hin. destruct (report_not_banner _ (H _ Hin)) as [_ E].
    now apply (E cause).
Qed.

Lemma opening_not_banner head :
  head = [] \/ (exists n, head = opening n) ->
  ~ In ScanComplete head /\ (forall cause, ~ In (DownloadFailed cause) head).
Proof.
  intros [->|[n ->]]; [now split|]. unfold opening. split.
  - intros [H|[H|[H|[H|[]]]]]; discriminate.
  - intros cause [H|[H|[H|[H|[]]]]]; discriminate.
Qed.

Lemma printed_run head loop tail :
  printed ([Print Rule; Print Downloading; UrlOpen spec_request]
           ++ map Print head ++ loop ++ map Print tail)
  = Rule :: Downloading :: (head ++ printed loop) ++ tail.
Proof.
  rewrite !printed_app, !printed_prints. cbn [printed flat_map app].
  now rewrite app_assoc.
Qed.

(** A run ends in one of three ways.  It returns, and its last lines are
    the rule and [Scan Complete.]; or the download failed, and it raises
    [SystemExit(1)] right after the failure line; or an exception that is
    not an [HTTPError] leaves [main], and no failure line was printed.  The
    exit status is 0 exactly when [Scan Complete.] was printed. *)
Theorem run_ends_in_one_of_three_ways (w : World) :
  let '(t, r, _) := main w in
  (exit_status r = 0%Z <-> In ScanComplete (printed t))
  /\ match r with
     | Ret _ =>
         exists ls,
           printed t = Rule :: Downloading :: ls ++ [Rule; ScanComplete]
           /\ ~ In ScanComplete ls
     | Raise (SystemExit code) =>
         code = 1%Z
         /\ exists e,
              t = [Print Rule; Print Downloading; UrlOpen spec_request;
                   Print (DownloadFailed (exc_str e))]
     | Raise (Exc e) =>
         (exists x, e = Error x)
         /\ forall cause, ~ In (DownloadFailed cause) (printed t)
     end.
Proof.
  pose proof (main_cases w) as H.
  destruct (main w) as [[t r] w'].
  destruct H as [(e & -> & ->)|(head & loop & -> & Hp & Hh & Hn)].
  - split; [|split; [reflexivity|now exists e]].
    cbn. split; [discriminate|]. intros [H|[H|[H|[]]]]; discriminate.
  - rewrite printed_run.
    destruct Hp as (Hl & _ & Hr).
    destruct (reports_not_banner _ Hl) as [Hl1 Hl2].
    destruct (opening_not_banner _ Hh) as [Hh1 Hh2].
    assert (Hls : ~ In ScanComplete (head ++ printed loop)).
    { intros Hin. apply in_app_or in Hin as [Hin|Hin]; auto. }
    destruct r as [[]|x].
    + cbn [closing exit_status]. split.
      * split; [|reflexivity]. intros _. right. right.
        apply in_or_app. right. right. now left.
      * now exists (head ++ printed loop).
    + cbn [closing]. rewrite app_nil_r.
      destruct Hr as [_ [e ->]]. cbn [exit_status]. split.
      * split; [discriminate|].
        intros [H|[H|H]]; try discriminate. now destruct Hls.
      * split; [now exists e|].
        intros cause [H|[H|H]]; try discriminate.
        apply in_app_or in H as [H|H]; [now apply (Hh2 cause)|now apply (Hl2 cause)].
Qed.

Lemma sleeps_run head loop tail :
  sleeps ([Print Rule; Print Downloading; UrlOpen spec_request]
          ++ map Print head ++ loop ++ map Print tail) = sleeps loop.
Proof. rewrite !sleeps_app, !sleeps_prints. cbn. lia. Qed.

(** The pace of a run: one pause for each category line printed, none for
    a path that is skipped and none around the download.  In a run that
    returns every path tested was followed by its pause; in a run that
    raises at most the last one was not. *)
Theorem one_sleep_after_each_report (w : World) :
  let '(t, r, _) := main w in
  sleeps t = List.length (categories t)
  /\ match r with
     | Ret _ => List.length (probed t) = sleeps t
     | Raise _ => sleeps t <= List.length (probed t) <= S (sleeps t)
     end.
Proof.
  pose proof (main_cases w) as H.
  destruct (main w) as [[t r] w'].
  destruct H as [(e & -> & ->)|(head & loop & -> & Hp & Hh & Hn)].
  - cbn. lia.
  - rewrite sleeps_run. unfold categories. rewrite printed_run.
    cbn [filter is_category].
    rewrite !probed_app, !filter_app, !length_app.
    destruct Hp as (_ & Hs & Hr). unfold categories in Hs.
    assert (Hhead : probed (map Print head) = [] /\ filter is_category head = []).
    { destruct Hh as [->|[n ->]]; now split. }
    destruct Hhead as [-> ->].
    assert (Htail : probed (map Print (closing r)) = []
                    /\ filter is_category (closing r) = []).
    { destruct r; now split. }
    destruct Htail as [-> ->].
    cbn [probed flat_map app filter is_category List.length].
    rewrite !Nat.add_0_r. split; [exact Hs|].
    destruct r as [u|x]; [exact Hr|apply Hr].
Qed.


(** ** The scan that runs to its end *)





(** ** Reports and requests *)

(** [report] never raises and leaves the world as it is: it prints two
    lines for the statuses 400 and 422, whatever the body and whatever
    [json.loads] does with it, and one line for any other status, for
    which the body is not looked at. *)
Theorem report_prints_one_or_two_lines (status : Z) (body : pystr) (w : World) :
  (exists lines,
     report status body w = (map Print lines, Ret tt, w)
     /\ List.length lines
        = if Z.eqb status 400 || Z.eqb status 422 then 2 else 1)
  /\ (status <> 400%Z /\ status <> 422%Z ->
      forall body', report status body' w = report status body w).
Proof.
  split.
  - destruct (report_category status body w) as (hints & Hr & Hh & Hn).
    exists (category status :: hints). split; [exact Hr|].
    destruct (Z.eqb_spec status 400) as [->|H4].
    { destruct (print_hint_line body w) as (l & Hl & _).
      rewrite report_param_error, Hl in Hr by now left.
      injection Hr as Hr. destruct hints as [|h [|h' hints]]; try discriminate; reflexivity. }
    destruct (Z.eqb_spec status 422) as [->|H2].
    { destruct (print_hint_line body w) as (l & Hl & _).
      rewrite report_param_error, Hl in Hr by now right.
      injection Hr as Hr. destruct hints as [|h [|h' hints]]; try discriminate; reflexivity. }
    cbn [orb]. assert (hints = []) as -> by now apply Hn. reflexivity.
  - intros [H4 H2] body'.
    destruct (report_category status body w) as (hints & -> & _ & Hn).
    destruct (report_category status body' w) as (hints' & -> & _ & Hn').
    assert (hints = []) as -> by now apply Hn.
    assert (hints' = []) as -> by now apply Hn'. reflexivity.
Qed.

(** The operations of a path count only by the presence of the key [get]:
    two operation maps that agree on it give the same turn of the loop. *)
Theorem descriptor_is_never_read
  (path : pystr) (ops ops' : list (pystr * pyval)) (w : World) :
  has_get (PDict ops) = has_get (PDict ops') ->
  scan_one (path, PDict ops) w = scan_one (path, PDict ops') w.
Proof.
  intros H. unfold scan_one.
  change (py_contains (py "get") (PDict ops)) with (@Value bool (has_get (PDict ops))).
  change (py_contains (py "get") (PDict ops')) with (@Value bool (has_get (PDict ops'))).
  now rewrite H.
Qed.

(** In every run the first request is the download, with the
    [User-Agent] header only; every other request carries the three headers
    of a probe, the bearer token among them. *)
Theorem every_probe_carries_the_fixed_headers (w : World) :
  let '(t, _, _) := main w in
  exists probes,
    requests t = Request OPENAPI_URL [(py "User-Agent", py "Mozilla/5.0")] :: probes
    /\ Forall (fun r => headers r = probe_headers) probes.
Proof.
  destruct (spec_loads_or_fails w) as [(spec & w1 & H)|(e & w1 & H)].
  - rewrite (main_loads _ _ _ H). pose proof (scan_requests spec w1) as Hr.
    destruct (scan spec w1) as [[t r] w']. cbn [requests flat_map app].
    fold (requests t). rewrite Hr. eexists. split; [reflexivity|].
    apply Forall_forall. intros r0 Hin. apply in_map_iff in Hin as (path & <- & _).
    reflexivity.
  - rewrite (main_fails _ _ _ H). exists []. now split.
Qed.

End Probes.

(** ** What materialization changes *)

Lemma no_token_no_lookup (tbl : list (pystr * pystr)) path :
  existsb (fun kv => occurs (fst kv) path) tbl = false ->
  lookup_prefix tbl path = None.
Proof.
  induction tbl as [|[k v] tbl IH]; [reflexivity|].
  cbn [existsb fst lookup_prefix]. intros H.
  apply orb_false_elim in H as [Hk H].
  destruct (starts_with k path) eqn:Hs; [|now apply IH].
  apply starts_with_occurs in Hs. congruence.
Qed.

Lemma no_token_tail (tbl : list (pystr * pystr)) c path :
  existsb (fun kv => occurs (fst kv) (c :: path)) tbl = false ->
  existsb (fun kv => occurs (fst kv) path) tbl = false.
Proof.
  induction tbl as [|[k v] tbl IH]; [reflexivity|].
  cbn [existsb fst occurs]. intros H.
  apply orb_false_elim in H as [Hk H]. apply orb_false_elim in Hk as [_ Hk].
  now rewrite Hk, IH.
Qed.

Lemma substitute_no_token_in (tbl : list (pystr * pystr)) path :
  existsb (fun kv => occurs (fst kv) path) tbl = false ->
  substitute tbl path = path.
Proof.
  induction path as [|c path IH]; intros H; [reflexivity|].
  rewrite substitute_cons, (no_token_no_lookup _ _ H).
  f_equal. apply IH. now apply no_token_tail with (c := c).
Qed.

(** Materialization leaves a path as it is exactly when no token of the
    table occurs in it. *)
Theorem materialize_changes_only_known_tokens (path : pystr) :
  materialize path = path <-> known_token_in path = false.
Proof.
  rewrite materialize_substitute. unfold known_token_in. split.
  - intros H. apply not_true_iff_false. intros Hin.
    apply existsb_exists in Hin as ([k v] & Hkv & Hocc). cbn [fst] in Hocc.
    rewrite <- H in Hocc.
    rewrite (substitute_no_token placeholder_table) with (v := v) in Hocc;
      [discriminate| |exact Hkv].
    apply table_ok_spec. reflexivity.
  - apply substitute_no_token_in.
Qed.

(** ** The order of the replacements *)

(** At most one token of a table starts a text. *)
Lemma lookup_prefix_unique (tbl : list (pystr * pystr)) k v s :
  TableOk tbl -> In (k, v) tbl -> starts_with k s = true ->
  lookup_prefix tbl s = Some (k, v).
Proof.
  intros ok Hin Hs.
  destruct (lookup_prefix tbl s) as [[k' v']|] eqn:Hl.
  - apply lookup_prefix_Some in Hl as [Hin' Hs'].
    destruct (ok_token ok _ _ Hin) as (name & Hk & Hname).
    destruct (ok_token ok _ _ Hin') as (name' & Hk' & Hname').
    assert (name' = name).
    { subst k k'. destruct s as [|c s]; [discriminate|].
      rewrite placeholder_starts in Hs, Hs'.
      apply andb_prop in Hs as [_ Hs], Hs' as [_ Hs'].
      eapply name_end_unique; eassumption. }
    subst. f_equal. f_equal. exact (ok_distinct ok _ _ _ Hin' Hin).
  - rewrite (lookup_prefix_None _ _ _ _ Hl Hin) in Hs. discriminate.
Qed.

Lemma lookup_prefix_same (tbl tbl' : list (pystr * pystr)) s :
  TableOk tbl -> (forall kv, In kv tbl' <-> In kv tbl) ->
  lookup_prefix tbl' s = lookup_prefix tbl s.
Proof.
  intros ok Hsame.
  destruct (lookup_prefix tbl' s) as [[k v]|] eqn:Hl.
  - apply lookup_prefix_Some in Hl as [Hin Hs]. symmetry.
    apply lookup_prefix_unique; [exact ok|now apply Hsame|exact Hs].
  - destruct (lookup_prefix tbl s) as [[k v]|] eqn:Hl'; [|reflexivity].
    apply lookup_prefix_Some in Hl' as [Hin Hs].
    apply Hsame in Hin. rewrite (lookup_prefix_None _ _ _ _ Hl Hin) in Hs.
    discriminate.
Qed.

Lemma substitute_same (tbl tbl' : list (pystr * pystr)) s :
  TableOk tbl -> (forall kv, In kv tbl' <-> In kv tbl) ->
  substitute tbl' s = substitute tbl s.
Proof.
  intros ok Hsame. induction s as [s IH] using length_ind.
  destruct s as [|c s]; [reflexivity|].
  rewrite !substitute_cons, (lookup_prefix_same tbl tbl') by assumption.
  destruct (lookup_prefix tbl (c :: s)) as [[k v]|].
  - f_equal. apply IH. rewrite length_skipn. simpl. lia.
  - f_equal. apply IH. simpl. lia.
Qed.

(** The seven replacements can be made in any order: the result is that
    of [fetch_api]. *)
Theorem replacements_in_any_order (tbl : list (pystr * pystr)) (path : pystr) :
  Permutation tbl placeholder_table ->
  replace_chain tbl path = materialize path.
Proof.
  intros Hp.
  assert (ok : TableOk placeholder_table) by (apply table_ok_spec; reflexivity).
  assert (Hsame : forall kv, In kv tbl <-> In kv placeholder_table).
  { intros kv. split; apply Permutation_in; [exact Hp|now apply Permutation_sym]. }
  rewrite materialize_substitute, replace_chain_substitute.
  - now apply substitute_same.
  - eapply TableOk_incl; [|exact ok]. intros kv. apply Hsame.
Qed.

(** ** The first half of a report line *)

(** The [[TEST]] half shows the path whole, whatever its length: it is
    padded with spaces on the right up to 40 characters, never cut, and it
    ends the line only if the path does. *)
Theorem test_half_pads_and_never_cuts (path : pystr) :
  (exists pad,
     line_text (Test path) = py "[TEST] " ++ path ++ pad ++ py " ... "
     /\ Forall (fun c => c = 32%N) pad
     /\ List.length (path ++ pad) = Nat.max 40 (List.length path))
  /\ (In 10%N (line_text (Test path)) <-> In 10%N path).
Proof.
  split.
  - exists (repeat 32%N (40 - List.length path)).
    split; [unfold line_text, ljust; now rewrite <- app_assoc|].
    split.
    + apply Forall_forall. intros c Hc. now apply repeat_spec in Hc.
    + rewrite length_app, repeat_length. lia.
  - unfold line_text, ljust. split.
    + intros H. apply in_app_or in H as [H|H].
      * cbn in H. repeat (destruct H as [H|H]; [discriminate|]). destruct H.
      * apply in_app_or in H as [H|H].
        -- apply in_app_or in H as [H|H]; [exact H|].
           apply repeat_spec in H. discriminate.
        -- cbn in H. repeat (destruct H as [H|H]; [discriminate|]). destruct H.
    + intros H. apply in_or_app. right. apply in_or_app. left.
      apply in_or_app. now left.
Qed.

(** ** The order of the probes, in every run *)

Section Order.
Context {R : Runtime}.


Lemma turn_tested item t r :
  turn item t r -> Forall (fun path => encodable path = true) (probed t).
Proof.
  destruct 1 as [e H|H|x H He|cat hints H He Hcat Hh|H He]; try constructor;
    try exact He; try constructor.
  change (probed (Print cat :: map Print hints ++ [Sleep]))
    with (probed (map Print (cat :: hints) ++ [Sleep])).
  rewrite probed_app. cbn [map probed flat_map app].
  fold (probed (map Print hints)). rewrite (probed_hints _ Hh).
  destruct cat; try discriminate; constructor.
Qed.

Lemma for_each_tested items (w : World) :
  let '(t, _, _) := for_each items scan_one w in
  Forall (fun path => encodable path = true) (probed t).
Proof.
  revert w. induction items as [|item items IH]; intros w; [constructor|].
  cbn [for_each]. unfold bind.
  destruct (scan_one_turn item w) as (t1 & r1 & w1 & -> & Ht).
  apply turn_tested in Ht. destruct r1 as [[]|x]; [|exact Ht].
  specialize (IH w1). destruct (for_each items scan_one w1) as [[t2 r2] w2].
  rewrite probed_app. apply Forall_app. now split.
Qed.

(** A run completes only if the console can encode every path with a
    [get]: when one of them holds a lone surrogate, the run ends with an
    uncaught exception, without [Scan Complete.], and the exit status
    is 1. *)
Theorem unprintable_path_aborts_the_scan
  (w : World) (spec : pyval) (items : list (pystr * pyval)) (w1 : World) :
  spec_loads w spec w1 ->
  py_get spec (py "paths") (PDict []) = Value (PDict items) ->
  operation_maps items ->
  ~ printable_paths items ->
  let '(t, r, _) := main w in
  (exists e, r = Raise (Exc (Error e)))
  /\ ~ In ScanComplete (printed t)
  /\ exit_status r = 1%Z.
Proof.
  intros H Hp Hm Hn. rewrite (main_loop _ _ _ _ H Hp).
  pose proof (for_each_probes_prefix items w1 Hm) as Hf.
  pose proof (for_each_tested items w1) as Ht.
  pose proof (for_each_paced items w1) as Hpaced.
  destruct (for_each items scan_one w1) as [[loop r] w'].
  destruct r as [[]|x].
  { exfalso. apply Hn. unfold printable_paths.
    now rewrite <- (proj2 Hf eq_refl). }
  destruct Hpaced as (Hl & _ & _ & e & ->).
  split; [now exists e|]. split; [|reflexivity].
  rewrite printed_run. cbn [closing]. rewrite app_nil_r.
  destruct (reports_not_banner _ Hl) as [Hl1 _].
  intros [Hin|[Hin|Hin]]; try discriminate.
  apply in_app_or in Hin as [Hin|Hin]; [|now apply Hl1].
  destruct Hin as [Hin|[Hin|[Hin|[Hin|[]]]]]; discriminate.
Qed.

End Order.

(** ** The server of texts *)






(** ** Runs *)

(** [undecodable_response_is_reported_failed_0] on a status 200 with the
    body 0xFF. *)
Lemma undecodable_response_is_reported_failed_0_witness :
  py_contains (py "get") Run.get_only = Value true
  /\ urlopen (Runtime := Ref.cpython) (probe_request (py "/a")) Run.undecodable_answer
     = (Answers (Response 200 (Body [xff])), [])
  /\ body_text (R := Ref.cpython) (Body [xff]) = Raises Run.undecodable
  /\ fetch_api (R := Ref.cpython) (py "/a") Run.undecodable_answer
     = ([UrlOpen (probe_request (py "/a"))],
        Ret (0%Z, py "'utf-8' codec can't decode byte 0xff in position 0: invalid start byte"),
        [])
  /\ scan_one (R := Ref.cpython) (py "/a", Run.get_only) Run.undecodable_answer
     = ([Print (Test (py "/a")); UrlOpen (probe_request (py "/a"));
         Print (Failed 0); Sleep], Ret tt, []).
Proof.
  assert (Hu : urlopen (Runtime := Ref.cpython) (probe_request (py "/a"))
                 Run.undecodable_answer
               = (Answers (Response 200 (Body [xff])), []))
    by (vm_compute; reflexivity).
  assert (Hb : body_text (R := Ref.cpython) (Body [xff]) = Raises Run.undecodable)
    by (vm_compute; reflexivity).
  split; [reflexivity|]. split; [exact Hu|]. split; [exact Hb|].
  exact (undecodable_response_is_reported_failed_0 (R := Ref.cpython)
           (py "/a") Run.get_only Run.undecodable_answer _ _ [] eq_refl Hu Hb).
Defined.

(** [transport_failure_is_reported_failed_0] on a refused connection. *)
Lemma transport_failure_is_reported_failed_0_witness :
  py_contains (py "get") Run.get_only = Value true
  /\ urlopen (Runtime := Ref.cpython) (probe_request (py "/a")) []
     = (Fails Ref.connection_refused, [])
  /\ fetch_api (R := Ref.cpython) (py "/a") []
     = ([UrlOpen (probe_request (py "/a"))],
        Ret (0%Z, py "<urlopen error [Errno 111] Connection refused>"), [])
  /\ scan_one (R := Ref.cpython) (py "/a", Run.get_only) []
     = ([Print (Test (py "/a")); UrlOpen (probe_request (py "/a"));
         Print (Failed 0); Sleep], Ret tt, []).
Proof.
  split; [reflexivity|]. split; [reflexivity|].
  exact (transport_failure_is_reported_failed_0 (R := Ref.cpython)
           (py "/a") Run.get_only [] _ [] eq_refl eq_refl).
Defined.

(** [http_error_is_reported_by_its_status] on a status 422 with a
    [detail]. *)
Lemma http_error_is_reported_by_its_status_witness :
  py_contains (py "get") Run.get_only = Value true
  /\ urlopen (Runtime := Ref.cpython) (probe_request (py "/search")) Run.unprocessable
     = (Fails (HTTPError 422 (py "Unprocessable Entity") Run.short_query), [])
  /\ body_text (R := Ref.cpython) Run.short_query
     = Value (py (Ref.json "{'detail': 'q too short'}"))
  /\ exists hints,
       scan_one (R := Ref.cpython) (py "/search", Run.get_only) Run.unprocessable
       = (Print (Test (py "/search")) :: UrlOpen (probe_request (py "/search"))
          :: Print (category 422) :: map Print hints ++ [Sleep], Ret tt, [])
       /\ Forall (fun l => is_hint l = true) hints
       /\ (hints = [] <-> 422%Z <> 400%Z /\ 422%Z <> 422%Z).
Proof.
  assert (Hu : urlopen (Runtime := Ref.cpython) (probe_request (py "/search"))
                 Run.unprocessable
               = (Fails (HTTPError 422 (py "Unprocessable Entity") Run.short_query), []))
    by (vm_compute; reflexivity).
  assert (Hb : body_text (R := Ref.cpython) Run.short_query
               = Value (py (Ref.json "{'detail': 'q too short'}")))
    by (vm_compute; reflexivity).
  split; [reflexivity|]. split; [exact Hu|]. split; [exact Hb|].
  exact (http_error_is_reported_by_its_status (R := Ref.cpython)
           (py "/search") Run.get_only Run.unprocessable 422 _ _ _ [] eq_refl Hu Hb).
Defined.

(** [only_200_is_success] on a status 204 without a body. *)
Lemma only_200_is_success_witness :
  py_contains (py "get") Run.get_only = Value true
  /\ urlopen (Runtime := Ref.cpython) (probe_request (py "/ping")) Run.no_content
     = (Answers (Response 204 (Body [])), [])
  /\ body_text (R := Ref.cpython) (Body []) = Value []
  /\ (200 < 204 < 300)%Z
  /\ scan_one (R := Ref.cpython) (py "/ping", Run.get_only) Run.no_content
     = ([Print (Test (py "/ping")); UrlOpen (probe_request (py "/ping"));
         Print (Failed 204); Sleep], Ret tt, []).
Proof.
  assert (Hu : urlopen (Runtime := Ref.cpython) (probe_request (py "/ping"))
                 Run.no_content
               = (Answers (Response 204 (Body [])), []))
    by (vm_compute; reflexivity).
  split; [reflexivity|]. split; [exact Hu|]. split; [reflexivity|]. split; [lia|].
  exact (only_200_is_success (R := Ref.cpython)
           (py "/ping") Run.get_only Run.no_content _ _ [] eq_refl Hu eq_refl
           (conj eq_refl eq_refl)).
Defined.

(** [non_object_document_is_not_a_download_failure] on a document that is
    a list. *)
Lemma non_object_document_is_not_a_download_failure_witness :
  spec_loads (R := Ref.cpython) Run.list_document
    (PList [PStr (py "/a"); PStr (py "/b")]) []
  /\ is_dict (PList [PStr (py "/a"); PStr (py "/b")]) = false
  /\ main (R := Ref.cpython) Run.list_document
     = ([Print Rule; Print Downloading; UrlOpen spec_request],
        Raise (Exc (Error (PyError (py "AttributeError")
                             (py "'list' object has no attribute 'get'")))), [])
  /\ exit_status (snd (fst (main (R := Ref.cpython) Run.list_document))) = 1%Z.
Proof.
  assert (H : spec_loads (R := Ref.cpython) Run.list_document
                (PList [PStr (py "/a"); PStr (py "/b")]) []).
  { eexists _, _, _. repeat split; vm_compute; reflexivity. }
  split; [exact H|]. split; [reflexivity|].
  exact (non_object_document_is_not_a_download_failure (R := Ref.cpython)
           Run.list_document _ [] H eq_refl).
Defined.

(** [paths_not_a_mapping_stops_before_the_scan] on a [paths] that is a
    list. *)
Lemma paths_not_a_mapping_stops_before_the_scan_witness :
  spec_loads (R := Ref.cpython) Run.list_of_paths
    (PDict [(py "paths", PList [PStr (py "/a")])]) []
  /\ dict_lookup (py "paths") [(py "paths", PList [PStr (py "/a")])]
     = Some (PList [PStr (py "/a")])
  /\ is_dict (PList [PStr (py "/a")]) = false
  /\ exists lines e,
       main (R := Ref.cpython) Run.list_of_paths
       = (Print Rule :: Print Downloading :: UrlOpen spec_request :: map Print lines,
          Raise (Exc (Error e)), [])
       /\ ((py_len (PList [PStr (py "/a")]) = Raises e /\ lines = [])
           \/ (exists n, py_len (PList [PStr (py "/a")]) = Value n
                         /\ lines = [Found n; Rule; Starting; Rule]
                         /\ e = AttributeError (PList [PStr (py "/a")]) "items")).
Proof.
  assert (H : spec_loads (R := Ref.cpython) Run.list_of_paths
                (PDict [(py "paths", PList [PStr (py "/a")])]) []).
  { eexists _, _, _. repeat split; vm_compute; reflexivity. }
  split; [exact H|]. split; [reflexivity|]. split; [reflexivity|].
  exact (paths_not_a_mapping_stops_before_the_scan (R := Ref.cpython)
           Run.list_of_paths _ _ [] H eq_refl eq_refl).
Defined.


(** [replacements_in_any_order] on the table in reverse. *)
Lemma replacements_in_any_order_witness :
  Permutation (rev placeholder_table) placeholder_table
  /\ replace_chain (rev placeholder_table) (py "/users/{username}/videos/{video_id}/{id}")
     = materialize (py "/users/{username}/videos/{video_id}/{id}").
Proof.
  assert (Hp : Permutation (rev placeholder_table) placeholder_table)
    by (apply Permutation_sym, Permutation_rev).
  split; [exact Hp|].
  exact (replacements_in_any_order _ _ Hp).
Defined.

(** [descriptor_is_never_read] on a descriptor that is null and one that
    is an object beside a summary. *)
Lemma descriptor_is_never_read_witness :
  has_get (PDict [(py "get", PNone)])
  = has_get (PDict [(py "summary", PStr (py "List")); (py "get", PDict [])])
  /\ scan_one (R := Ref.cpython) (py "/a", PDict [(py "get", PNone)]) []
     = scan_one (R := Ref.cpython)
         (py "/a", PDict [(py "summary", PStr (py "List")); (py "get", PDict [])]) [].
Proof.
  split; [reflexivity|].
  exact (descriptor_is_never_read (R := Ref.cpython) (py "/a") _ _ [] eq_refl).
Defined.


(** The run on the catalogue, event by event. *)
Example catalogue_run :
  main (R := Ref.text_server) Run.catalogue
  = ([Print Rule; Print Downloading; UrlOpen spec_request; Print (Found 4);
      Print Rule; Print Starting; Print Rule;
      Print (Test (py "/videos/{video_id}"));
      UrlOpen (probe_request (py "/videos/{video_id}"));
      Print Success; Sleep;
      Print (Test (py "/search")); UrlOpen (probe_request (py "/search"));
      Print (ParamError 422); Print (Hint (py "q too short")); Sleep;
      Print (Test (py "/tags/{slug}")); UrlOpen (probe_request (py "/tags/{slug}"));
      Print NotFound; Sleep;
      Print Rule; Print ScanComplete],
     Ret tt, []).
Proof. vm_compute. reflexivity. Qed.

(** [unprintable_path_aborts_the_scan] on a document whose first path holds
    a lone surrogate: the [[TEST]] print raises, no endpoint is
    requested. *)
Lemma unprintable_path_aborts_the_scan_witness :
  spec_loads (R := Ref.cpython) Run.unprintable
    (PDict [(py "paths", PDict Run.unprintable_paths)]) (tl Run.unprintable)
  /\ py_get (PDict [(py "paths", PDict Run.unprintable_paths)]) (py "paths") (PDict [])
     = Value (PDict Run.unprintable_paths)
  /\ operation_maps Run.unprintable_paths
  /\ ~ printable_paths Run.unprintable_paths
  /\ main (R := Ref.cpython) Run.unprintable
     = ([Print Rule; Print Downloading; UrlOpen spec_request; Print (Found 2);
         Print Rule; Print Starting; Print Rule],
        Raise (Exc (Error (PyError (py "UnicodeEncodeError")
          (py "'utf-8' codec can't encode character '\ud800' in position 9: surrogates not allowed")))),
        tl Run.unprintable)
  /\ let '(t, r, _) := main (R := Ref.cpython) Run.unprintable in
     (exists e, r = Raise (Exc (Error e)))
     /\ ~ In ScanComplete (printed t)
     /\ exit_status r = 1%Z.
Proof.
  assert (H : spec_loads (R := Ref.cpython) Run.unprintable
                (PDict [(py "paths", PDict Run.unprintable_paths)])
                (tl Run.unprintable)).
  { eexists _, _, _. repeat split; vm_compute; reflexivity. }
  assert (Hm : operation_maps Run.unprintable_paths) by (repeat constructor).
  assert (Hn : ~ printable_paths Run.unprintable_paths).
  { intros Hp. inversion Hp as [|? ? He _]. discriminate He. }
  split; [exact H|]. split; [reflexivity|]. split; [exact Hm|].
  split; [exact Hn|]. split; [vm_compute; reflexivity|].
  exact (unprintable_path_aborts_the_scan (R := Ref.cpython)
           Run.unprintable _ Run.unprintable_paths _ H eq_refl Hm Hn).
Defined.

(** A path that the server answers and the console cannot encode: the
    [[TEST]] print raises before the request, whatever the answer would
    be. *)
Example unprintable_path_is_not_probed :
  py_contains (py "get") Run.get_only = Value true
  /\ encodable Run.fragment_path = false
  /\ fst (urlopen (Runtime := Ref.cpython) (probe_request Run.fragment_path)
            Run.fragment_not_found)
     = Fails (HTTPError 404 (py "Not Found") (Body (Ref.utf8 (Ref.json "{}"))))
  /\ fst (urlopen (Runtime := Ref.cpython) (probe_request Run.fragment_path)
            Run.fragment_no_content)
     = Answers (Response 204 (Body []))
  /\ fst (urlopen (Runtime := Ref.cpython) (probe_request Run.fragment_path)
            Run.fragment_undecodable)
     = Answers (Response 200 (Body [xff]))
  /\ Forall (fun w : @World Ref.cpython =>
               scan_one (R := Ref.cpython) (Run.fragment_path, Run.get_only) w
               = ([], Raise (Exc (Error (PyError (py "UnicodeEncodeError")
                    (py "'utf-8' codec can't encode character '\ud800' in position 10: surrogates not allowed")))),
                  w))
       [Run.fragment_not_found; Run.fragment_no_content; Run.fragment_undecodable].
Proof. repeat split; repeat constructor; vm_compute; reflexivity. Qed.
